(** * WHO SMART guidelines demo: a shallow embedding of the logic layer

    The repository serves maternal and child health workflows twice: as a
    tool set ([who-mcp.py], a thin wrapper over [who_logic.py]) and as an
    HTTP application ([main.py], which carries its own copy of every
    operation).  This development embeds the operations of both files and
    proves the properties of the specification against them.

    Layout: the Python run-time model ([Py]), the proleptic Gregorian
    calendar of [datetime] ([Calendar]), the logic module ([WhoLogic]), the
    tool wrappers ([WhoMcp]) and the HTTP handlers ([MainPy]), the
    definitions the statements are written with ([Observe]); then the
    lemmas, the calendar ones first. *)

From Stdlib Require Import ZArith String Ascii List Floats Lia Bool.
From Stdlib Require Uint63.
From stdpp Require Import gmap strings.

Local Open Scope string_scope.
Local Open Scope Z_scope.

(* ===================================================================== *)
(** * Python values, exceptions and the evaluation monad                  *)
(* ===================================================================== *)

Module Py.

(** JSON-shaped Python values.  A [dict] with string keys is a finite map;
    every dictionary literal of the sources has distinct keys. *)
#[warnings="-register-all"]
Inductive pyval : Type :=
| PNone
| PBool (b : bool)
| PInt (z : Z)
| PFloat (f : float)
| PStr (s : string)
| PList (l : list pyval)
| PTuple (l : list pyval)
| PDict (d : gmap string pyval).

(** The exceptions the modelled code can meet.  Only [ValueError] is ever
    caught by the sources, and one handler prints its message. *)
Inductive exn : Type :=
| ValueError (msg : string)
| TypeError
| AttributeError
| OverflowError
| ZeroDivisionError
| KeyError.

Inductive res (A : Type) : Type :=
| Ok (a : A)
| Raise (e : exn).
Arguments Ok {A} a.
Arguments Raise {A} e.

(** What the interpreter and its libraries supply and this development
    leaves open: fresh identifiers, the clock, textual renderings and the
    parsing of numerals.  No lemma assumes anything about these fields. *)
Class Runtime : Type := {
  uuid4 : nat -> string;               (* str(uuid.uuid4()), by draw number *)
  utcnow_isoformat : string;           (* datetime.utcnow().isoformat() *)
  strftime_year : Z -> string;         (* the text of %Y in strftime *)
  repr_text : pyval -> string;         (* str() of floats and containers *)
  py_round : float -> Z -> float;      (* round(x, ndigits) *)
  float_of_string : string -> option float;   (* float("...") *)
  int_of_string : string -> option Z;         (* int("...") *)
  strptime_error : string -> string;   (* message of strptime's ValueError *)
  float_error : string -> string;      (* message of float()'s ValueError *)
  int_error : pyval -> string          (* message of int()'s ValueError *)
}.

(** Computations draw identifiers from a counter and may raise. *)
Definition M (A : Type) : Type := nat -> res (A * nat).

Definition ret {A} (a : A) : M A := fun n => Ok (a, n).

Definition bind {A B} (c : M A) (k : A -> M B) : M B :=
  fun n => match c n with
           | Ok (a, n') => k a n'
           | Raise e => Raise e
           end.

Definition raise {A} (e : exn) : M A := fun _ => Raise e.

Definition lift {A} (r : res A) : M A :=
  fun n => match r with
           | Ok a => Ok (a, n)
           | Raise e => Raise e
           end.

(** [try: body except ValueError as e: handler(e)].  No body of the sources
    draws an identifier before it raises. *)
Definition try_except_ValueError {A} (body : M A) (handler : string -> M A) : M A :=
  fun n => match body n with
           | Raise (ValueError msg) => handler msg n
           | r => r
           end.

Definition rbind {A B} (r : res A) (k : A -> res B) : res B :=
  match r with
  | Ok a => k a
  | Raise e => Raise e
  end.

Fixpoint mapM {A B} (f : A -> M B) (l : list A) : M (list B) :=
  match l with
  | [] => ret []
  | x :: xs => bind (f x) (fun y => bind (mapM f xs) (fun ys => ret (y :: ys)))
  end.

Declare Scope py_scope.
Delimit Scope py_scope with py.
Notation "x <- c ;; k" := (bind c (fun x => k))
  (at level 100, c at next level, right associativity) : py_scope.

(** ** Dictionaries *)

Definition mkdict (l : list (string * pyval)) : pyval := PDict (list_to_map l).

(** [key in d] *)
Definition dict_contains (d : gmap string pyval) (k : string) : bool :=
  match d !! k with Some _ => true | None => false end.

(** [d.get(key, default)] on a dictionary. *)
Definition dict_get (d : gmap string pyval) (k : string) (dflt : pyval) : pyval :=
  default dflt (d !! k).

(** [d[key]] *)
Definition dict_item (d : gmap string pyval) (k : string) : res pyval :=
  match d !! k with Some v => Ok v | None => Raise KeyError end.

(** [v.get(key)] on an arbitrary value: only dictionaries have the method. *)
Definition method_get (v : pyval) (k : string) : res pyval :=
  match v with
  | PDict d => Ok (dict_get d k PNone)
  | _ => Raise AttributeError
  end.

(** ** Truth values *)

Definition truthy (v : pyval) : bool :=
  match v with
  | PNone => false
  | PBool b => b
  | PInt z => negb (z =? 0)
  | PFloat f => negb (f =? 0)%float
  | PStr s => match s with EmptyString => false | String _ _ => true end
  | PList l | PTuple l => match l with [] => false | _ => true end
  | PDict d => negb (Nat.eqb (size d) 0)
  end.

(** [v is True] *)
Definition is_True (v : pyval) : bool :=
  match v with PBool true => true | _ => false end.

(** ** Numbers *)

(** [float(n)] for an integer: round to nearest even, [OverflowError] past
    the largest finite double. *)
Definition float_of_Z (z : Z) : res float :=
  let f := SF2Prim (binary_normalize prec emax z 0 false) in
  if is_infinity f then Raise OverflowError else Ok f.

(** Integers that are exactly representable, as literals of the sources. *)
Definition float_of_small_Z (z : Z) : float :=
  SF2Prim (binary_normalize prec emax z 0 false).

(** The integer part of [m * 2^e]. *)
Definition trunc_mag (m : positive) (e : Z) : Z :=
  if 0 <=? e then Z.shiftl (Zpos m) e else Z.shiftr (Zpos m) (- e).

(** [int(f)]: truncation toward zero. *)
Definition trunc_float `{Runtime} (f : float) : res Z :=
  match Prim2SF f with
  | S754_zero _ => Ok 0
  | S754_finite s m e => Ok (if s then - trunc_mag m e else trunc_mag m e)
  | S754_infinity _ => Raise OverflowError
  | S754_nan => Raise (ValueError (int_error (PFloat f)))
  end.

(** [int(v)] *)
Definition py_int `{Runtime} (v : pyval) : res Z :=
  match v with
  | PInt z => Ok z
  | PBool b => Ok (if b then 1 else 0)
  | PFloat f => trunc_float f
  | PStr s => match int_of_string s with
              | Some z => Ok z
              | None => Raise (ValueError (int_error v))
              end
  | _ => Raise TypeError
  end.

(** [float(v)] *)
Definition py_float `{Runtime} (v : pyval) : res float :=
  match v with
  | PFloat f => Ok f
  | PInt z => float_of_Z z
  | PBool b => Ok (if b then 1 else 0)%float
  | PStr s => match float_of_string s with
              | Some f => Ok f
              | None => Raise (ValueError (float_error s))
              end
  | _ => Raise TypeError
  end.

(** [v >= k] for an integer literal [k] (exactly representable as a double). *)
Definition py_ge_int (v : pyval) (k : Z) : res bool :=
  match v with
  | PInt z => Ok (k <=? z)
  | PBool b => Ok (k <=? (if b then 1 else 0))
  | PFloat f => Ok (float_of_small_Z k <=? f)%float
  | _ => Raise TypeError
  end.

(** [x % 1] on a float: [fmod] with the sign fixed up as CPython does. *)
Definition float_mod1 (f : float) : float :=
  match Prim2SF f with
  | S754_zero _ => 0%float
  | S754_finite s m e =>
      let a := trunc_mag m e in
      let r := (f - float_of_small_Z (if s then - a else a))%float in
      if (r =? 0)%float then 0%float
      else if (r <? 0)%float then (r + 1)%float else r
  | _ => nan
  end.

(** The numbers of the immunization table: [age_months % 1]. *)
Definition py_mod1 (v : pyval) : res pyval :=
  match v with
  | PInt z => Ok (PInt (z mod 1))
  | PFloat f => Ok (PFloat (float_mod1 f))
  | PBool _ => Ok (PInt 0)
  | _ => Raise TypeError
  end.

(** [v * c] for a float literal [c]. *)
Definition py_mul_float (v : pyval) (c : float) : res pyval :=
  match v with
  | PInt z => rbind (float_of_Z z) (fun f => Ok (PFloat (f * c)%float))
  | PFloat f => Ok (PFloat (f * c)%float)
  | PBool b => Ok (PFloat ((if b then 1 else 0) * c)%float)
  | _ => Raise TypeError
  end.

(** [v * k] for an integer literal [k]. *)
Definition py_mul_int (v : pyval) (k : Z) : res pyval :=
  match v with
  | PInt z => Ok (PInt (z * k))
  | PFloat f => Ok (PFloat (f * float_of_small_Z k)%float)
  | PBool b => Ok (PInt ((if b then 1 else 0) * k))
  | _ => Raise TypeError
  end.

(** [a / b] on floats. *)
Definition float_div (a b : float) : res float :=
  if (b =? 0)%float then Raise ZeroDivisionError else Ok (a / b)%float.

(** [x ** 2] on a float: the square, [OverflowError] when a finite base
    overflows (CPython reports the C library's range error). *)
Definition float_sqr (x : float) : res float :=
  let r := (x * x)%float in
  if is_infinity r && negb (is_infinity x) then Raise OverflowError else Ok r.

(** [v == s] for a string literal [s]. *)
Definition py_eq_str (v : pyval) (s : string) : bool :=
  match v with PStr s' => String.eqb s' s | _ => false end.

(** [v[key]] and [v[i]] on arbitrary values. *)
Definition subscript_key (v : pyval) (k : string) : res pyval :=
  match v with
  | PDict d => dict_item d k
  | _ => Raise TypeError
  end.

Definition subscript_idx (v : pyval) (i : nat) : res pyval :=
  match v with
  | PList l | PTuple l =>
      match nth_error l i with Some x => Ok x | None => Raise KeyError end
  | _ => Raise TypeError
  end.

(** [v.get(key, default)] on an arbitrary value. *)
Definition method_get_default (v : pyval) (k : string) (dflt : pyval) : res pyval :=
  match v with
  | PDict d => Ok (dict_get d k dflt)
  | _ => Raise AttributeError
  end.

(** ** Strings (ASCII; the sources' own literals are ASCII) *)

Definition lower_char (c : ascii) : ascii :=
  let n := nat_of_ascii c in
  if (Nat.leb 65 n && Nat.leb n 90)%bool then ascii_of_nat (n + 32) else c.

Definition upper_char (c : ascii) : ascii :=
  let n := nat_of_ascii c in
  if (Nat.leb 97 n && Nat.leb n 122)%bool then ascii_of_nat (n - 32) else c.

Fixpoint map_string (f : ascii -> ascii) (s : string) : string :=
  match s with
  | EmptyString => EmptyString
  | String c s' => String (f c) (map_string f s')
  end.

Definition str_lower : string -> string := map_string lower_char.
Definition str_upper : string -> string := map_string upper_char.

(** [s.replace(" ", "_")] *)
Definition replace_space (s : string) : string :=
  map_string (fun c => if Ascii.eqb c " " then "_"%char else c) s.

(** [needle in hay] *)
Fixpoint str_contains (needle hay : string) : bool :=
  String.prefix needle hay
  || match hay with
     | EmptyString => false
     | String _ hay' => str_contains needle hay'
     end.

Fixpoint join (sep : string) (l : list string) : string :=
  match l with
  | [] => EmptyString
  | [x] => x
  | x :: xs => x ++ sep ++ join sep xs
  end.

(** [v.lower()]: a string method. *)
Definition method_lower (v : pyval) : res string :=
  match v with
  | PStr s => Ok (str_lower s)
  | _ => Raise AttributeError
  end.

(** [v.startswith(p)] *)
Definition method_startswith (v : pyval) (p : string) : res bool :=
  match v with
  | PStr s => Ok (String.prefix p s)
  | _ => Raise AttributeError
  end.

Definition digit_char (d : Z) : ascii := ascii_of_nat (48 + Z.to_nat d).

Definition digit_val (c : ascii) : option Z :=
  let n := Z.of_nat (nat_of_ascii c) in
  if (48 <=? n) && (n <=? 57) then Some (n - 48) else None.

(** Decimal rendering of an integer, as [str(n)] gives it. *)
Fixpoint nat_digits (fuel : nat) (n : Z) (acc : string) : string :=
  match fuel with
  | O => acc
  | S fuel' =>
      let acc' := String (digit_char (n mod 10)) acc in
      if n <? 10 then acc' else nat_digits fuel' (n / 10) acc'
  end.

Definition str_of_Z (z : Z) : string :=
  if z <? 0 then "-" ++ nat_digits (S (Z.to_nat (Z.log2 (- z)))) (- z) EmptyString
  else nat_digits (S (Z.to_nat (Z.log2 z))) z EmptyString.

(** [str(v)], as an f-string interpolates a value. *)
Definition py_str `{Runtime} (v : pyval) : string :=
  match v with
  | PStr s => s
  | PNone => "None"
  | PBool true => "True"
  | PBool false => "False"
  | PInt z => str_of_Z z
  | _ => repr_text v
  end.

End Py.
Import Py.
Local Open Scope py_scope.

(* ===================================================================== *)
(** * The calendar of [datetime]                                          *)
(* ===================================================================== *)

Module Calendar.

Definition MINYEAR : Z := 1.
Definition MAXYEAR : Z := 9999.
(** [date.max.toordinal()], the ordinal of 9999-12-31. *)
Definition MAXORDINAL : Z := 3652059.

Definition DAYS_IN_MONTH : list Z :=
  [-1; 31; 28; 31; 30; 31; 30; 31; 31; 30; 31; 30; 31].
Definition DAYS_BEFORE_MONTH : list Z :=
  [-1; 0; 31; 59; 90; 120; 151; 181; 212; 243; 273; 304; 334].

Definition is_leap (y : Z) : bool :=
  (y mod 4 =? 0) && (negb (y mod 100 =? 0) || (y mod 400 =? 0)).

Definition days_before_year (y : Z) : Z :=
  let y' := y - 1 in y' * 365 + y' / 4 - y' / 100 + y' / 400.

Definition days_in_month (y m : Z) : Z :=
  if (m =? 2) && is_leap y then 29 else nth (Z.to_nat m) DAYS_IN_MONTH 0.

Definition days_before_month (y m : Z) : Z :=
  nth (Z.to_nat m) DAYS_BEFORE_MONTH 0 + (if (2 <? m) && is_leap y then 1 else 0).

Definition ymd2ord (y m d : Z) : Z :=
  days_before_year y + days_before_month y m + d.

Definition DI400Y : Z := 146097.
Definition DI100Y : Z := 36524.
Definition DI4Y : Z := 1461.

(** The inverse of [ymd2ord], by the 400/100/4/1-year cycles. *)
Definition ord2ymd (n : Z) : Z * Z * Z :=
  let n := n - 1 in
  let n400 := n / DI400Y in
  let n := n mod DI400Y in
  let year := n400 * 400 + 1 in
  let n100 := n / DI100Y in
  let n := n mod DI100Y in
  let n4 := n / DI4Y in
  let n := n mod DI4Y in
  let n1 := n / 365 in
  let n := n mod 365 in
  let year := year + n100 * 100 + n4 * 4 + n1 in
  if (n1 =? 4) || (n100 =? 4) then (year - 1, 12, 31)
  else
    let leapyear := (n1 =? 3) && (negb (n4 =? 24) || (n100 =? 3)) in
    let month := Z.shiftr (n + 50) 5 in
    let preceding :=
      nth (Z.to_nat month) DAYS_BEFORE_MONTH 0
      + (if (2 <? month) && leapyear then 1 else 0) in
    if n <? preceding then
      let month := month - 1 in
      let preceding :=
        preceding - (nth (Z.to_nat month) DAYS_IN_MONTH 0
                     + (if (month =? 2) && leapyear then 1 else 0)) in
      (year, month, n - preceding + 1)
    else (year, month, n - preceding + 1).

(** A [datetime] at midnight.  Every [datetime] of the program comes from
    [strptime] with the format [%Y-%m-%d] and is moved by whole days, so the
    time of day is 00:00:00 throughout and is not stored. *)
Record datetime : Type := mkdatetime { dt_year : Z; dt_month : Z; dt_day : Z }.

(** The field check of the [datetime] constructor. *)
Definition check_date_fields (y m d : Z) : bool :=
  (MINYEAR <=? y) && (y <=? MAXYEAR) && (1 <=? m) && (m <=? 12)
  && (1 <=? d) && (d <=? days_in_month y m).

Definition valid_datetime (t : datetime) : Prop :=
  check_date_fields (dt_year t) (dt_month t) (dt_day t) = true.

Definition toordinal (t : datetime) : Z :=
  ymd2ord (dt_year t) (dt_month t) (dt_day t).

Definition fromordinal (n : Z) : datetime :=
  let '(y, m, d) := ord2ymd n in mkdatetime y m d.

(** [timedelta(days=d)] and [timedelta(weeks=w)], as a number of days. *)
Definition timedelta_days (d : Z) : Z := d.
Definition timedelta_weeks (w : Z) : Z := 7 * w.

(** [t + delta]: [OverflowError] outside 0001-01-01 .. 9999-12-31. *)
Definition add_timedelta (t : datetime) (delta : Z) : res datetime :=
  let o := toordinal t + delta in
  if (1 <=? o) && (o <=? MAXORDINAL) then Ok (fromordinal o)
  else Raise OverflowError.

(** [(a - b).days] *)
Definition sub_days (a b : datetime) : Z := toordinal a - toordinal b.

(** ** Formatting *)

Definition zfill2 (n : Z) : string :=
  String (digit_char (n / 10)) (String (digit_char (n mod 10)) EmptyString).

Definition zfill4 (n : Z) : string :=
  String (digit_char (n / 1000))
    (String (digit_char (n / 100 mod 10)) (zfill2 (n mod 100))).

(** A date as YYYY-MM-DD, every field zero-filled: the text [isoformat]
    starts with, and the form in which the operations take their dates. *)
Definition iso_date (t : datetime) : string :=
  zfill4 (dt_year t) ++ "-" ++ zfill2 (dt_month t) ++ "-" ++ zfill2 (dt_day t).

(** [t.isoformat()] *)
Definition isoformat (t : datetime) : string :=
  iso_date t ++ "T00:00:00".

(** [t.strftime('%Y-%m-%d')].  The text of [%Y] is the C library's: it is
    the year on four digits from the year 1000 on, and before that the
    leading zeros depend on the platform. *)
Definition strftime_ymd `{Runtime} (t : datetime) : string :=
  strftime_year (dt_year t) ++ "-" ++ zfill2 (dt_month t) ++ "-" ++ zfill2 (dt_day t).

(** ** Parsing: [datetime.strptime(s, '%Y-%m-%d')]

    The directives compile to the regular expressions
    [\d\d\d\d], [1[0-2]|0[1-9]|[1-9]] and
    [3[0-1]|[1-2]\d|0[1-9]|[1-9]| [1-9]]; the whole string must match.
    Digits are the ASCII ones. *)

Definition digit_in (c : ascii) (lo hi : Z) : option Z :=
  match digit_val c with
  | Some v => if (lo <=? v) && (v <=? hi) then Some v else None
  | None => None
  end.

Definition parse_year (s : string) : option (Z * string) :=
  match s with
  | String a (String b (String c (String d rest))) =>
      match digit_val a, digit_val b, digit_val c, digit_val d with
      | Some a, Some b, Some c, Some d =>
          Some (1000 * a + 100 * b + 10 * c + d, rest)
      | _, _, _, _ => None
      end
  | _ => None
  end.

Definition expect_dash (s : string) : option string :=
  match s with
  | String c rest => if Ascii.eqb c "-" then Some rest else None
  | EmptyString => None
  end.

Definition month_two_digits (s : string) : option (Z * string) :=
  match s with
  | String a (String b rest) =>
      if Ascii.eqb a "1" then
        match digit_in b 0 2 with Some v => Some (10 + v, rest) | None => None end
      else if Ascii.eqb a "0" then
        match digit_in b 1 9 with Some v => Some (v, rest) | None => None end
      else None
  | _ => None
  end.

Definition month_one_digit (s : string) : option (Z * string) :=
  match s with
  | String a rest =>
      match digit_in a 1 9 with Some v => Some (v, rest) | None => None end
  | EmptyString => None
  end.

(** The month and the dash after it: the alternatives in the order of the
    regular expression. *)
Definition parse_month_dash (s : string) : option (Z * string) :=
  match month_two_digits s with
  | Some (m, rest) =>
      match expect_dash rest with
      | Some rest' => Some (m, rest')
      | None =>
          match month_one_digit s with
          | Some (m, rest) =>
              match expect_dash rest with
              | Some rest' => Some (m, rest')
              | None => None
              end
          | None => None
          end
      end
  | None =>
      match month_one_digit s with
      | Some (m, rest) =>
          match expect_dash rest with
          | Some rest' => Some (m, rest')
          | None => None
          end
      | None => None
      end
  end.

(** The day, up to the end of the string. *)
Definition parse_day_end (s : string) : option Z :=
  match s with
  | String a (String b EmptyString) =>
      if Ascii.eqb a "3" then
        match digit_in b 0 1 with Some v => Some (30 + v) | None => None end
      else if Ascii.eqb a " " then digit_in b 1 9
      else if Ascii.eqb a "0" then digit_in b 1 9
      else
        match digit_in a 1 2, digit_in b 0 9 with
        | Some u, Some v => Some (10 * u + v)
        | _, _ => None
        end
  | String a EmptyString => digit_in a 1 9
  | _ => None
  end.

Definition strptime_ymd (s : string) : option datetime :=
  match parse_year s with
  | Some (y, rest) =>
      match expect_dash rest with
      | Some rest =>
          match parse_month_dash rest with
          | Some (m, rest) =>
              match parse_day_end rest with
              | Some d =>
                  if check_date_fields y m d then Some (mkdatetime y m d) else None
              | None => None
              end
          | None => None
          end
      | None => None
      end
  | None => None
  end.

(** [datetime.strptime(v, '%Y-%m-%d')] on an arbitrary value. *)
Definition strptime `{Runtime} (v : pyval) : res datetime :=
  match v with
  | PStr s =>
      match strptime_ymd s with
      | Some t => Ok t
      | None => Raise (ValueError (strptime_error s))
      end
  | _ => Raise TypeError
  end.

(** ** [dateutil.relativedelta] *)

Record relativedelta : Type :=
  mkrelativedelta { rd_years : Z; rd_months : Z; rd_days : Z }.

Definition sign (z : Z) : Z := if z <? 0 then -1 else 1.

(** [relativedelta(months=months, days=days)]: the constructor carries whole
    years out of the months. *)
Definition relativedelta_of (months days : Z) : relativedelta :=
  if 11 <? Z.abs months then
    let s := sign months in
    mkrelativedelta ((months * s / 12) * s) ((months * s mod 12) * s) days
  else mkrelativedelta 0 months days.

(** [t + r]: shift year and month, clip the day to the month's length,
    [replace] the fields, then add the days. *)
Definition add_relativedelta (t : datetime) (r : relativedelta) : res datetime :=
  let year := dt_year t + rd_years r in
  let month := dt_month t in
  let '(year, month) :=
    if rd_months r =? 0 then (year, month)
    else
      let month := month + rd_months r in
      if 12 <? month then (year + 1, month - 12)
      else if month <? 1 then (year - 1, month + 12)
      else (year, month) in
  let day := Z.min (days_in_month year month) (dt_day t) in
  if check_date_fields year month day then
    add_timedelta (mkdatetime year month day) (timedelta_days (rd_days r))
  else Raise (ValueError ("year " ++ str_of_Z year ++ " is out of range")).

End Calendar.
Import Calendar.

(* ===================================================================== *)
(** * [who_logic.py]                                                      *)
(* ===================================================================== *)

Module WhoLogic.
Section Logic.
Context `{Runtime}.

Definition WHO_SMART_GUIDELINES_URL_BASE : string := "http://who.int/smart-guidelines/".
Definition SERVER_BASE_URL : string := "http://localhost:5001".

(** A returned pair [body, status]. *)
Definition with_status (body : pyval) (status : Z) : pyval :=
  PTuple [body; PInt status].

Definition error_body (msg : string) : pyval := mkdict [("error", PStr msg)].

Definition create_fhir_id : M pyval := fun n => Ok (PStr (uuid4 n), S n).

Definition create_fhir_reference (resource_type : string) (resource_id : pyval)
    (display : pyval) : pyval :=
  let ref : gmap string pyval :=
    {[ "reference" := PStr (resource_type ++ "/" ++ py_str resource_id) ]} in
  PDict (if truthy display then <["display" := display]> ref else ref).

Definition create_codeable_concept (system code display : string) (text : pyval) : pyval :=
  mkdict [
    ("coding", PList [mkdict [("system", PStr system); ("code", PStr code);
                              ("display", PStr display)]]);
    ("text", if truthy text then text else PStr display)].

(** ** Antenatal care *)

Definition register_pregnancy_logic (data : gmap string pyval) : M pyval :=
  if negb (truthy (PDict data)) || negb (dict_contains data "patient_details") then
    ret (with_status (error_body "Patient details not provided") 400)
  else
    patient_details <- lift (dict_item data "patient_details") ;;
    patient_id <- create_fhir_id ;;
    episode_id <- create_fhir_id ;;
    family_name <- lift (method_get patient_details "family_name") ;;
    given_name <- lift (method_get patient_details "given_name") ;;
    birth_date <- lift (method_get patient_details "birth_date") ;;
    gender <- lift (method_get_default patient_details "gender" (PStr "female")) ;;
    identifier_system <-
      lift (method_get_default patient_details "identifier_system"
              (PStr "urn:oid:example-national-id")) ;;
    fresh_value <- create_fhir_id ;;
    identifier_value <-
      lift (method_get_default patient_details "identifier_value" fresh_value) ;;
    let patient_resource := mkdict [
      ("resourceType", PStr "Patient");
      ("id", patient_id);
      ("name", PList [mkdict [("use", PStr "official"); ("family", family_name);
                              ("given", PList [given_name])]]);
      ("birthDate", birth_date);
      ("gender", gender);
      ("identifier", PList [mkdict [("use", PStr "official");
                                    ("system", identifier_system);
                                    ("value", identifier_value)]])] in
    let episode_resource := mkdict [
      ("resourceType", PStr "EpisodeOfCare");
      ("id", episode_id);
      ("status", PStr "active");
      ("type", PList [create_codeable_concept
                        "http://terminology.hl7.org/CodeSystem/episodeofcare-type"
                        "hacc" "Home and Community Care" PNone]);
      ("patient", create_fhir_reference "Patient" patient_id
                    (PStr (py_str given_name ++ " " ++ py_str family_name)));
      ("managingOrganization",
         create_fhir_reference "Organization" (PStr "org-example")
           (PStr "WHO Affiliated Clinic"));
      ("period", mkdict [("start", PStr utcnow_isoformat)])] in
    ret (with_status (mkdict [
      ("message", PStr "Pregnancy registration initiated.");
      ("patient", patient_resource);
      ("episodeOfCare", episode_resource);
      ("next_steps", PStr "Consider providing a patient registration questionnaire.")])
      201).

Definition calculate_edd_logic (data : gmap string pyval) : M pyval :=
  if negb (truthy (PDict data)) || negb (dict_contains data "lmp_date") then
    ret (with_status (error_body "LMP date not provided") 400)
  else
    parsed <- try_except_ValueError
      (lmp_date_str <- lift (dict_item data "lmp_date") ;;
       lmp_date <- lift (strptime lmp_date_str) ;;
       ret (inr (lmp_date_str, lmp_date)))
      (fun _ => ret (inl (with_status
                       (error_body "Invalid LMP date format. Use YYYY-MM-DD.") 400))) ;;
    match parsed with
    | inl early => ret early
    | inr (lmp_date_str, lmp_date) =>
        edd_date <- lift (add_timedelta lmp_date (timedelta_days 280)) ;;
        ret (mkdict [
          ("lmp_date", lmp_date_str);
          ("estimated_delivery_date", PStr (strftime_ymd edd_date));
          ("calculation_method", PStr "Naegele's Rule (LMP + 280 days)")])
    end.

Definition visit_weeks : list (Z * string) := [
  (12, "First contact: Up to 12 weeks");
  (20, "Second contact: 20 weeks");
  (26, "Third contact: 26 weeks");
  (30, "Fourth contact: 30 weeks");
  (34, "Fifth contact: 34 weeks");
  (36, "Sixth contact: 36 weeks");
  (38, "Seventh contact: 38 weeks");
  (40, "Eighth contact: 40 weeks (or around EDD)")].

(** One turn of the loop over [visit_weeks]. *)
Definition anc_activity (lmp_date : datetime) (row : Z * string) : M pyval :=
  let '(weeks, description) := row in
  visit_date <- lift (add_timedelta lmp_date (timedelta_weeks weeks)) ;;
  visit_end <- lift (add_timedelta visit_date (timedelta_days 1)) ;;
  let activity_detail_dict := mkdict [
    ("kind", PStr "Appointment");
    ("code", create_codeable_concept "http://snomed.info/sct" "390807002"
               "Antenatal care (procedure)" PNone);
    ("status", PStr "scheduled");
    ("description", PStr description);
    ("scheduledPeriod", mkdict [("start", PStr (isoformat visit_date));
                                ("end", PStr (isoformat visit_end))])] in
  ret (mkdict [("detail", activity_detail_dict)]).

Definition schedule_anc_visits_logic (data : gmap string pyval) : M pyval :=
  let lmp_date_str := dict_get data "lmp_date" PNone in
  let edd_date_str := dict_get data "edd_date" PNone in
  let patient_id := dict_get data "patient_id" (PStr "patient-example") in
  if negb (truthy lmp_date_str) && negb (truthy edd_date_str) then
    ret (with_status (error_body "Either LMP date or EDD date must be provided") 400)
  else
    parsed <- try_except_ValueError
      (if truthy lmp_date_str then
         lmp_date <- lift (strptime lmp_date_str) ;;
         edd_date <- lift (add_timedelta lmp_date (timedelta_days 280)) ;;
         ret (inr (lmp_date, edd_date))
       else
         edd_date <- lift (strptime edd_date_str) ;;
         lmp_date <- lift (add_timedelta edd_date (- timedelta_days 280)) ;;
         ret (inr (lmp_date, edd_date)))
      (fun _ => ret (inl (with_status
                       (error_body "Invalid date format. Use YYYY-MM-DD.") 400))) ;;
    match parsed with
    | inl early => ret early
    | inr (lmp_date, edd_date) =>
        care_plan_id <- create_fhir_id ;;
        activities <- mapM (anc_activity lmp_date) visit_weeks ;;
        ret (mkdict [
          ("resourceType", PStr "CarePlan");
          ("id", care_plan_id);
          ("status", PStr "active");
          ("intent", PStr "plan");
          ("title", PStr "Antenatal Care Visit Schedule");
          ("description",
             PStr ("Proposed schedule of 8 ANC contacts based on LMP: "
                   ++ strftime_ymd lmp_date));
          ("subject", create_fhir_reference "Patient" patient_id PNone);
          ("period", mkdict [("start", PStr (isoformat lmp_date));
                             ("end", PStr (isoformat edd_date))]);
          ("activity", PList activities);
          ("instantiatesCanonical",
             PList [PStr (WHO_SMART_GUIDELINES_URL_BASE ++ "anc/schedule")])])
    end.

Definition high_bp_risk : pyval := mkdict [
  ("risk_code", PStr "ANC_HIGH_BP");
  ("description", PStr "Elevated blood pressure, potential for pre-eclampsia.");
  ("severity", PStr "high")].

Definition high_bp_recommendation : pyval :=
  PStr "Immediate follow-up with a clinician for blood pressure assessment.".

Definition bleeding_risk : pyval := mkdict [
  ("risk_code", PStr "ANC_BLEEDING");
  ("description", PStr "Patient reports bleeding.");
  ("severity", PStr "high")].

Definition bleeding_recommendation : pyval :=
  PStr "Urgent assessment for cause of bleeding.".

Definition no_risk : pyval := mkdict [
  ("description",
     PStr "No immediate high-risk factors identified based on this limited data.");
  ("severity", PStr "low")].

Definition routine_recommendation : pyval :=
  PStr "Continue routine ANC care as per schedule. Reinforce education on danger signs.".

(** The two lists the analysis appends to, as a pair. *)
Definition findings : Type := (list pyval * list pyval)%type.

Definition append_finding (f : findings) (risk recommendation : pyval) : findings :=
  (fst f ++ [risk], snd f ++ [recommendation])%list.

(** The guarded blood-pressure check, with [or] evaluated left to right. *)
Definition bp_check (bp_systolic bp_diastolic : pyval) (f : findings) : M findings :=
  if truthy bp_systolic && truthy bp_diastolic then
    try_except_ValueError
      (s <- lift (py_int bp_systolic) ;;
       if 140 <=? s then ret (append_finding f high_bp_risk high_bp_recommendation)
       else
         d <- lift (py_int bp_diastolic) ;;
         if 90 <=? d then ret (append_finding f high_bp_risk high_bp_recommendation)
         else ret f)
      (fun _ => ret f)
  else ret f.

Definition analysis_result (f : findings) : pyval :=
  let f :=
    match fst f with
    | [] => append_finding f no_risk routine_recommendation
    | _ :: _ => f
    end in
  mkdict [
    ("analysis_summary", PStr "ANC visit data analyzed.");
    ("risks_identified", PList (fst f));
    ("recommendations", PList (snd f));
    ("guideline_reference",
       PStr (WHO_SMART_GUIDELINES_URL_BASE ++ "anc/risk-assessment"))].

Definition analyze_anc_visit_data_logic (data : gmap string pyval) : M pyval :=
  let f : findings := ([], []) in
  bp_systolic <- lift (method_get (dict_get data "vitals" (PDict ∅)) "bp_systolic") ;;
  bp_diastolic <- lift (method_get (dict_get data "vitals" (PDict ∅)) "bp_diastolic") ;;
  f <- bp_check bp_systolic bp_diastolic f ;;
  bleeding <- lift (method_get (dict_get data "symptoms" (PDict ∅)) "bleeding") ;;
  let f := if is_True bleeding
           then append_finding f bleeding_risk bleeding_recommendation else f in
  ret (analysis_result f).

(** ** Child health *)

Definition register_child_logic (data : gmap string pyval) : M pyval :=
  if negb (truthy (PDict data)) || negb (dict_contains data "child_details") then
    ret (with_status (error_body "Child details not provided") 400)
  else
    child_details <- lift (dict_item data "child_details") ;;
    patient_id <- create_fhir_id ;;
    family_name <- lift (method_get child_details "family_name") ;;
    given_name <- lift (method_get child_details "given_name") ;;
    birth_date <- lift (method_get child_details "birth_date") ;;
    gender <- lift (method_get child_details "gender") ;;
    identifier_system <-
      lift (method_get_default child_details "identifier_system"
              (PStr "urn:oid:example-child-health-id")) ;;
    fresh_value <- create_fhir_id ;;
    identifier_value <-
      lift (method_get_default child_details "identifier_value" fresh_value) ;;
    let patient_resource := mkdict [
      ("resourceType", PStr "Patient");
      ("id", patient_id);
      ("name", PList [mkdict [("use", PStr "official"); ("family", family_name);
                              ("given", PList [given_name])]]);
      ("birthDate", birth_date);
      ("gender", gender);
      ("identifier", PList [mkdict [("use", PStr "official");
                                    ("system", identifier_system);
                                    ("value", identifier_value)]])] in
    ret (with_status (mkdict [
      ("message", PStr "Child registration successful.");
      ("patient", patient_resource)]) 201).

(** A row of the immunization table. *)
Record plan_item : Type :=
  mkitem { vaccine : string; age_months : pyval; dose : string }.

Definition immunization_plan : list plan_item := [
  mkitem "BCG" (PInt 0) "Birth dose";
  mkitem "OPV-0" (PInt 0) "Birth dose";
  mkitem "Hepatitis B - Birth" (PInt 0) "Birth dose";
  mkitem "Pentavalent-1 (DTP-HepB-Hib)" (PFloat 1.5) "1st dose (6 weeks)";
  mkitem "OPV-1" (PFloat 1.5) "1st dose (6 weeks)";
  mkitem "PCV-1" (PFloat 1.5) "1st dose (6 weeks)";
  mkitem "Rotavirus-1" (PFloat 1.5) "1st dose (6 weeks)";
  mkitem "Pentavalent-2" (PFloat 2.5) "2nd dose (10 weeks)";
  mkitem "OPV-2" (PFloat 2.5) "2nd dose (10 weeks)";
  mkitem "PCV-2" (PFloat 2.5) "2nd dose (10 weeks)";
  mkitem "Rotavirus-2" (PFloat 2.5) "2nd dose (10 weeks)";
  mkitem "Pentavalent-3" (PFloat 3.5) "3rd dose (14 weeks)";
  mkitem "OPV-3" (PFloat 3.5) "3rd dose (14 weeks)";
  mkitem "PCV-3" (PFloat 3.5) "3rd dose (14 weeks)";
  mkitem "IPV-1" (PFloat 3.5) "1st dose (14 weeks)";
  mkitem "Measles-Mumps-Rubella (MMR) - 1" (PInt 9) "1st dose";
  mkitem "Vitamin A - 1" (PInt 9) "1st dose";
  mkitem "Measles-Mumps-Rubella (MMR) - 2" (PInt 15) "2nd dose";
  mkitem "DTP Booster 1" (PInt 18) "Booster (1.5 years)";
  mkitem "OPV Booster 1" (PInt 18) "Booster (1.5 years)"].

(** [vaccine_codes], in insertion order: the loop takes the first key that
    occurs in the vaccine's name. *)
Definition vaccine_codes : list (string * (string * string * string)) := [
  ("BCG", ("http://loinc.org", "297BCG", "BCG Vaccine"));
  ("OPV", ("http://loinc.org", "09OPV", "Oral Polio Vaccine"));
  ("Hepatitis B", ("http://loinc.org", "08HEPB", "Hepatitis B Vaccine"));
  ("Pentavalent", ("http://loinc.org", "115", "DTP-HepB-Hib Vaccine"));
  ("PCV", ("http://loinc.org", "100PCV", "Pneumococcal Conjugate Vaccine"));
  ("Rotavirus", ("http://loinc.org", "118ROTA", "Rotavirus Vaccine"));
  ("IPV", ("http://loinc.org", "10IPV", "Inactivated Polio Vaccine"));
  ("MMR", ("http://loinc.org", "04MMR", "MMR Vaccine"));
  ("Vitamin A", ("http://snomed.info/sct", "37384000", "Vitamin A supplement"))].

Fixpoint first_code (name : string) (codes : list (string * (string * string * string)))
    (dflt : string * string * string) : string * string * string :=
  match codes with
  | [] => dflt
  | (key_part, triple) :: rest =>
      if str_contains key_part name then triple else first_code name rest dflt
  end.

Definition vaccine_code (name : string) : string * string * string :=
  first_code name vaccine_codes
    ("http://example.org/vaccines", str_upper (replace_space name), name).

(** The date of a dose: whole months by the calendar, the fraction of a
    month as days at 30.4375 days a month. *)
Definition vaccine_date_of (dob : datetime) (item : plan_item) : res datetime :=
  rbind (py_int (age_months item)) (fun full_months =>
  rbind (py_mod1 (age_months item)) (fun frac =>
  rbind (py_mul_float frac 30.4375) (fun scaled =>
  rbind (py_int scaled) (fun fractional_month_days =>
  add_relativedelta dob (relativedelta_of full_months fractional_month_days))))).

Definition immunization_activity (dob : datetime) (item : plan_item) : M pyval :=
  vaccine_date <- lift (vaccine_date_of dob item) ;;
  let '(code_system, code_val, display_text) := vaccine_code (vaccine item) in
  vaccine_end <- lift (add_timedelta vaccine_date (timedelta_days 7)) ;;
  let activity_detail_dict := mkdict [
    ("kind", PStr "ImmunizationRecommendation");
    ("code", create_codeable_concept code_system code_val display_text PNone);
    ("status", PStr "scheduled");
    ("description", PStr (vaccine item ++ " - " ++ dose item));
    ("scheduledPeriod", mkdict [("start", PStr (isoformat vaccine_date));
                                ("end", PStr (isoformat vaccine_end))])] in
  ret (mkdict [("detail", activity_detail_dict)]).

Definition get_immunization_schedule_logic (data : gmap string pyval) : M pyval :=
  if negb (truthy (PDict data)) || negb (dict_contains data "dob")
     || negb (dict_contains data "patient_id") then
    ret (with_status (error_body "Date of Birth (dob) and patient_id are required") 400)
  else
    parsed <- try_except_ValueError
      (dob_str <- lift (dict_item data "dob") ;;
       dob <- lift (strptime dob_str) ;;
       patient_id <- lift (dict_item data "patient_id") ;;
       ret (inr (dob_str, dob, patient_id)))
      (fun _ => ret (inl (with_status
                       (error_body "Invalid DOB format. Use YYYY-MM-DD.") 400))) ;;
    match parsed with
    | inl early => ret early
    | inr (dob_str, dob, patient_id) =>
        care_plan_id <- create_fhir_id ;;
        activities <- mapM (immunization_activity dob) immunization_plan ;;
        ret (mkdict [
          ("resourceType", PStr "CarePlan");
          ("id", care_plan_id);
          ("status", PStr "active");
          ("intent", PStr "order");
          ("title", PStr "Child Immunization Schedule");
          ("description",
             PStr ("Recommended immunization schedule for child born on "
                   ++ py_str dob_str ++ "."));
          ("subject", create_fhir_reference "Patient" patient_id PNone);
          ("activity", PList activities);
          ("instantiatesCanonical",
             PList [PStr (WHO_SMART_GUIDELINES_URL_BASE ++ "immunization/child")])])
    end.

Definition required_fields : list string :=
  ["dob"; "measurement_date"; "weight_kg"; "height_cm"; "gender"; "patient_id"].

Definition interpretation_system : string :=
  "http://terminology.hl7.org/CodeSystem/v3-ObservationInterpretation".

Definition create_growth_observation (patient_id : pyval) (measurement_date : datetime)
    (code_system code display_text : string) (value : float) (unit : string)
    (interpretation_text interpretation_code_system interpretation_code
       interpretation_display : string) : M pyval :=
  obs_id <- create_fhir_id ;;
  ret (mkdict [
    ("resourceType", PStr "Observation");
    ("id", obs_id);
    ("status", PStr "final");
    ("category", PList [create_codeable_concept
                          "http://terminology.hl7.org/CodeSystem/observation-category"
                          "vital-signs" "Vital Signs" PNone]);
    ("code", create_codeable_concept code_system code display_text PNone);
    ("subject", create_fhir_reference "Patient" patient_id PNone);
    ("effectiveDateTime", PStr (isoformat measurement_date));
    ("valueQuantity", mkdict [("value", PFloat value); ("unit", PStr unit);
                              ("system", PStr "http://unitsofmeasure.org");
                              ("code", PStr unit)]);
    ("interpretation", PList [create_codeable_concept interpretation_code_system
                                interpretation_code interpretation_display
                                (PStr interpretation_text)])]).

(** Weight-for-age: text and code. *)
Definition wfa_interpretation (age_in_months weight_kg : float) : string * string :=
  if (age_in_months <? 60)%float then
    if (weight_kg <? 2 + 0.5 * age_in_months)%float
    then ("Underweight (potential)", "L")
    else ("Normal weight-for-age", "N")
  else ("Normal weight-for-age", "N").

(** Height-for-age: text and code. *)
Definition hfa_interpretation (age_in_months height_cm : float) : string * string :=
  if (age_in_months <? 60)%float then
    if (height_cm <? 50 + age_in_months)%float
    then ("Stunted (potential)", "L")
    else ("Normal height-for-age", "N")
  else ("Normal height-for-age", "N").

(** Weight-for-height: text and code; the division sits under the guard
    [height_cm > 0]. *)
Definition wfh_interpretation (age_in_months weight_kg height_cm : float)
    : res (string * string) :=
  if (0 <? height_cm)%float then
    rbind (float_sqr (height_cm / 100)%float) (fun sq =>
    rbind (float_div weight_kg sq) (fun bmi_like =>
    if (bmi_like <? 15)%float && (6 <? age_in_months)%float
    then Ok ("Wasting (potential)", "L")
    else if (25 <? bmi_like)%float && (24 <? age_in_months)%float
    then Ok ("Overweight (potential)", "H")
    else Ok ("Normal weight-for-height", "N")))
  else Ok ("Cannot calculate weight-for-height due to invalid height", "IE").

(** [all(obs['interpretation'][0]['code'] == "N" for obs in observations
         if obs['interpretation'][0].get('code'))] *)
Fixpoint all_codes_normal (observations : list pyval) : res bool :=
  match observations with
  | [] => Ok true
  | obs :: rest =>
      rbind (subscript_key obs "interpretation") (fun interps =>
      rbind (subscript_idx interps 0) (fun interp =>
      rbind (method_get interp "code") (fun guard =>
      if truthy guard then
        rbind (subscript_key obs "interpretation") (fun interps =>
        rbind (subscript_idx interps 0) (fun interp =>
        rbind (subscript_key interp "code") (fun code =>
        if py_eq_str code "N" then all_codes_normal rest else Ok false)))
      else all_codes_normal rest)))
  end.

Definition growth_normal_note : string :=
  "Child growth appears normal based on provided measurements (simplified assessment).".
Definition growth_assess_note : string :=
  "Further assessment needed if any indicators are abnormal.".
Definition growth_disclaimer : string :=
  "Z-score calculations and interpretations are highly simplified. Use WHO Anthro library or official tools for accurate assessment.".

Definition growth_monitoring_logic (data : gmap string pyval) : M pyval :=
  if negb (forallb (dict_contains data) required_fields) then
    let missing := List.filter (fun field => negb (dict_contains data field))
                     required_fields in
    ret (with_status
           (error_body ("Missing one or more required fields: " ++ join ", " missing))
           400)
  else
    parsed <- try_except_ValueError
      (dob <- lift (rbind (dict_item data "dob") strptime) ;;
       measurement_date <- lift (rbind (dict_item data "measurement_date") strptime) ;;
       weight_kg <- lift (rbind (dict_item data "weight_kg") py_float) ;;
       height_cm <- lift (rbind (dict_item data "height_cm") py_float) ;;
       gender <- lift (rbind (dict_item data "gender") method_lower) ;;
       patient_id <- lift (dict_item data "patient_id") ;;
       if negb (String.eqb gender "male" || String.eqb gender "female") then
         ret (inl (with_status (error_body "Gender must be 'male' or 'female'") 400))
       else
         ret (inr (dob, measurement_date, weight_kg, height_cm, gender, patient_id)))
      (fun e => ret (inl (with_status
         (error_body ("Invalid data type or date format: " ++ e
                      ++ ". Use YYYY-MM-DD for dates, numbers for measurements."))
         400))) ;;
    match parsed with
    | inl early => ret early
    | inr (dob, measurement_date, weight_kg, height_cm, gender, patient_id) =>
        let age_in_days := sub_days measurement_date dob in
        if age_in_days <? 0 then
          ret (with_status
                 (error_body "Measurement date cannot be before date of birth.") 400)
        else
          let age_in_months := (float_of_small_Z age_in_days / 30.4375)%float in
          let '(wfa_text, wfa_code) := wfa_interpretation age_in_months weight_kg in
          wfa <- create_growth_observation patient_id measurement_date
                   "http://loinc.org" "3141-9" "Body weight Measured -- Wt/Age"
                   weight_kg "kg" wfa_text interpretation_system wfa_code wfa_text ;;
          let '(hfa_text, hfa_code) := hfa_interpretation age_in_months height_cm in
          hfa <- create_growth_observation patient_id measurement_date
                   "http://loinc.org" "8308-9" "Body height Measured -- Ht/Age"
                   height_cm "cm" hfa_text interpretation_system hfa_code hfa_text ;;
          wfh_pair <- lift (wfh_interpretation age_in_months weight_kg height_cm) ;;
          let '(wfh_text, wfh_code) := wfh_pair in
          wfh <- create_growth_observation patient_id measurement_date
                   "http://loinc.org" "8340-2" "Body weight Measured -- Wt/Len"
                   weight_kg "kg" wfh_text interpretation_system wfh_code wfh_text ;;
          let observations := [wfa; hfa; wfh] in
          normal <- lift (all_codes_normal observations) ;;
          let overall_health_status :=
            if normal then growth_normal_note else growth_assess_note in
          ret (mkdict [
            ("message", PStr "Growth monitoring data processed (simplified assessment).");
            ("age_in_days", PInt age_in_days);
            ("age_in_months", PFloat (py_round age_in_months 2));
            ("measurements_processed",
               mkdict [("weight_kg", PFloat weight_kg); ("height_cm", PFloat height_cm);
                       ("gender", PStr gender)]);
            ("fhir_observations", PList observations);
            ("overall_health_status_note", PStr overall_health_status);
            ("disclaimer", PStr growth_disclaimer)])
    end.

End Logic.
End WhoLogic.

(* ===================================================================== *)
(** * [who-mcp.py]: the tool surface                                      *)
(* ===================================================================== *)

(** Each tool builds the dictionary the logic function expects.  An optional
    parameter left out by the caller arrives as [None] ([PNone]) and is put
    in the dictionary under its key all the same. *)
Module WhoMcp.
Section Tools.
Context `{Runtime}.

Definition register_pregnancy (patient_details : pyval) : M pyval :=
  WhoLogic.register_pregnancy_logic {[ "patient_details" := patient_details ]}.

Definition calculate_edd (lmp_date : pyval) : M pyval :=
  WhoLogic.calculate_edd_logic {[ "lmp_date" := lmp_date ]}.

Definition schedule_anc_visits (lmp_date edd_date patient_id : pyval) : M pyval :=
  WhoLogic.schedule_anc_visits_logic
    (list_to_map [("lmp_date", lmp_date); ("edd_date", edd_date);
                  ("patient_id", patient_id)]).

Definition analyze_anc_visit_data (vitals symptoms patient_id : pyval) : M pyval :=
  WhoLogic.analyze_anc_visit_data_logic
    (list_to_map [("vitals", vitals); ("symptoms", symptoms);
                  ("patient_id", patient_id)]).

Definition register_child (child_details : pyval) : M pyval :=
  WhoLogic.register_child_logic {[ "child_details" := child_details ]}.

Definition get_immunization_schedule (dob patient_id : pyval) : M pyval :=
  WhoLogic.get_immunization_schedule_logic
    (list_to_map [("dob", dob); ("patient_id", patient_id)]).

Definition growth_monitoring (dob measurement_date weight_kg height_cm gender
    patient_id : pyval) : M pyval :=
  WhoLogic.growth_monitoring_logic
    (list_to_map [("dob", dob); ("measurement_date", measurement_date);
                  ("weight_kg", weight_kg); ("height_cm", height_cm);
                  ("gender", gender); ("patient_id", patient_id)]).

End Tools.
End WhoMcp.

(* ===================================================================== *)
(** * [main.py]: the HTTP surface                                         *)
(* ===================================================================== *)

(** The handlers of the HTTP application, which do not call [who_logic] but
    carry their own code.  [data] is the JSON object of the request body and
    [jsonify] is the identity on values.  The module is embedded on its
    dictionary path ([FHIR_RESOURCES_AVAILABLE] false, the value
    [who_logic.py] hardcodes); the other path builds objects of the optional
    [fhir.resources] library, which is outside the model.  Where [main.py]
    repeats a literal or a test of [who_logic.py] word for word (the
    immunization table, the vaccine codes, the risk entries, the
    weight-for-age and height-for-age tests, the texts of the notes), the
    definition of [WhoLogic] stands for both. *)
Module MainPy.
Section Handlers.
Context `{Runtime}.

Definition FHIR_RESOURCES_AVAILABLE : bool := false.

Definition WHO_SMART_GUIDELINES_URL_BASE : string := "http://who.int/smart-guidelines/".

Definition with_status (body : pyval) (status : Z) : pyval :=
  PTuple [body; PInt status].

Definition error_body (msg : string) : pyval := mkdict [("error", PStr msg)].

Definition create_fhir_id : M pyval := fun n => Ok (PStr (uuid4 n), S n).

Definition create_fhir_reference (resource_type : string) (resource_id : pyval)
    (display : pyval) : pyval :=
  mkdict [("reference", PStr (resource_type ++ "/" ++ py_str resource_id));
          ("display", display)].

Definition create_codeable_concept (system code display : string) (text : pyval) : pyval :=
  mkdict [
    ("coding", PList [mkdict [("system", PStr system); ("code", PStr code);
                              ("display", PStr display)]]);
    ("text", if truthy text then text else PStr display)].

(** The unguarded blood-pressure check: the values are compared as they
    came. *)
Definition bp_check (bp_systolic bp_diastolic : pyval) (f : WhoLogic.findings)
    : M WhoLogic.findings :=
  if truthy bp_systolic && truthy bp_diastolic then
    s <- lift (py_ge_int bp_systolic 140) ;;
    if s : bool then
      ret (WhoLogic.append_finding f WhoLogic.high_bp_risk WhoLogic.high_bp_recommendation)
    else
      d <- lift (py_ge_int bp_diastolic 90) ;;
      if d : bool then
        ret (WhoLogic.append_finding f WhoLogic.high_bp_risk
               WhoLogic.high_bp_recommendation)
      else ret f
  else ret f.

Definition analyze_anc_visit_data (data : gmap string pyval) : M pyval :=
  let f : WhoLogic.findings := ([], []) in
  bp_systolic <- lift (method_get (dict_get data "vitals" (PDict ∅)) "bp_systolic") ;;
  bp_diastolic <- lift (method_get (dict_get data "vitals" (PDict ∅)) "bp_diastolic") ;;
  f <- bp_check bp_systolic bp_diastolic f ;;
  bleeding <- lift (method_get (dict_get data "symptoms" (PDict ∅)) "bleeding") ;;
  let f := if is_True bleeding
           then WhoLogic.append_finding f WhoLogic.bleeding_risk
                  WhoLogic.bleeding_recommendation
           else f in
  ret (WhoLogic.analysis_result f).

(** The date of a dose: the fraction of a month at 30 days a month. *)
Definition vaccine_date_of (dob : datetime) (item : WhoLogic.plan_item) : res datetime :=
  rbind (py_int (WhoLogic.age_months item)) (fun full_months =>
  rbind (py_mod1 (WhoLogic.age_months item)) (fun frac =>
  rbind (py_mul_int frac 30) (fun scaled =>
  rbind (py_int scaled) (fun fractional_month_days =>
  add_relativedelta dob (relativedelta_of full_months fractional_month_days))))).

Definition immunization_activity (dob : datetime) (item : WhoLogic.plan_item) : M pyval :=
  vaccine_date <- lift (vaccine_date_of dob item) ;;
  let '(code_system, code_val, display_text) :=
    WhoLogic.vaccine_code (WhoLogic.vaccine item) in
  vaccine_end <- lift (add_timedelta vaccine_date (timedelta_days 7)) ;;
  let activity_detail_dict := mkdict [
    ("kind", PStr "ImmunizationRecommendation");
    ("code", create_codeable_concept code_system code_val display_text PNone);
    ("status", PStr "scheduled");
    ("description", PStr (WhoLogic.vaccine item ++ " - " ++ WhoLogic.dose item));
    ("scheduledPeriod", mkdict [("start", PStr (isoformat vaccine_date));
                                ("end", PStr (isoformat vaccine_end))])] in
  ret (mkdict [("detail", activity_detail_dict)]).

Definition get_immunization_schedule (data : gmap string pyval) : M pyval :=
  if negb (truthy (PDict data)) || negb (dict_contains data "dob")
     || negb (dict_contains data "patient_id") then
    ret (with_status (error_body "Date of Birth (dob) and patient_id are required") 400)
  else
    parsed <- try_except_ValueError
      (dob_str <- lift (dict_item data "dob") ;;
       dob <- lift (strptime dob_str) ;;
       patient_id <- lift (dict_item data "patient_id") ;;
       ret (inr (dob_str, dob, patient_id)))
      (fun _ => ret (inl (with_status
                       (error_body "Invalid DOB format. Use YYYY-MM-DD.") 400))) ;;
    match parsed with
    | inl early => ret early
    | inr (dob_str, dob, patient_id) =>
        care_plan_id <- create_fhir_id ;;
        activities <- mapM (immunization_activity dob) WhoLogic.immunization_plan ;;
        ret (mkdict [
          ("resourceType", PStr "CarePlan");
          ("id", care_plan_id);
          ("status", PStr "active");
          ("intent", PStr "order");
          ("title", PStr "Child Immunization Schedule");
          ("subject", create_fhir_reference "Patient" patient_id PNone);
          ("activity", PList activities);
          ("instantiatesCanonical",
             PList [PStr (WHO_SMART_GUIDELINES_URL_BASE ++ "immunization/child")])])
    end.

Definition create_growth_observation (patient_id : pyval) (measurement_date : datetime)
    (code_system code display_text : string) (value : float) (unit : string)
    (interpretation_text interpretation_code_system interpretation_code
       interpretation_display : string) : M pyval :=
  obs_id <- create_fhir_id ;;
  ret (mkdict [
    ("resourceType", PStr "Observation");
    ("id", obs_id);
    ("status", PStr "final");
    ("code", create_codeable_concept code_system code display_text PNone);
    ("subject", create_fhir_reference "Patient" patient_id PNone);
    ("effectiveDateTime", PStr (isoformat measurement_date));
    ("valueQuantity", mkdict [("value", PFloat value); ("unit", PStr unit)]);
    ("interpretation", PList [create_codeable_concept interpretation_code_system
                                interpretation_code interpretation_display
                                (PStr interpretation_text)])]).

(** Weight-for-height: no branch for a height that is not positive, so the
    initial text and code stand; each test recomputes the ratio under its own
    guard. *)
Definition wfh_interpretation (age_in_months weight_kg height_cm : float)
    : res (string * string) :=
  rbind
    (if (0 <? height_cm)%float then
       rbind (float_sqr (height_cm / 100)%float) (fun sq =>
       rbind (float_div weight_kg sq) (fun bmi_like =>
       Ok ((bmi_like <? 15)%float && (6 <? age_in_months)%float)))
     else Ok false)
    (fun wasting : bool =>
  if wasting then Ok ("Wasting (potential)", "L")
  else
    rbind
      (if (0 <? height_cm)%float then
         rbind (float_sqr (height_cm / 100)%float) (fun sq =>
         rbind (float_div weight_kg sq) (fun bmi_like =>
         Ok ((25 <? bmi_like)%float && (24 <? age_in_months)%float)))
       else Ok false)
      (fun overweight : bool =>
    if overweight then Ok ("Overweight (potential)", "H")
    else Ok ("Normal weight-for-height", "N"))).

(** [all(obs['interpretation'][0]['text'].startswith("Normal") for obs in ...)] *)
Fixpoint all_texts_normal (observations : list pyval) : res bool :=
  match observations with
  | [] => Ok true
  | obs :: rest =>
      rbind (subscript_key obs "interpretation") (fun interps =>
      rbind (subscript_idx interps 0) (fun interp =>
      rbind (subscript_key interp "text") (fun text =>
      rbind (method_startswith text "Normal") (fun b : bool =>
      if b then all_texts_normal rest else Ok false))))
  end.

(** [all(obs.interpretation[0].text.startswith("Normal") for obs in ...)]:
    an observation is a dictionary here and has no such attribute. *)
Definition all_attr_texts_normal (observations : list pyval) : res bool :=
  match observations with
  | [] => Ok true
  | _ :: _ => Raise AttributeError
  end.

(** The condition of the overall-status [if]: two [all(...)] joined by [or],
    each over the observations its [if] clause lets through. *)
Definition overall_normal (observations : list pyval) : res bool :=
  rbind (all_texts_normal
           (List.filter (fun _ => negb FHIR_RESOURCES_AVAILABLE) observations))
    (fun first : bool =>
  if first then Ok true
  else all_attr_texts_normal
         (List.filter (fun _ => FHIR_RESOURCES_AVAILABLE) observations)).

Definition growth_monitoring (data : gmap string pyval) : M pyval :=
  if negb (forallb (dict_contains data) WhoLogic.required_fields) then
    ret (with_status
           (error_body "Missing one or more required fields: ['dob', 'measurement_date', 'weight_kg', 'height_cm', 'gender', 'patient_id']")
           400)
  else
    parsed <- try_except_ValueError
      (dob <- lift (rbind (dict_item data "dob") strptime) ;;
       measurement_date <- lift (rbind (dict_item data "measurement_date") strptime) ;;
       weight_kg <- lift (rbind (dict_item data "weight_kg") py_float) ;;
       height_cm <- lift (rbind (dict_item data "height_cm") py_float) ;;
       gender <- lift (rbind (dict_item data "gender") method_lower) ;;
       patient_id <- lift (dict_item data "patient_id") ;;
       if negb (String.eqb gender "male" || String.eqb gender "female") then
         ret (inl (with_status (error_body "Gender must be 'male' or 'female'") 400))
       else
         ret (inr (dob, measurement_date, weight_kg, height_cm, gender, patient_id)))
      (fun _ => ret (inl (with_status
         (error_body "Invalid data type or date format. Use YYYY-MM-DD for dates, numbers for measurements.")
         400))) ;;
    match parsed with
    | inl early => ret early
    | inr (dob, measurement_date, weight_kg, height_cm, gender, patient_id) =>
        let age_in_days := sub_days measurement_date dob in
        let age_in_months := (float_of_small_Z age_in_days / 30.4375)%float in
        let '(wfa_text, wfa_code) :=
          WhoLogic.wfa_interpretation age_in_months weight_kg in
        wfa <- create_growth_observation patient_id measurement_date
                 "http://loinc.org" "3141-9" "Body weight Measured -- Wt/Age"
                 weight_kg "kg" wfa_text WhoLogic.interpretation_system wfa_code
                 wfa_text ;;
        let '(hfa_text, hfa_code) :=
          WhoLogic.hfa_interpretation age_in_months height_cm in
        hfa <- create_growth_observation patient_id measurement_date
                 "http://loinc.org" "8308-9" "Body height Measured -- Ht/Age"
                 height_cm "cm" hfa_text WhoLogic.interpretation_system hfa_code
                 hfa_text ;;
        wfh_pair <- lift (wfh_interpretation age_in_months weight_kg height_cm) ;;
        let '(wfh_text, wfh_code) := wfh_pair in
        wfh <- create_growth_observation patient_id measurement_date
                 "http://loinc.org" "8340-2" "Body weight Measured -- Wt/Len"
                 weight_kg "kg" wfh_text WhoLogic.interpretation_system wfh_code
                 wfh_text ;;
        let observations := [wfa; hfa; wfh] in
        normal <- lift (overall_normal observations) ;;
        let overall_health_status :=
          if normal : bool then WhoLogic.growth_normal_note
          else WhoLogic.growth_assess_note in
        ret (mkdict [
          ("message", PStr "Growth monitoring data processed (simplified assessment).");
          ("age_in_days", PInt age_in_days);
          ("age_in_months", PFloat (py_round age_in_months 2));
          ("measurements_processed",
             mkdict [("weight_kg", PFloat weight_kg); ("height_cm", PFloat height_cm);
                     ("gender", PStr gender)]);
          ("fhir_observations", PList observations);
          ("overall_health_status_note", PStr overall_health_status);
          ("disclaimer", PStr WhoLogic.growth_disclaimer)])
    end.

(** ** The remaining handlers: registration, the delivery date, the visits *)

Definition register_pregnancy (data : gmap string pyval) : M pyval :=
  if negb (truthy (PDict data)) || negb (dict_contains data "patient_details") then
    ret (with_status (error_body "Patient details not provided") 400)
  else
    patient_details <- lift (dict_item data "patient_details") ;;
    patient_id <- create_fhir_id ;;
    episode_id <- create_fhir_id ;;
    family_name <- lift (method_get patient_details "family_name") ;;
    given_name <- lift (method_get patient_details "given_name") ;;
    birth_date <- lift (method_get patient_details "birth_date") ;;
    gender <- lift (method_get_default patient_details "gender" (PStr "female")) ;;
    identifier_system <-
      lift (method_get_default patient_details "identifier_system"
              (PStr "urn:oid:example-national-id")) ;;
    fresh_value <- create_fhir_id ;;
    identifier_value <-
      lift (method_get_default patient_details "identifier_value" fresh_value) ;;
    let patient_resource := mkdict [
      ("resourceType", PStr "Patient");
      ("id", patient_id);
      ("name", PList [mkdict [("use", PStr "official"); ("family", family_name);
                              ("given", PList [given_name])]]);
      ("birthDate", birth_date);
      ("gender", gender);
      ("identifier", PList [mkdict [("use", PStr "official");
                                    ("system", identifier_system);
                                    ("value", identifier_value)]])] in
    let episode_resource := mkdict [
      ("resourceType", PStr "EpisodeOfCare");
      ("id", episode_id);
      ("status", PStr "active");
      ("type", PList [create_codeable_concept
                        "http://terminology.hl7.org/CodeSystem/episodeofcare-type"
                        "hacc" "Home and Community Care" PNone]);
      ("patient", create_fhir_reference "Patient" patient_id PNone);
      ("managingOrganization",
         create_fhir_reference "Organization" (PStr "org-example")
           (PStr "WHO Affiliated Clinic"));
      ("period", mkdict [("start", PStr utcnow_isoformat)])] in
    ret (with_status (mkdict [
      ("message", PStr "Pregnancy registration initiated.");
      ("patient", patient_resource);
      ("episodeOfCare", episode_resource);
      ("next_steps", PStr "Consider providing a patient registration questionnaire.")])
      201).

Definition calculate_edd (data : gmap string pyval) : M pyval :=
  if negb (truthy (PDict data)) || negb (dict_contains data "lmp_date") then
    ret (with_status (error_body "LMP date not provided") 400)
  else
    parsed <- try_except_ValueError
      (lmp_date_str <- lift (dict_item data "lmp_date") ;;
       lmp_date <- lift (strptime lmp_date_str) ;;
       ret (inr (lmp_date_str, lmp_date)))
      (fun _ => ret (inl (with_status
                       (error_body "Invalid LMP date format. Use YYYY-MM-DD.") 400))) ;;
    match parsed with
    | inl early => ret early
    | inr (lmp_date_str, lmp_date) =>
        edd_date <- lift (add_timedelta lmp_date (timedelta_days 280)) ;;
        ret (mkdict [
          ("lmp_date", lmp_date_str);
          ("estimated_delivery_date", PStr (strftime_ymd edd_date));
          ("calculation_method", PStr "Naegele's Rule (LMP + 280 days)")])
    end.

(** One turn of the loop over the week table. *)
Definition anc_activity (lmp_date : datetime) (row : Z * string) : M pyval :=
  let '(weeks, description) := row in
  visit_date <- lift (add_timedelta lmp_date (timedelta_weeks weeks)) ;;
  visit_end <- lift (add_timedelta visit_date (timedelta_days 1)) ;;
  let activity_detail_dict := mkdict [
    ("kind", PStr "Appointment");
    ("code", create_codeable_concept "http://snomed.info/sct" "390807002"
               "Antenatal care (procedure)" PNone);
    ("status", PStr "scheduled");
    ("description", PStr description);
    ("scheduledPeriod", mkdict [("start", PStr (isoformat visit_date));
                                ("end", PStr (isoformat visit_end))])] in
  ret (mkdict [("detail", activity_detail_dict)]).

(** The care plan of this handler has neither a description nor a period. *)
Definition schedule_anc_visits (data : gmap string pyval) : M pyval :=
  let lmp_date_str := dict_get data "lmp_date" PNone in
  let edd_date_str := dict_get data "edd_date" PNone in
  let patient_id := dict_get data "patient_id" (PStr "patient-example") in
  if negb (truthy lmp_date_str) && negb (truthy edd_date_str) then
    ret (with_status (error_body "Either LMP date or EDD date must be provided") 400)
  else
    parsed <- try_except_ValueError
      (if truthy lmp_date_str then
         lmp_date <- lift (strptime lmp_date_str) ;;
         edd_date <- lift (add_timedelta lmp_date (timedelta_days 280)) ;;
         ret (inr (lmp_date, edd_date))
       else
         edd_date <- lift (strptime edd_date_str) ;;
         reference_date <- lift (add_timedelta edd_date (- timedelta_days 280)) ;;
         ret (inr (reference_date, edd_date)))
      (fun _ => ret (inl (with_status
                       (error_body "Invalid date format. Use YYYY-MM-DD.") 400))) ;;
    match parsed with
    | inl early => ret early
    | inr (lmp_date, edd_date) =>
        care_plan_id <- create_fhir_id ;;
        activities <- mapM (anc_activity lmp_date) WhoLogic.visit_weeks ;;
        ret (mkdict [
          ("resourceType", PStr "CarePlan");
          ("id", care_plan_id);
          ("status", PStr "active");
          ("intent", PStr "plan");
          ("title", PStr "Antenatal Care Visit Schedule");
          ("subject", create_fhir_reference "Patient" patient_id PNone);
          ("activity", PList activities);
          ("instantiatesCanonical",
             PList [PStr (WHO_SMART_GUIDELINES_URL_BASE ++ "anc/schedule")])])
    end.

Definition register_child (data : gmap string pyval) : M pyval :=
  if negb (truthy (PDict data)) || negb (dict_contains data "child_details") then
    ret (with_status (error_body "Child details not provided") 400)
  else
    child_details <- lift (dict_item data "child_details") ;;
    patient_id <- create_fhir_id ;;
    family_name <- lift (method_get child_details "family_name") ;;
    given_name <- lift (method_get child_details "given_name") ;;
    birth_date <- lift (method_get child_details "birth_date") ;;
    gender <- lift (method_get child_details "gender") ;;
    identifier_system <-
      lift (method_get_default child_details "identifier_system"
              (PStr "urn:oid:example-child-health-id")) ;;
    fresh_value <- create_fhir_id ;;
    identifier_value <-
      lift (method_get_default child_details "identifier_value" fresh_value) ;;
    let patient_resource := mkdict [
      ("resourceType", PStr "Patient");
      ("id", patient_id);
      ("name", PList [mkdict [("use", PStr "official"); ("family", family_name);
                              ("given", PList [given_name])]]);
      ("birthDate", birth_date);
      ("gender", gender);
      ("identifier", PList [mkdict [("use", PStr "official");
                                    ("system", identifier_system);
                                    ("value", identifier_value)]])] in
    ret (with_status (mkdict [
      ("message", PStr "Child registration successful.");
      ("patient", patient_resource)]) 201).

End Handlers.
End MainPy.

(* ===================================================================== *)
(** * Definitions used to state and check the properties                  *)
(* ===================================================================== *)

Module Observe.

(** A run-time instance for the closed examples; any other would do. *)
Definition demo_runtime : Runtime := {|
  uuid4 := fun n => "id-" ++ str_of_Z (Z.of_nat n);
  utcnow_isoformat := "2024-01-01T00:00:00";
  strftime_year := zfill4;
  repr_text := fun _ => "<value>";
  py_round := fun f _ => f;
  float_of_string := fun _ => None;
  int_of_string := fun _ => None;
  strptime_error := fun _ => "time data does not match format";
  float_error := fun _ => "could not convert string to float";
  int_error := fun _ => "invalid literal for int()" |}.

(** The date [k] days after [t], by ordinals. *)
Definition plus_days (t : datetime) (k : Z) : datetime :=
  fromordinal (toordinal t + k).

(** [a <= b] on dates, field by field. *)
Definition date_leb (a b : datetime) : bool :=
  (dt_year a <? dt_year b)
  || ((dt_year a =? dt_year b)
      && ((dt_month a <? dt_month b)
          || ((dt_month a =? dt_month b) && (dt_day a <=? dt_day b)))).

(** Lookup in a dictionary literal, first binding first. *)
Fixpoint assoc (k : string) (l : list (string * pyval)) : option pyval :=
  match l with
  | [] => None
  | (k', v) :: l' => if String.eqb k' k then Some v else assoc k l'
  end.

Definition at_key (k : string) (v : pyval) : option pyval :=
  match v with PDict d => d !! k | _ => None end.

Definition at_idx (i : nat) (v : pyval) : option pyval :=
  match v with PList l | PTuple l => nth_error l i | _ => None end.

(** A path into a nested value: keys and positions. *)
Inductive step : Type := Key (k : string) | Idx (i : nat).

Fixpoint follow (p : list step) (v : pyval) : option pyval :=
  match p with
  | [] => Some v
  | Key k :: p' => match at_key k v with Some v' => follow p' v' | None => None end
  | Idx i :: p' => match at_idx i v with Some v' => follow p' v' | None => None end
  end.

Definition as_list (v : pyval) : option (list pyval) :=
  match v with PList l => Some l | _ => None end.

Definition as_str (v : pyval) : option string :=
  match v with PStr s => Some s | _ => None end.

Definition keys_of (v : pyval) : gset string :=
  match v with PDict d => dom d | _ => ∅ end.

(** What a call returned, without the identifier counter. *)
Definition returned {A} (r : res (A * nat)) : option A :=
  match r with Ok (a, _) => Some a | Raise _ => None end.

(** The outcome of a call, without the identifier counter. *)
Definition outcome {A} (r : res (A * nat)) : res A :=
  match r with Ok (a, _) => Ok a | Raise e => Raise e end.

(** The body and the status of a response; a bare body stands for 200. *)
Definition response_body (v : pyval) : pyval :=
  match v with PTuple [b; _] => b | _ => v end.

Definition response_status (v : pyval) : Z :=
  match v with PTuple [_; PInt c] => c | _ => 200 end.

Definition activities_of (plan : pyval) : option (list pyval) :=
  at_key "activity" plan ≫= as_list.

Definition activity_start (a : pyval) : option string :=
  follow [Key "detail"; Key "scheduledPeriod"; Key "start"] a ≫= as_str.

Definition activity_end (a : pyval) : option string :=
  follow [Key "detail"; Key "scheduledPeriod"; Key "end"] a ≫= as_str.

Definition activity_description (a : pyval) : option string :=
  follow [Key "detail"; Key "description"] a ≫= as_str.

(** The end of the window of the last activity of a care plan. *)
Definition last_activity_end (plan : pyval) : option string :=
  match activities_of plan with
  | Some acts => match last acts with Some a => activity_end a | None => None end
  | None => None
  end.

(** The interpretation code of an observation. *)
Definition interpretation_code (obs : pyval) : option string :=
  follow [Key "interpretation"; Idx 0; Key "coding"; Idx 0; Key "code"] obs ≫= as_str.

(** The interpretation codes of a growth response, in order. *)
Definition growth_codes (v : pyval) : option (list (option string)) :=
  l ← at_key "fhir_observations" v ≫= as_list; Some (map interpretation_code l).

Definition growth_note (v : pyval) : option string :=
  at_key "overall_health_status_note" v ≫= as_str.

Definition is_bp_flag (risk : pyval) : bool :=
  match at_key "risk_code" risk with
  | Some (PStr c) => String.eqb c "ANC_HIGH_BP"
  | _ => false
  end.

(** How many blood-pressure flags an analysis carries. *)
Definition count_bp_flags (v : pyval) : option nat :=
  l ← at_key "risks_identified" v ≫= as_list;
  Some (length (List.filter is_bp_flag l)).

Definition risks_of (v : pyval) : option (list pyval) :=
  at_key "risks_identified" v ≫= as_list.

Definition recommendations_of (v : pyval) : option (list pyval) :=
  at_key "recommendations" v ≫= as_list.

(** The gender of the Patient resource in a registration response. *)
Definition registered_gender (v : pyval) : option pyval :=
  follow [Key "patient"; Key "gender"] (response_body v).

(** What the two immunization handlers are compared on: the activity list
    of a care plan, any other returned value as it is, or the exception. *)
Definition schedule_view (r : res (pyval * nat)) : res (option pyval + pyval) :=
  match r with
  | Ok (PDict d, _) => Ok (inl (d !! "activity"))
  | Ok (v, _) => Ok (inr v)
  | Raise e => Raise e
  end.

(** A blood-pressure reading the guard lets through and [int()] accepts: a
    nonzero integer or a nonzero finite double. *)
Definition is_reading (v : pyval) : bool :=
  match v with
  | PInt z => negb (z =? 0)
  | PFloat f => match Prim2SF f with S754_finite _ _ _ => true | _ => false end
  | _ => false
  end.

(** [v >= k] on a number, for an integer threshold. *)
Definition at_least (v : pyval) (k : Z) : bool :=
  match v with
  | PInt z => k <=? z
  | PFloat f => (float_of_small_Z k <=? f)%float
  | _ => false
  end.

(** The findings the specification asks for: the blood-pressure entry, then
    the bleeding entry, each with its recommendation. *)
Definition expected_findings (bp bleeding : bool) : WhoLogic.findings :=
  (((if bp then [WhoLogic.high_bp_risk] else [])
    ++ (if bleeding then [WhoLogic.bleeding_risk] else []))%list,
   ((if bp then [WhoLogic.high_bp_recommendation] else [])
    ++ (if bleeding then [WhoLogic.bleeding_recommendation] else []))%list).

(** The shift a row of the immunization table asks for, as
    [WhoLogic.vaccine_date_of] computes it before it touches the date. *)
Definition item_delta `{Runtime} (item : WhoLogic.plan_item) : res relativedelta :=
  rbind (py_int (WhoLogic.age_months item)) (fun full_months =>
  rbind (py_mod1 (WhoLogic.age_months item)) (fun frac =>
  rbind (py_mul_float frac 30.4375) (fun scaled =>
  rbind (py_int scaled) (fun fractional_month_days =>
  Ok (relativedelta_of full_months fractional_month_days))))).

(** The request body the tool [growth_monitoring] builds. *)
Definition growth_request (dob measurement_date weight_kg height_cm gender
    patient_id : pyval) : gmap string pyval :=
  list_to_map [("dob", dob); ("measurement_date", measurement_date);
               ("weight_kg", weight_kg); ("height_cm", height_cm);
               ("gender", gender); ("patient_id", patient_id)].

(** [isinstance(v, dict)] *)
Definition is_dict (v : pyval) : bool :=
  match v with PDict _ => true | _ => false end.

(** The start of the window of the last activity of a care plan. *)
Definition last_activity_start (plan : pyval) : option string :=
  match activities_of plan with
  | Some acts => match last acts with Some a => activity_start a | None => None end
  | None => None
  end.

(** The period of a care plan. *)
Definition period_start (plan : pyval) : option string :=
  follow [Key "period"; Key "start"] plan ≫= as_str.

Definition period_end (plan : pyval) : option string :=
  follow [Key "period"; Key "end"] plan ≫= as_str.

(** A registration response: the identifier of the Patient resource and the
    reference the EpisodeOfCare resource makes to its patient. *)
Definition registered_patient_id (v : pyval) : option pyval :=
  follow [Key "patient"; Key "id"] (response_body v).

Definition episode_patient_reference (v : pyval) : option pyval :=
  follow [Key "episodeOfCare"; Key "patient"; Key "reference"] (response_body v).

(** The age in months the growth operation computes from an age in days. *)
Definition months_of_days (age_in_days : Z) : float :=
  (float_of_small_Z age_in_days / 30.4375)%float.

(** The month of [t], counted in months from January of the year 0. *)
Definition month_index (t : datetime) : Z := 12 * dt_year t + dt_month t - 1.

(** The date [k] calendar months after [t], the day clipped to the length
    of the month it lands in. *)
Definition plus_months (t : datetime) (k : Z) : datetime :=
  let y := (month_index t + k) / 12 in
  let m := (month_index t + k) mod 12 + 1 in
  mkdatetime y m (Z.min (days_in_month y m) (dt_day t)).

(** The number of days of the calendar before the month of index [i]. *)
Definition month_start (i : Z) : Z :=
  days_before_year (i / 12) + days_before_month (i / 12) (i mod 12 + 1).

(** What the ages of the immunization table stand for, row by row: whole
    calendar months, and 15 days for the half month. *)
Definition table_shifts : list (Z * Z) :=
  [(0, 0); (0, 0); (0, 0);
   (1, 15); (1, 15); (1, 15); (1, 15);
   (2, 15); (2, 15); (2, 15); (2, 15);
   (3, 15); (3, 15); (3, 15); (3, 15);
   (9, 0); (9, 0); (15, 0); (18, 0); (18, 0)].

(** The shifts the table asks for: at most 18 months, no days with more than
    15 months. *)
Definition shift_ok (s : Z * Z) : Prop :=
  0 <= fst s /\ 0 <= snd s <= 15 /\ (fst s <= 15 \/ (fst s <= 18 /\ snd s = 0)).

(** The date a shift of months and days leads to from [D]. *)
Definition dose_date (D : datetime) (s : Z * Z) : datetime :=
  plus_days (plus_months D (fst s)) (snd s).

Fixpoint nondecreasing (l : list Z) : Prop :=
  match l with
  | a :: (b :: _) as rest => a <= b /\ nondecreasing rest
  | _ => True
  end.

(** The findings after the blood-pressure check: with its entry, or as they
    were. *)
Definition flagged (bp : bool) (f : WhoLogic.findings) : WhoLogic.findings :=
  if bp then WhoLogic.append_finding f WhoLogic.high_bp_risk WhoLogic.high_bp_recommendation
  else f.

(** What the two growth handlers are compared on: the interpretation codes
    of the returned observations, or the exception. *)
Definition growth_view (r : res (pyval * nat)) : res (option (list (option string))) :=
  match r with
  | Ok (v, _) => Ok (growth_codes v)
  | Raise e => Raise e
  end.

(** A growth answer is an error answer without a note, or a result whose
    note is the text for normal growth. *)
Definition note_ok (v : pyval) : Prop :=
  (growth_note v = None /\ response_status v = 400)
  \/ (growth_note v = Some WhoLogic.growth_normal_note /\ response_status v = 200).

End Observe.
Import Observe.

(** Boolean checks over finite ranges, run once by computation. *)
Module CalendarChecks.

Definition dim_flag (leap : bool) (m : Z) : Z :=
  if (m =? 2) && leap then 29 else nth (Z.to_nat m) DAYS_IN_MONTH 0.

Definition dbm_flag (leap : bool) (m : Z) : Z :=
  nth (Z.to_nat m) DAYS_BEFORE_MONTH 0 + (if (2 <? m) && leap then 1 else 0).

(** Month and day from the day of the year, as [ord2ymd] ends. *)
Definition yday_split (leapyear : bool) (n : Z) : Z * Z :=
  let month := Z.shiftr (n + 50) 5 in
  let preceding := dbm_flag leapyear month in
  if n <? preceding then
    let month := month - 1 in
    let preceding :=
      preceding - (nth (Z.to_nat month) DAYS_IN_MONTH 0
                   + (if (month =? 2) && leapyear then 1 else 0)) in
    (month, n - preceding + 1)
  else (month, n - preceding + 1).

Definition yday_check (leap : bool) (k : Z) : bool :=
  let '(m, d) := yday_split leap k in
  (1 <=? m) && (m <=? 12) && (1 <=? d) && (d <=? dim_flag leap m)
  && (dbm_flag leap m + d =? k + 1).

Definition zrange (n : nat) : list Z := map Z.of_nat (seq 0 n).

(** Validity of a date's fields, as a proposition. *)
Definition valid_ymd (y m d : Z) : Prop :=
  1 <= y <= 9999 /\ 1 <= m <= 12 /\ 1 <= d <= days_in_month y m.

Definition md_check (leap : bool) (md : Z * Z) : bool :=
  let '(m, d) := md in
  negb ((1 <=? d) && (d <=? dim_flag leap m))
  || (let '(m', d') := yday_split leap (dbm_flag leap m + d - 1) in
      (m' =? m) && (d' =? d)
      && (dbm_flag leap m + d <=? (if leap then 366 else 365))).

Definition md_pairs : list (Z * Z) :=
  flat_map (fun m => map (fun d => (m, d)) (map (Z.add 1) (zrange 31)))
           (map (Z.add 1) (zrange 12)).

End CalendarChecks.
Import CalendarChecks.

(** Boolean checks over long ranges of integers, by halving. *)
Module RangeChecks.

(** [P] on the [2 ^ depth] integers from [lo] on. *)
Fixpoint all_in (depth : nat) (lo : Z) (P : Z -> bool) : bool :=
  match depth with
  | O => P lo
  | S d => all_in d lo P && all_in d (lo + 2 ^ Z.of_nat d) P
  end.

(** [months_of_days] with the machine's conversion of an integer to a double
    in place of the rounding function. *)
Definition months_of_days_machine (age_in_days : Z) : float :=
  (of_uint63 (Uint63.of_Z age_in_days) / 30.4375)%float.

End RangeChecks.
Import RangeChecks.

(* ===================================================================== *)
(** * Lemmas                                                              *)
(* ===================================================================== *)

Example str_of_Z_examples :
  str_of_Z 0 = "0" /\ str_of_Z 280 = "280" /\ str_of_Z (-15) = "-15" /\ str_of_Z 1024 = "1024".
Proof. repeat split; reflexivity. Qed.

(** ** The calendar: [ord2ymd] inverts [ymd2ord] *)

Section CalendarFacts.

Lemma is_leap_cases y :
  is_leap y = true <-> (y mod 4 = 0 /\ (y mod 100 <> 0 \/ y mod 400 = 0)).
Proof.
  unfold is_leap. rewrite andb_true_iff, orb_true_iff, negb_true_iff.
  rewrite !Z.eqb_eq, Z.eqb_neq. tauto.
Qed.

Lemma days_before_year_succ y :
  days_before_year (y + 1) = days_before_year y + (if is_leap y then 366 else 365).
Proof.
  destruct (is_leap y) eqn:E.
  - apply is_leap_cases in E. unfold days_before_year. cbv zeta.
    replace (y + 1 - 1) with y by lia.
    Z.div_mod_to_equations. lia.
  - assert (N : ~ (y mod 4 = 0 /\ (y mod 100 <> 0 \/ y mod 400 = 0))).
    { intro N. apply is_leap_cases in N. congruence. }
    unfold days_before_year. cbv zeta.
    replace (y + 1 - 1) with y by lia.
    Z.div_mod_to_equations. lia.
Qed.

Lemma days_before_year_mono a b :
  a <= b -> days_before_year a <= days_before_year b.
Proof.
  intros L. unfold days_before_year. cbv zeta. Z.div_mod_to_equations. lia.
Qed.

Lemma zrange_In n k : 0 <= k < Z.of_nat n -> In k (zrange n).
Proof.
  intros R. unfold zrange. apply in_map_iff. exists (Z.to_nat k). split; [lia|].
  apply in_seq. lia.
Qed.

Lemma yday_split_ok (leap : bool) (k : Z) :
  0 <= k < (if leap then 366 else 365) -> yday_check leap k = true.
Proof.
  intros R.
  assert (A : forallb (yday_check true) (zrange 366) = true) by (vm_compute; reflexivity).
  assert (B : forallb (yday_check false) (zrange 365) = true) by (vm_compute; reflexivity).
  destruct leap.
  - rewrite forallb_forall in A. apply A, zrange_In. lia.
  - rewrite forallb_forall in B. apply B, zrange_In. lia.
Qed.

Lemma ord2ymd_eq n :
  ord2ymd n =
  let n0 := n - 1 in
  let n400 := n0 / 146097 in
  let r1 := n0 mod 146097 in
  let n100 := r1 / 36524 in
  let r2 := r1 mod 36524 in
  let n4 := r2 / 1461 in
  let r3 := r2 mod 1461 in
  let n1 := r3 / 365 in
  let r4 := r3 mod 365 in
  let year := n400 * 400 + 1 + n100 * 100 + n4 * 4 + n1 in
  if (n1 =? 4) || (n100 =? 4) then (year - 1, 12, 31)
  else
    let md := yday_split ((n1 =? 3) && (negb (n4 =? 24) || (n100 =? 3))) r4 in
    (year, fst md, snd md).
Proof.
  unfold ord2ymd, yday_split, dbm_flag, DI400Y, DI100Y, DI4Y. cbv zeta.
  destruct (_ || _); [reflexivity|].
  destruct (_ <? _); reflexivity.
Qed.

Lemma ord2ymd_spec n :
  1 <= n <= MAXORDINAL ->
  let '(y, m, d) := ord2ymd n in
  valid_ymd y m d /\ ymd2ord y m d = n.
Proof.
  intros Hn. unfold MAXORDINAL in Hn. rewrite ord2ymd_eq. cbv zeta.
  set (n0 := n - 1).
  set (n400 := n0 / 146097). set (r1 := n0 mod 146097).
  set (n100 := r1 / 36524). set (r2 := r1 mod 36524).
  set (n4 := r2 / 1461). set (r3 := r2 mod 1461).
  set (n1 := r3 / 365). set (r4 := r3 mod 365).
  assert (E1 : n0 = 146097 * n400 + r1 /\ 0 <= r1 < 146097)
    by (subst n400 r1; split; [apply Z.div_mod | apply Z.mod_pos_bound]; lia).
  assert (E2 : r1 = 36524 * n100 + r2 /\ 0 <= r2 < 36524)
    by (subst n100 r2; split; [apply Z.div_mod | apply Z.mod_pos_bound]; lia).
  assert (E3 : r2 = 1461 * n4 + r3 /\ 0 <= r3 < 1461)
    by (subst n4 r3; split; [apply Z.div_mod | apply Z.mod_pos_bound]; lia).
  assert (E4 : r3 = 365 * n1 + r4 /\ 0 <= r4 < 365)
    by (subst n1 r4; split; [apply Z.div_mod | apply Z.mod_pos_bound]; lia).
  clearbody n400 r1 n100 r2 n4 r3 n1 r4.
  assert (E0 : n0 = n - 1) by reflexivity. clearbody n0.
  destruct ((n1 =? 4) || (n100 =? 4)) eqn:Hc.
  - apply orb_true_iff in Hc. rewrite !Z.eqb_eq in Hc.
    assert (L : is_leap (n400 * 400 + 1 + n100 * 100 + n4 * 4 + n1 - 1) = true).
    { apply is_leap_cases. Z.div_mod_to_equations. lia. }
    unfold valid_ymd, ymd2ord, days_in_month, days_before_month.
    rewrite L. simpl. unfold days_before_year. cbv zeta.
    Z.div_mod_to_equations. lia.
  - apply orb_false_iff in Hc. rewrite !Z.eqb_neq in Hc.
    set (leap := (n1 =? 3) && (negb (n4 =? 24) || (n100 =? 3))).
    set (year := n400 * 400 + 1 + n100 * 100 + n4 * 4 + n1).
    assert (L : is_leap year = leap).
    { subst leap year. destruct ((n1 =? 3) && _) eqn:E.
      - apply andb_true_iff in E. rewrite orb_true_iff, negb_true_iff in E.
        rewrite Z.eqb_eq, Z.eqb_neq, Z.eqb_eq in E.
        apply is_leap_cases. Z.div_mod_to_equations. lia.
      - apply andb_false_iff in E. rewrite orb_false_iff, negb_false_iff in E.
        rewrite Z.eqb_neq, !Z.eqb_eq in E.
        destruct (is_leap _) eqn:E'; [|reflexivity].
        apply is_leap_cases in E'. exfalso. Z.div_mod_to_equations. lia. }
    assert (K : 0 <= r4 < (if leap then 366 else 365)) by (destruct leap; lia).
    pose proof (yday_split_ok leap r4 K) as C. unfold yday_check in C.
    destruct (yday_split leap r4) as [m d]. simpl fst. simpl snd.
    rewrite !andb_true_iff in C. rewrite !Z.leb_le, Z.eqb_eq in C.
    unfold valid_ymd, ymd2ord.
    change (days_in_month year m) with (dim_flag (is_leap year) m).
    change (days_before_month year m) with (dbm_flag (is_leap year) m).
    rewrite L.
    assert (Y : days_before_year year + r4 + 1 = n).
    { subst year. unfold days_before_year. cbv zeta. Z.div_mod_to_equations. lia. }
    assert (1 <= year <= 9999) by (subst year; lia).
    lia.
Qed.

Lemma md_pairs_In m d : 1 <= m <= 12 -> 1 <= d <= 31 -> In (m, d) md_pairs.
Proof.
  intros Hm Hd. unfold md_pairs. apply in_flat_map. exists m. split.
  - apply in_map_iff. exists (m - 1). split; [lia|]. apply zrange_In. lia.
  - apply in_map_iff. exists d. split; [reflexivity|].
    apply in_map_iff. exists (d - 1). split; [lia|]. apply zrange_In. lia.
Qed.

Lemma month_cases m :
  1 <= m <= 12 ->
  m = 1 \/ m = 2 \/ m = 3 \/ m = 4 \/ m = 5 \/ m = 6 \/ m = 7 \/ m = 8
  \/ m = 9 \/ m = 10 \/ m = 11 \/ m = 12.
Proof. lia. Qed.

Lemma dim_flag_bounds leap m : 1 <= m <= 12 -> 28 <= dim_flag leap m <= 31.
Proof.
  intros Hm. unfold dim_flag.
  destruct (month_cases m Hm) as [->|[->|[->|[->|[->|[->|[->|[->|[->|[->|[->| ->]]]]]]]]]]];
    destruct leap; simpl; lia.
Qed.

Lemma dbm_flag_bounds leap m : 1 <= m <= 12 -> 0 <= dbm_flag leap m <= 335.
Proof.
  intros Hm. unfold dbm_flag.
  destruct (month_cases m Hm) as [->|[->|[->|[->|[->|[->|[->|[->|[->|[->|[->| ->]]]]]]]]]]];
    destruct leap; simpl; lia.
Qed.

Lemma yday_split_inv (leap : bool) (m d : Z) :
  1 <= m <= 12 -> 1 <= d <= dim_flag leap m ->
  yday_split leap (dbm_flag leap m + d - 1) = (m, d)
  /\ dbm_flag leap m + d <= (if leap then 366 else 365).
Proof.
  intros Hm Hd.
  assert (A : forallb (md_check true) md_pairs = true) by (vm_compute; reflexivity).
  assert (B : forallb (md_check false) md_pairs = true) by (vm_compute; reflexivity).
  assert (C : md_check leap (m, d) = true).
  { pose proof (dim_flag_bounds leap m Hm).
    destruct leap;
      [rewrite forallb_forall in A; apply A | rewrite forallb_forall in B; apply B];
      apply md_pairs_In; lia. }
  unfold md_check in C.
  apply orb_true_iff in C. destruct C as [C|C].
  - apply negb_true_iff, andb_false_iff in C. rewrite !Z.leb_gt in C. lia.
  - destruct (yday_split _ _) as [m' d'].
    rewrite !andb_true_iff, !Z.eqb_eq, Z.leb_le in C.
    destruct C as [[-> ->] ?]. split; [reflexivity | assumption].
Qed.

Lemma ymd2ord_bounds y m d :
  valid_ymd y m d ->
  days_before_year y + 1 <= ymd2ord y m d <= days_before_year (y + 1).
Proof.
  intros (Hy & Hm & Hd). unfold ymd2ord.
  change (days_in_month y m) with (dim_flag (is_leap y) m) in Hd.
  change (days_before_month y m) with (dbm_flag (is_leap y) m).
  destruct (yday_split_inv (is_leap y) m d Hm Hd) as [_ U].
  rewrite days_before_year_succ.
  pose proof (dbm_flag_bounds (is_leap y) m Hm).
  destruct (is_leap y); lia.
Qed.

Lemma ymd2ord_range y m d :
  valid_ymd y m d -> 1 <= ymd2ord y m d <= MAXORDINAL.
Proof.
  intros V. pose proof (ymd2ord_bounds _ _ _ V) as B. destruct V as (Hy & _).
  pose proof (days_before_year_mono 1 y ltac:(lia)) as L1.
  pose proof (days_before_year_mono (y + 1) 10000 ltac:(lia)) as L2.
  change (days_before_year 1) with 0 in L1.
  change (days_before_year 10000) with 3652059 in L2.
  unfold MAXORDINAL. lia.
Qed.

Lemma ymd2ord_inj y m d y' m' d' :
  valid_ymd y m d -> valid_ymd y' m' d' ->
  ymd2ord y m d = ymd2ord y' m' d' -> (y, m, d) = (y', m', d').
Proof.
  intros V V' E.
  pose proof (ymd2ord_bounds _ _ _ V) as B.
  pose proof (ymd2ord_bounds _ _ _ V') as B'.
  assert (y = y').
  { destruct (Z.lt_trichotomy y y') as [L|[L|L]]; [|assumption|]; exfalso.
    - pose proof (days_before_year_mono (y + 1) y' ltac:(lia)). lia.
    - pose proof (days_before_year_mono (y' + 1) y ltac:(lia)). lia. }
  subst y'. destruct V as (_ & Hm & Hd), V' as (_ & Hm' & Hd').
  change (days_in_month y m) with (dim_flag (is_leap y) m) in Hd.
  change (days_in_month y m') with (dim_flag (is_leap y) m') in Hd'.
  destruct (yday_split_inv _ _ _ Hm Hd) as [S1 _].
  destruct (yday_split_inv _ _ _ Hm' Hd') as [S2 _].
  unfold ymd2ord in E.
  change (days_before_month y m) with (dbm_flag (is_leap y) m) in E.
  change (days_before_month y m') with (dbm_flag (is_leap y) m') in E.
  replace (dbm_flag (is_leap y) m' + d' - 1)
    with (dbm_flag (is_leap y) m + d - 1) in S2 by lia.
  congruence.
Qed.

Lemma ord2ymd_ymd2ord y m d :
  valid_ymd y m d -> ord2ymd (ymd2ord y m d) = (y, m, d).
Proof.
  intros V. pose proof (ymd2ord_range _ _ _ V) as R.
  pose proof (ord2ymd_spec _ R) as S.
  destruct (ord2ymd _) as [[y' m'] d']. destruct S as [V' E].
  apply ymd2ord_inj; assumption.
Qed.

(** The same facts on [datetime] values. *)

Lemma valid_datetime_iff t :
  valid_datetime t <-> valid_ymd (dt_year t) (dt_month t) (dt_day t).
Proof.
  unfold valid_datetime, check_date_fields, valid_ymd, MINYEAR, MAXYEAR.
  rewrite !andb_true_iff, !Z.leb_le. tauto.
Qed.

Lemma toordinal_range t : valid_datetime t -> 1 <= toordinal t <= MAXORDINAL.
Proof. intros V. apply ymd2ord_range, valid_datetime_iff, V. Qed.

Lemma fromordinal_toordinal t : valid_datetime t -> fromordinal (toordinal t) = t.
Proof.
  intros V. unfold fromordinal, toordinal.
  rewrite ord2ymd_ymd2ord by (apply valid_datetime_iff, V).
  destruct t; reflexivity.
Qed.

Lemma fromordinal_spec n :
  1 <= n <= MAXORDINAL ->
  valid_datetime (fromordinal n) /\ toordinal (fromordinal n) = n.
Proof.
  intros R. pose proof (ord2ymd_spec n R) as S.
  unfold fromordinal, toordinal. destruct (ord2ymd n) as [[y m] d].
  destruct S as [V E]. split; [apply valid_datetime_iff; exact V | exact E].
Qed.

Lemma add_timedelta_ok t k :
  1 <= toordinal t + k <= MAXORDINAL ->
  add_timedelta t k = Ok (plus_days t k).
Proof.
  intros R. unfold add_timedelta, plus_days. cbv zeta.
  destruct (Z.leb_spec 1 (toordinal t + k)); [|lia].
  destruct (Z.leb_spec (toordinal t + k) MAXORDINAL); [|lia].
  reflexivity.
Qed.

Lemma add_timedelta_overflow t k :
  MAXORDINAL < toordinal t + k -> add_timedelta t k = Raise OverflowError.
Proof.
  intros R. unfold add_timedelta. cbv zeta.
  destruct (Z.leb_spec (toordinal t + k) MAXORDINAL); [lia|].
  rewrite andb_false_r. reflexivity.
Qed.

Lemma plus_days_spec t k :
  1 <= toordinal t + k <= MAXORDINAL ->
  valid_datetime (plus_days t k) /\ toordinal (plus_days t k) = toordinal t + k.
Proof. intros R. apply fromordinal_spec, R. Qed.

Lemma plus_days_plus_days t j k :
  1 <= toordinal t + j <= MAXORDINAL ->
  plus_days (plus_days t j) k = plus_days t (j + k).
Proof.
  intros R. unfold plus_days at 1. rewrite (proj2 (plus_days_spec t j R)).
  unfold plus_days. f_equal. lia.
Qed.

Lemma plus_days_0 t : valid_datetime t -> plus_days t 0 = t.
Proof.
  intros V. unfold plus_days. rewrite Z.add_0_r. apply fromordinal_toordinal, V.
Qed.

End CalendarFacts.

(** ** Parsing inverts formatting *)

Section Roundtrip.

Lemma digit_cases k :
  0 <= k <= 9 ->
  k = 0 \/ k = 1 \/ k = 2 \/ k = 3 \/ k = 4 \/ k = 5 \/ k = 6 \/ k = 7 \/ k = 8 \/ k = 9.
Proof. lia. Qed.

Lemma digit_val_char k : 0 <= k <= 9 -> digit_val (digit_char k) = Some k.
Proof.
  intros R.
  destruct (digit_cases k R) as [->|[->|[->|[->|[->|[->|[->|[->|[->| ->]]]]]]]]];
    reflexivity.
Qed.

Lemma parse_year_zfill4 y rest :
  0 <= y <= 9999 -> parse_year (zfill4 y ++ rest) = Some (y, rest).
Proof.
  intros R. unfold zfill4, zfill2. cbv [String.append]. unfold parse_year.
  rewrite !digit_val_char by (Z.div_mod_to_equations; lia).
  f_equal. f_equal. Z.div_mod_to_equations. lia.
Qed.

Lemma parse_month_zfill2 m rest :
  1 <= m <= 12 -> parse_month_dash (zfill2 m ++ "-" ++ rest) = Some (m, rest).
Proof.
  intros R.
  destruct (month_cases m R) as [->|[->|[->|[->|[->|[->|[->|[->|[->|[->|[->| ->]]]]]]]]]]];
    reflexivity.
Qed.

Lemma parse_day_zfill2 d : 1 <= d <= 31 -> parse_day_end (zfill2 d) = Some d.
Proof.
  intros R.
  assert (C : forallb (fun d => match parse_day_end (zfill2 d) with
                                | Some d' => d' =? d
                                | None => false
                                end) (map (Z.add 1) (zrange 31)) = true)
    by (vm_compute; reflexivity).
  rewrite forallb_forall in C.
  specialize (C d). destruct (parse_day_end (zfill2 d)) as [d'|].
  - f_equal. apply Z.eqb_eq, C. apply in_map_iff. exists (d - 1).
    split; [lia | apply zrange_In; lia].
  - discriminate C. apply in_map_iff. exists (d - 1).
    split; [lia | apply zrange_In; lia].
Qed.

Lemma strptime_iso_date t :
  valid_datetime t -> strptime_ymd (iso_date t) = Some t.
Proof.
  intros V. pose proof V as V'. apply valid_datetime_iff in V'.
  destruct V' as (Hy & Hm & Hd).
  pose proof (dim_flag_bounds (is_leap (dt_year t)) (dt_month t) Hm) as B.
  change (dim_flag (is_leap (dt_year t)) (dt_month t))
    with (days_in_month (dt_year t) (dt_month t)) in B.
  unfold strptime_ymd, iso_date.
  rewrite parse_year_zfill4 by lia.
  change (expect_dash ("-" ++ ?r)) with (Some r). cbv beta iota.
  rewrite parse_month_zfill2 by lia.
  rewrite parse_day_zfill2 by lia.
  unfold valid_datetime in V. rewrite V. destruct t; reflexivity.
Qed.

Lemma strptime_of_iso_date `{Runtime} t :
  valid_datetime t -> strptime (PStr (iso_date t)) = Ok t.
Proof. intros V. unfold strptime. rewrite strptime_iso_date by exact V. reflexivity. Qed.

End Roundtrip.

(** ** Evaluation lemmas *)

Section Evaluation.
Context `{Runtime}.

Lemma lookup_list_to_map_assoc (k : string) (l : list (string * pyval)) :
  (list_to_map l : gmap string pyval) !! k = assoc k l.
Proof.
  induction l as [|[k' v] l IH]; [reflexivity|].
  cbn [list_to_map foldr assoc]. change (foldr _ ∅ l) with (list_to_map l : gmap string pyval).
  destruct (String.eqb_spec k' k) as [->|N].
  - apply lookup_insert_eq.
  - rewrite lookup_insert_ne by exact N. exact IH.
Qed.

Lemma at_key_mkdict k l : at_key k (mkdict l) = assoc k l.
Proof. apply lookup_list_to_map_assoc. Qed.

Lemma dict_nonempty (d : gmap string pyval) k v :
  d !! k = Some v -> truthy (PDict d) = true.
Proof.
  intros L. cbn [truthy]. destruct (size d) eqn:E; [|reflexivity].
  apply map_size_empty_iff in E. subst d. rewrite lookup_empty in L. discriminate.
Qed.

Lemma dict_contains_Some (d : gmap string pyval) k v :
  d !! k = Some v -> dict_contains d k = true.
Proof. intros L. unfold dict_contains. rewrite L. reflexivity. Qed.

Lemma dict_item_Some (d : gmap string pyval) k v :
  d !! k = Some v -> dict_item d k = Ok v.
Proof. intros L. unfold dict_item. rewrite L. reflexivity. Qed.

Lemma dict_get_Some (d : gmap string pyval) k v dflt :
  d !! k = Some v -> dict_get d k dflt = v.
Proof. intros L. unfold dict_get. rewrite L. reflexivity. Qed.

Lemma dict_get_None (d : gmap string pyval) k dflt :
  d !! k = None -> dict_get d k dflt = dflt.
Proof. intros L. unfold dict_get. rewrite L. reflexivity. Qed.

End Evaluation.

(** Reading a key out of a dictionary literal. *)
Ltac read_literal :=
  repeat (rewrite at_key_mkdict; cbn [assoc String.eqb Ascii.eqb Bool.eqb]).

(** ** Registration: the gender default *)

Section Registration.
Context `{Runtime}.

(** C10.  A pregnancy registration whose [patient_details] has no [gender]
    key returns a Patient with gender ["female"]; a child registration whose
    [child_details] has no [gender] key returns a Patient whose gender is
    [None].  Both answer with status 201. *)
Theorem gender_default_only_for_pregnancy
    (details : gmap string pyval) (data_p data_c : gmap string pyval) (n : nat) :
  details !! "gender" = None ->
  data_p !! "patient_details" = Some (PDict details) ->
  data_c !! "child_details" = Some (PDict details) ->
  (exists v, returned (WhoLogic.register_pregnancy_logic data_p n) = Some v
             /\ response_status v = 201
             /\ registered_gender v = Some (PStr "female"))
  /\ (exists v, returned (WhoLogic.register_child_logic data_c n) = Some v
                /\ response_status v = 201
                /\ registered_gender v = Some PNone).
Proof.
  intros G P C. split.
  - unfold WhoLogic.register_pregnancy_logic.
    rewrite (dict_nonempty _ _ _ P), (dict_contains_Some _ _ _ P). cbn [negb orb].
    unfold bind, lift, ret, WhoLogic.create_fhir_id.
    rewrite (dict_item_Some _ _ _ P). cbn [method_get method_get_default].
    rewrite (dict_get_None _ _ _ G).
    eexists. split; [reflexivity|]. split; [reflexivity|].
    unfold registered_gender, WhoLogic.with_status, response_body, follow.
    read_literal. reflexivity.
  - unfold WhoLogic.register_child_logic.
    rewrite (dict_nonempty _ _ _ C), (dict_contains_Some _ _ _ C). cbn [negb orb].
    unfold bind, lift, ret, WhoLogic.create_fhir_id.
    rewrite (dict_item_Some _ _ _ C). cbn [method_get method_get_default].
    rewrite (dict_get_None _ _ _ G).
    eexists. split; [reflexivity|]. split; [reflexivity|].
    unfold registered_gender, WhoLogic.with_status, response_body, follow.
    read_literal. reflexivity.
Qed.

End Registration.

(** ** Visit analysis: the risk flags *)

Section Analysis.
Context `{Runtime}.

Lemma is_bp_flag_values :
  is_bp_flag WhoLogic.high_bp_risk = true
  /\ is_bp_flag WhoLogic.bleeding_risk = false
  /\ is_bp_flag WhoLogic.no_risk = false.
Proof. repeat split; vm_compute; reflexivity. Qed.

Lemma risks_of_result (f : WhoLogic.findings) :
  risks_of (WhoLogic.analysis_result f)
  = Some (match fst f with [] => [WhoLogic.no_risk] | _ :: _ => fst f end).
Proof.
  unfold risks_of, WhoLogic.analysis_result. read_literal.
  destruct f as [[|r rs] recs]; reflexivity.
Qed.

Lemma recommendations_of_result (f : WhoLogic.findings) :
  recommendations_of (WhoLogic.analysis_result f)
  = Some (match fst f with
          | [] => (snd f ++ [WhoLogic.routine_recommendation])%list
          | _ :: _ => snd f
          end).
Proof.
  unfold recommendations_of, WhoLogic.analysis_result. read_literal.
  destruct f as [[|r rs] recs]; reflexivity.
Qed.

Lemma count_bp_flags_result (f : WhoLogic.findings) :
  count_bp_flags (WhoLogic.analysis_result f)
  = Some (length (List.filter is_bp_flag (fst f))).
Proof.
  unfold count_bp_flags. fold (risks_of (WhoLogic.analysis_result f)).
  rewrite risks_of_result. destruct f as [[|r rs] recs]; reflexivity.
Qed.

(** With neither a [vitals] nor a [symptoms] key the logic function answers
    with the one synthetic low-severity entry and the one routine
    recommendation. *)
Lemma analyze_logic_without_keys (data : gmap string pyval) (n : nat) :
  data !! "vitals" = None -> data !! "symptoms" = None ->
  exists v, WhoLogic.analyze_anc_visit_data_logic data n = Ok (v, n)
            /\ risks_of v = Some [WhoLogic.no_risk]
            /\ recommendations_of v = Some [WhoLogic.routine_recommendation].
Proof.
  intros V S. unfold WhoLogic.analyze_anc_visit_data_logic.
  rewrite (dict_get_None _ _ _ V), (dict_get_None _ _ _ S).
  eexists. split; [reflexivity|].
  rewrite risks_of_result, recommendations_of_result. split; reflexivity.
Qed.

(** C8.  The tool passes its optional parameters on under their keys, so a
    call that leaves [vitals] out hands the logic function [None] where it
    expects a dictionary: the call raises [AttributeError].  The logic
    function itself, given a body without the keys, returns the one
    low-severity entry and the one routine recommendation. *)
Theorem analyze_tool_without_vitals_raises (symptoms patient_id : pyval) (n : nat) :
  WhoMcp.analyze_anc_visit_data PNone symptoms patient_id n = Raise AttributeError
  /\ exists v, WhoLogic.analyze_anc_visit_data_logic ∅ n = Ok (v, n)
               /\ risks_of v = Some [WhoLogic.no_risk]
               /\ recommendations_of v = Some [WhoLogic.routine_recommendation]
               /\ follow [Key "severity"] WhoLogic.no_risk = Some (PStr "low").
Proof.
  split; [reflexivity|].
  destruct (analyze_logic_without_keys ∅ n) as (v & E & R & C); [reflexivity..|].
  exists v. split; [exact E|]. split; [exact R|]. split; [exact C|].
  unfold follow, WhoLogic.no_risk. read_literal. reflexivity.
Qed.

(** A call that gives [vitals] but leaves [symptoms] out fails alike. *)
Lemma analyze_tool_without_symptoms_raises (patient_id : pyval) (n : nat) :
  WhoMcp.analyze_anc_visit_data (PDict ∅) PNone patient_id n = Raise AttributeError.
Proof. reflexivity. Qed.

End Analysis.

(** ** Growth monitoring *)

Section Growth.
Context `{Runtime}.

(** On doubles, [h <= 0] excludes [h > 0]. *)
Lemma leb_0_not_gt (h : float) : (h <=? 0)%float = true -> (0 <? h)%float = false.
Proof.
  rewrite FloatAxioms.leb_spec, FloatAxioms.ltb_spec. unfold SFleb, SFltb.
  change (Prim2SF 0) with (S754_zero false).
  destruct (Prim2SF h) as [s|s| |s m e]; simpl; try destruct s; simpl; congruence.
Qed.

(** The tool surface names a height that is not positive with the code
    ["IE"], and never divides. *)
Lemma wfh_logic_invalid_height (age_in_months weight_kg height_cm : float) :
  (height_cm <=? 0)%float = true ->
  WhoLogic.wfh_interpretation age_in_months weight_kg height_cm
  = Ok ("Cannot calculate weight-for-height due to invalid height", "IE").
Proof.
  intros L. unfold WhoLogic.wfh_interpretation.
  rewrite (leb_0_not_gt _ L). reflexivity.
Qed.

(** The HTTP surface has no branch for such a height: the code stays ["N"]. *)
Lemma wfh_http_invalid_height (age_in_months weight_kg height_cm : float) :
  (height_cm <=? 0)%float = true ->
  MainPy.wfh_interpretation age_in_months weight_kg height_cm
  = Ok ("Normal weight-for-height", "N").
Proof.
  intros L. unfold MainPy.wfh_interpretation.
  rewrite (leb_0_not_gt _ L). reflexivity.
Qed.

(** An interpretation entry has the keys [coding] and [text], so the guard
    [.get('code')] of the overall check lets no observation through. *)
Lemma all_codes_normal_skips (obs : pyval) (rest : list pyval)
    (system code display : string) (text : pyval) (others : list pyval) :
  at_key "interpretation" obs
  = Some (PList (WhoLogic.create_codeable_concept system code display text :: others)) ->
  WhoLogic.all_codes_normal (obs :: rest) = WhoLogic.all_codes_normal rest.
Proof.
  intros I. destruct obs as [| | | | | | |d]; try discriminate I.
  cbn [at_key] in I. cbn [WhoLogic.all_codes_normal subscript_key].
  unfold dict_item. rewrite I. cbn [rbind subscript_idx nth_error].
  unfold WhoLogic.create_codeable_concept at 1. unfold mkdict. cbn [method_get rbind].
  unfold dict_get. rewrite lookup_list_to_map_assoc.
  cbn [assoc String.eqb Ascii.eqb Bool.eqb default truthy]. reflexivity.
Qed.

Lemma growth_observation_interpretation (patient_id : pyval) (t : datetime)
    (cs c dt : string) (v : float) (u it ics ic idisp : string) (n : nat) :
  exists obs,
    WhoLogic.create_growth_observation patient_id t cs c dt v u it ics ic idisp n
    = Ok (obs, S n)
    /\ at_key "interpretation" obs
       = Some (PList [WhoLogic.create_codeable_concept ics ic idisp (PStr it)])
    /\ interpretation_code obs = Some ic.
Proof.
  eexists. split; [reflexivity|]. split.
  - read_literal. reflexivity.
  - unfold interpretation_code, follow. read_literal. cbn [at_idx nth_error].
    unfold WhoLogic.create_codeable_concept. read_literal. cbn [at_idx nth_error].
    read_literal. reflexivity.
Qed.

(** Whatever the three codes are, the overall check of the tool surface
    finds nothing to object to. *)
Lemma all_codes_normal_of_observations (patient_id : pyval) (t : datetime)
    (w h : float) (t1 c1 t2 c2 t3 c3 : string) (n : nat) :
  exists o1 o2 o3,
    WhoLogic.create_growth_observation patient_id t "http://loinc.org" "3141-9"
      "Body weight Measured -- Wt/Age" w "kg" t1 WhoLogic.interpretation_system c1 t1 n
    = Ok (o1, S n)
    /\ WhoLogic.create_growth_observation patient_id t "http://loinc.org" "8308-9"
         "Body height Measured -- Ht/Age" h "cm" t2 WhoLogic.interpretation_system c2 t2
         (S n)
       = Ok (o2, S (S n))
    /\ WhoLogic.create_growth_observation patient_id t "http://loinc.org" "8340-2"
         "Body weight Measured -- Wt/Len" w "kg" t3 WhoLogic.interpretation_system c3 t3
         (S (S n))
       = Ok (o3, S (S (S n)))
    /\ map interpretation_code [o1; o2; o3] = [Some c1; Some c2; Some c3]
    /\ WhoLogic.all_codes_normal [o1; o2; o3] = Ok true.
Proof.
  destruct (growth_observation_interpretation patient_id t "http://loinc.org" "3141-9"
              "Body weight Measured -- Wt/Age" w "kg" t1 WhoLogic.interpretation_system
              c1 t1 n) as (o1 & E1 & I1 & C1).
  destruct (growth_observation_interpretation patient_id t "http://loinc.org" "8308-9"
              "Body height Measured -- Ht/Age" h "cm" t2 WhoLogic.interpretation_system
              c2 t2 (S n)) as (o2 & E2 & I2 & C2).
  destruct (growth_observation_interpretation patient_id t "http://loinc.org" "8340-2"
              "Body weight Measured -- Wt/Len" w "kg" t3 WhoLogic.interpretation_system
              c3 t3 (S (S n))) as (o3 & E3 & I3 & C3).
  exists o1, o2, o3. repeat split; try assumption.
  - cbn [map]. rewrite C1, C2, C3. reflexivity.
  - rewrite (all_codes_normal_skips _ _ _ _ _ _ _ I1).
    rewrite (all_codes_normal_skips _ _ _ _ _ _ _ I2).
    rewrite (all_codes_normal_skips _ _ _ _ _ _ _ I3).
    reflexivity.
Qed.

(** On the HTTP surface the second [all(...)] ranges over nothing, so the
    disjunction holds as soon as the first one can be evaluated. *)
Lemma overall_normal_always (observations : list pyval) (b : bool) :
  MainPy.all_texts_normal observations = Ok b ->
  MainPy.overall_normal observations = Ok true.
Proof.
  intros E. unfold MainPy.overall_normal, MainPy.FHIR_RESOURCES_AVAILABLE.
  cbn [negb].
  assert (F1 : List.filter (fun _ : pyval => true) observations = observations).
  { clear. induction observations as [|o l IH]; [reflexivity|].
    cbn [List.filter]. f_equal. exact IH. }
  assert (F2 : List.filter (fun _ : pyval => false) observations = []).
  { clear. induction observations as [|o l IH]; [reflexivity|]. exact IH. }
  rewrite F1, F2, E. destruct b; reflexivity.
Qed.

End Growth.

Section GrowthClaims.
Context `{Runtime}.

(** The tool surface refuses a measurement dated before the birth, whatever
    the measurements are. *)
Lemma growth_logic_rejects_earlier_measurement
    (data : gmap string pyval) (dob measured : datetime) (wv hv pid : pyval)
    (w h : float) (g : string) (n : nat) :
  valid_datetime dob -> valid_datetime measured ->
  data !! "dob" = Some (PStr (iso_date dob)) ->
  data !! "measurement_date" = Some (PStr (iso_date measured)) ->
  data !! "weight_kg" = Some wv -> py_float wv = Ok w ->
  data !! "height_cm" = Some hv -> py_float hv = Ok h ->
  data !! "gender" = Some (PStr g) ->
  String.eqb (str_lower g) "male" || String.eqb (str_lower g) "female" = true ->
  data !! "patient_id" = Some pid ->
  toordinal measured < toordinal dob ->
  WhoLogic.growth_monitoring_logic data n
  = Ok (WhoLogic.with_status
          (WhoLogic.error_body "Measurement date cannot be before date of birth.") 400,
        n).
Proof.
  intros Vd Vm Ld Lm Lw Pw Lh Ph Lg Gok Lp Lt.
  unfold WhoLogic.growth_monitoring_logic, WhoLogic.required_fields.
  cbn [forallb].
  rewrite (dict_contains_Some _ _ _ Ld), (dict_contains_Some _ _ _ Lm),
    (dict_contains_Some _ _ _ Lw), (dict_contains_Some _ _ _ Lh),
    (dict_contains_Some _ _ _ Lg), (dict_contains_Some _ _ _ Lp).
  cbn [andb negb].
  unfold bind at 1. unfold try_except_ValueError.
  unfold bind, lift, ret.
  rewrite (dict_item_Some _ _ _ Ld), (dict_item_Some _ _ _ Lm),
    (dict_item_Some _ _ _ Lw), (dict_item_Some _ _ _ Lh),
    (dict_item_Some _ _ _ Lg), (dict_item_Some _ _ _ Lp).
  cbn [rbind]. rewrite !strptime_of_iso_date by assumption.
  rewrite Pw, Ph. cbn [method_lower]. rewrite Gok. cbn [negb].
  unfold sub_days. destruct (Z.ltb_spec (toordinal measured - toordinal dob) 0); [|lia].
  reflexivity.
Qed.

(** C5.  A measurement dated nine days before the birth: the tool surface
    answers 400 with the range error, the HTTP surface answers 200 with a
    result computed from an age of -9 days. *)
Theorem growth_http_accepts_earlier_measurement (n : nat) :
  returned (WhoMcp.growth_monitoring (PStr "2024-01-10") (PStr "2024-01-01")
              (PFloat 3) (PFloat 50) (PStr "male") (PStr "child-1") n)
  = Some (WhoLogic.with_status
            (WhoLogic.error_body "Measurement date cannot be before date of birth.") 400)
  /\ (returned (MainPy.growth_monitoring
                  (growth_request (PStr "2024-01-10") (PStr "2024-01-01")
                     (PFloat 3) (PFloat 50) (PStr "male") (PStr "child-1")) n)
        ≫= at_key "age_in_days")
     = Some (PInt (-9))
  /\ (response_status <$>
        returned (MainPy.growth_monitoring
                    (growth_request (PStr "2024-01-10") (PStr "2024-01-01")
                       (PFloat 3) (PFloat 50) (PStr "male") (PStr "child-1")) n))
     = Some 200.
Proof. repeat split; vm_compute; reflexivity. Qed.

(** C6.  A height of zero: the tool surface reports the code ["IE"] for
    weight-for-height, the HTTP surface reports ["N"]. *)
Theorem growth_http_zero_height_is_normal (n : nat) :
  (returned (WhoMcp.growth_monitoring (PStr "2024-01-01") (PStr "2024-03-01")
               (PFloat 5) (PFloat 0) (PStr "male") (PStr "child-1") n)
     ≫= growth_codes)
  = Some [Some "N"; Some "L"; Some "IE"]
  /\ (returned (MainPy.growth_monitoring
                  (growth_request (PStr "2024-01-01") (PStr "2024-03-01")
                     (PFloat 5) (PFloat 0) (PStr "male") (PStr "child-1")) n)
        ≫= growth_codes)
     = Some [Some "N"; Some "L"; Some "N"].
Proof. split; vm_compute; reflexivity. Qed.

(** C4.  A newborn of one kilogram: weight-for-age is coded ["L"], yet both
    surfaces report that growth appears normal. *)
Theorem growth_note_normal_despite_low_code (n : nat) :
  (returned (WhoMcp.growth_monitoring (PStr "2020-01-01") (PStr "2020-01-01")
               (PFloat 1) (PFloat 50) (PStr "male") (PStr "child-1") n)
     ≫= growth_codes)
  = Some [Some "L"; Some "N"; Some "N"]
  /\ (returned (WhoMcp.growth_monitoring (PStr "2020-01-01") (PStr "2020-01-01")
                  (PFloat 1) (PFloat 50) (PStr "male") (PStr "child-1") n)
        ≫= growth_note)
     = Some WhoLogic.growth_normal_note
  /\ (returned (MainPy.growth_monitoring
                  (growth_request (PStr "2020-01-01") (PStr "2020-01-01")
                     (PFloat 1) (PFloat 50) (PStr "male") (PStr "child-1")) n)
        ≫= growth_codes)
     = Some [Some "L"; Some "N"; Some "N"]
  /\ (returned (MainPy.growth_monitoring
                  (growth_request (PStr "2020-01-01") (PStr "2020-01-01")
                     (PFloat 1) (PFloat 50) (PStr "male") (PStr "child-1")) n)
        ≫= growth_note)
     = Some WhoLogic.growth_normal_note.
Proof. repeat split; vm_compute; reflexivity. Qed.

End GrowthClaims.

(** ** The antenatal visit schedule *)

Section Schedule.
Context `{Runtime}.

Lemma truthy_iso_date t : truthy (PStr (iso_date t)) = true.
Proof. reflexivity. Qed.

Lemma mapM_Forall2 {A B} (f : A -> M B) (P : A -> B -> Prop) (l : list A) (n : nat) :
  (forall x, In x l -> exists y, f x n = Ok (y, n) /\ P x y) ->
  exists ys, mapM f l n = Ok (ys, n) /\ Forall2 P l ys.
Proof.
  induction l as [|x xs IH]; intros F.
  - exists []. split; [reflexivity | constructor].
  - destruct (F x (or_introl eq_refl)) as (y & Ey & Py).
    destruct IH as (ys & Eys & Pys); [intros z Hz; apply F; right; exact Hz|].
    exists (y :: ys). split; [|constructor; assumption].
    cbn [mapM]. unfold bind at 1. rewrite Ey. unfold bind at 1. rewrite Eys.
    reflexivity.
Qed.

Lemma Forall2_map_eq {A B C} (P : A -> B -> Prop) (g : B -> C) (h : A -> C)
    (l : list A) (ys : list B) :
  (forall x y, P x y -> g y = h x) -> Forall2 P l ys -> map g ys = map h l.
Proof.
  intros I F. induction F as [|x y l ys Pxy _ IH]; [reflexivity|].
  cbn [map]. rewrite (I x y Pxy), IH. reflexivity.
Qed.

(** One visit: its window starts [7 * weeks] days after the LMP and ends a
    day later. *)
Lemma anc_activity_ok (lmp : datetime) (weeks : Z) (description : string) (n : nat) :
  1 <= toordinal lmp + 7 * weeks -> toordinal lmp + 7 * weeks + 1 <= MAXORDINAL ->
  exists a,
    WhoLogic.anc_activity lmp (weeks, description) n = Ok (a, n)
    /\ activity_start a = Some (isoformat (plus_days lmp (7 * weeks)))
    /\ activity_end a = Some (isoformat (plus_days lmp (7 * weeks + 1)))
    /\ activity_description a = Some description.
Proof.
  intros Lo Hi. unfold WhoLogic.anc_activity, timedelta_weeks, timedelta_days.
  unfold bind, lift, ret.
  rewrite (add_timedelta_ok lmp (7 * weeks)) by lia.
  rewrite (add_timedelta_ok (plus_days lmp (7 * weeks)) 1)
    by (rewrite (proj2 (plus_days_spec lmp (7 * weeks) ltac:(lia))); lia).
  rewrite plus_days_plus_days by lia.
  eexists. split; [reflexivity|].
  unfold activity_start, activity_end, activity_description, follow.
  read_literal. repeat split; reflexivity.
Qed.

(** The eight visits of a schedule anchored at [lmp]. *)
Lemma anc_activities_ok (lmp : datetime) (n : nat) :
  valid_datetime lmp -> toordinal lmp + 281 <= MAXORDINAL ->
  exists acts,
    mapM (WhoLogic.anc_activity lmp) WhoLogic.visit_weeks n = Ok (acts, n)
    /\ map activity_start acts
       = map (fun w => Some (isoformat (plus_days lmp (7 * w))))
           [12; 20; 26; 30; 34; 36; 38; 40]
    /\ map activity_description acts
       = map (fun row => Some (snd row)) WhoLogic.visit_weeks.
Proof.
  intros V Hi. pose proof (toordinal_range lmp V) as R.
  destruct (mapM_Forall2 (WhoLogic.anc_activity lmp)
              (fun row a =>
                 activity_start a = Some (isoformat (plus_days lmp (7 * fst row)))
                 /\ activity_description a = Some (snd row))
              WhoLogic.visit_weeks n) as (acts & E & F).
  { intros [w d] I.
    assert (W : 12 <= w <= 40).
    { unfold WhoLogic.visit_weeks in I. cbn [In] in I.
      repeat (destruct I as [I|I]; [injection I as <- _; lia|]). destruct I. }
    destruct (anc_activity_ok lmp w d n) as (a & Ea & Sa & _ & Da); [lia..|].
    exists a. repeat split; assumption. }
  exists acts. split; [exact E|]. split.
  - transitivity (map (fun row : Z * string =>
                         Some (isoformat (plus_days lmp (7 * fst row))))
                    WhoLogic.visit_weeks); [|reflexivity].
    eapply Forall2_map_eq; [|exact F]. intros x y [S _]. exact S.
  - eapply Forall2_map_eq; [|exact F]. intros x y [_ D]. exact D.
Qed.

(** C1, as amended.  For a valid LMP date [D] given as YYYY-MM-DD:
    [calculate_edd] returns the date 280 days after [D] whenever that date is
    not past 9999-12-31; and [schedule_anc_visits] returns eight entries, in
    the order of the week table, the entry for week [w] starting [7 * w]
    days after [D], whenever the day after the last visit is not past
    9999-12-31.  Each of those dates is the calendar date that many days
    after [D]. *)
Theorem edd_and_visit_schedule_in_range
    (D : datetime) (data : gmap string pyval) (n : nat) :
  valid_datetime D ->
  data !! "lmp_date" = Some (PStr (iso_date D)) ->
  (toordinal D + 280 <= MAXORDINAL ->
     (returned (WhoLogic.calculate_edd_logic data n)
        ≫= at_key "estimated_delivery_date")
     = Some (PStr (strftime_ymd (plus_days D 280)))
     /\ valid_datetime (plus_days D 280)
     /\ toordinal (plus_days D 280) = toordinal D + 280)
  /\ (toordinal D + 281 <= MAXORDINAL ->
        exists plan acts,
          WhoLogic.schedule_anc_visits_logic data n = Ok (plan, S n)
          /\ activities_of plan = Some acts
          /\ map activity_start acts
             = map (fun w => Some (isoformat (plus_days D (7 * w))))
                 [12; 20; 26; 30; 34; 36; 38; 40]
          /\ map activity_description acts
             = map (fun row => Some (snd row)) WhoLogic.visit_weeks
          /\ Forall (fun w => valid_datetime (plus_days D (7 * w))
                              /\ toordinal (plus_days D (7 * w)) = toordinal D + 7 * w)
               [12; 20; 26; 30; 34; 36; 38; 40]).
Proof.
  intros V L. pose proof (toordinal_range D V) as R. split.
  - intros Hi. split; [|apply plus_days_spec; lia].
    unfold WhoLogic.calculate_edd_logic.
    rewrite (dict_nonempty _ _ _ L), (dict_contains_Some _ _ _ L). cbn [negb orb].
    unfold bind at 1. unfold try_except_ValueError. unfold bind, lift, ret.
    rewrite (dict_item_Some _ _ _ L), (strptime_of_iso_date D V).
    unfold timedelta_days. rewrite (add_timedelta_ok D 280) by lia.
    cbn [returned mbind option_bind]. read_literal. reflexivity.
  - intros Hi.
    destruct (anc_activities_ok D (S n) V Hi) as (acts & E & Sa & Da).
    unfold WhoLogic.schedule_anc_visits_logic.
    rewrite (dict_get_Some _ _ _ _ L), truthy_iso_date. cbn [negb andb].
    unfold bind at 1. unfold try_except_ValueError. unfold bind at 1 2.
    unfold lift at 1 2. rewrite (strptime_of_iso_date D V).
    unfold timedelta_days. rewrite (add_timedelta_ok D 280) by lia.
    unfold ret at 1. unfold bind at 1. unfold WhoLogic.create_fhir_id at 1.
    unfold bind at 1. rewrite E. unfold ret.
    eexists. exists acts. split; [reflexivity|].
    split; [unfold activities_of; read_literal; reflexivity|].
    split; [exact Sa|]. split; [exact Da|].
    repeat (constructor; [apply plus_days_spec; lia|]). constructor.
Qed.

End Schedule.

Section ScheduleFromEdd.
Context `{Runtime}.

(** C9.  A schedule asked for with the delivery date [E] (and no usable
    [lmp_date]) is the schedule asked for with the LMP date [L] that lies
    280 days before [E]: the two calls return the same value, entry for
    entry, or raise the same exception. *)
Theorem schedule_from_edd_matches_lmp
    (E L : datetime) (data_e data_l : gmap string pyval) (n : nat) :
  valid_datetime E -> valid_datetime L ->
  toordinal E = toordinal L + 280 ->
  truthy (dict_get data_e "lmp_date" PNone) = false ->
  data_e !! "edd_date" = Some (PStr (iso_date E)) ->
  data_l !! "lmp_date" = Some (PStr (iso_date L)) ->
  data_e !! "patient_id" = data_l !! "patient_id" ->
  WhoLogic.schedule_anc_visits_logic data_e n
  = WhoLogic.schedule_anc_visits_logic data_l n.
Proof.
  intros VE VL O NoLmp Le Ll Pid.
  pose proof (toordinal_range E VE) as RE. pose proof (toordinal_range L VL) as RL.
  unfold WhoLogic.schedule_anc_visits_logic.
  rewrite NoLmp. rewrite (dict_get_Some _ _ _ _ Le), (dict_get_Some _ _ _ _ Ll).
  rewrite !truthy_iso_date. cbn [negb andb].
  unfold dict_get at 1 2. rewrite Pid.
  unfold bind, lift, try_except_ValueError. cbv beta.
  rewrite (strptime_of_iso_date E VE), (strptime_of_iso_date L VL).
  cbv beta iota. unfold timedelta_days.
  rewrite (add_timedelta_ok E (Z.opp 280)) by lia.
  rewrite (add_timedelta_ok L 280) by lia.
  assert (EL : plus_days E (Z.opp 280) = L).
  { unfold plus_days. replace (toordinal E + Z.opp 280) with (toordinal L) by lia.
    apply fromordinal_toordinal, VL. }
  assert (LE : plus_days L 280 = E).
  { unfold plus_days. rewrite <- O. apply fromordinal_toordinal, VE. }
  rewrite EL, LE. reflexivity.
Qed.

End ScheduleFromEdd.

(** ** The immunization schedule on the two surfaces *)

Section ImmunizationSurfaces.
Context `{Runtime}.

Lemma mapM_ext_in {A B} (f g : A -> M B) (l : list A) (n : nat) :
  (forall x k, In x l -> f x k = g x k) -> mapM f l n = mapM g l n.
Proof.
  revert n. induction l as [|x xs IH]; intros n E; [reflexivity|].
  cbn [mapM]. unfold bind at 1 3. rewrite (E x n (or_introl eq_refl)).
  destruct (g x n) as [[y k]|e]; [|reflexivity].
  unfold bind. rewrite (IH k); [reflexivity|].
  intros z j Hz. apply E. right. exact Hz.
Qed.

(** For every row of the table the fraction of a month is 0 or one half, and
    half a month is 15 days at 30.4375 days a month as at 30. *)
Lemma vaccine_date_same (dob : datetime) (item : WhoLogic.plan_item) :
  In item WhoLogic.immunization_plan ->
  WhoLogic.vaccine_date_of dob item = MainPy.vaccine_date_of dob item.
Proof.
  intros I. unfold WhoLogic.immunization_plan in I. cbn [In] in I.
  repeat (destruct I as [<-|I]; [reflexivity|]). destruct I.
Qed.

Lemma immunization_activity_same (dob : datetime) (item : WhoLogic.plan_item) (n : nat) :
  In item WhoLogic.immunization_plan ->
  WhoLogic.immunization_activity dob item n = MainPy.immunization_activity dob item n.
Proof.
  intros I. unfold WhoLogic.immunization_activity, MainPy.immunization_activity.
  rewrite (vaccine_date_same dob item I). reflexivity.
Qed.

(** C3, as amended.  On every request body the two surfaces of the
    immunization operation agree on what they answer with: the same list of
    activity entries (so the same vaccine dates, codes and descriptions),
    the same error response, or the same exception.  The care plans
    themselves differ in their keys. *)
Theorem immunization_surfaces_agree_on_activities
    (data : gmap string pyval) (n : nat) :
  schedule_view (WhoLogic.get_immunization_schedule_logic data n)
  = schedule_view (MainPy.get_immunization_schedule data n).
Proof.
  unfold WhoLogic.get_immunization_schedule_logic, MainPy.get_immunization_schedule.
  change MainPy.with_status with WhoLogic.with_status.
  change MainPy.error_body with WhoLogic.error_body.
  change MainPy.create_fhir_id with WhoLogic.create_fhir_id.
  destruct (negb (truthy (PDict data)) || negb (dict_contains data "dob")
            || negb (dict_contains data "patient_id")); [reflexivity|].
  unfold bind. cbv beta.
  destruct (try_except_ValueError _ _ n) as [[[early|[[dob_str dob] pid]] k]|e];
    [reflexivity| |reflexivity].
  unfold WhoLogic.create_fhir_id.
  rewrite (mapM_ext_in (WhoLogic.immunization_activity dob)
             (MainPy.immunization_activity dob) _ (S k))
    by (intros x j I; apply immunization_activity_same, I).
  destruct (mapM (MainPy.immunization_activity dob) WhoLogic.immunization_plan (S k))
    as [[acts j]|e]; [|reflexivity].
  unfold ret, mkdict, schedule_view. rewrite !lookup_list_to_map_assoc. reflexivity.
Qed.

End ImmunizationSurfaces.

(** ** The immunization schedule within the calendar's range *)

Section ImmunizationRange.
Context `{Runtime}.

Lemma vaccine_date_of_delta (dob : datetime) (item : WhoLogic.plan_item) :
  WhoLogic.vaccine_date_of dob item = rbind (item_delta item) (add_relativedelta dob).
Proof.
  unfold WhoLogic.vaccine_date_of, item_delta.
  destruct (py_int (WhoLogic.age_months item)); [|reflexivity]. cbn [rbind].
  destruct (py_mod1 (WhoLogic.age_months item)) as [frac|]; [|reflexivity]. cbn [rbind].
  destruct (py_mul_float frac 30.4375) as [scaled|]; [|reflexivity]. cbn [rbind].
  destruct (py_int scaled); reflexivity.
Qed.

(** How far a valid date is from the end of the calendar. *)
Lemma ymd2ord_upper y m d :
  valid_ymd y m d ->
  ymd2ord y m d <= MAXORDINAL - 365
  \/ (y = 9999 /\ m <= 11 /\ ymd2ord y m d <= MAXORDINAL - 31)
  \/ (y = 9999 /\ m = 12 /\ ymd2ord y m d = MAXORDINAL - 31 + d).
Proof.
  intros V. pose proof (ymd2ord_bounds y m d V) as B. destruct V as (Hy & Hm & Hd).
  unfold MAXORDINAL.
  destruct (Z.eq_dec y 9999) as [->|N].
  - right. clear B. unfold ymd2ord, days_in_month, days_before_month in *.
    change (is_leap 9999) with false in *.
    change (days_before_year 9999) with 3651694.
    rewrite andb_false_r in *.
    destruct (month_cases m Hm) as [->|[->|[->|[->|[->|[->|[->|[->|[->|[->|[->| ->]]]]]]]]]]];
      simpl in Hd |- *; lia.
  - left. pose proof (days_before_year_mono (y + 1) 9999 ltac:(lia)) as M.
    change (days_before_year 9999) with 3651694 in M. lia.
Qed.

Lemma date_leb_cases (a b : datetime) :
  date_leb a b = true ->
  dt_year a < dt_year b
  \/ (dt_year a = dt_year b
      /\ (dt_month a < dt_month b
          \/ (dt_month a = dt_month b /\ dt_day a <= dt_day b))).
Proof.
  unfold date_leb.
  rewrite !orb_true_iff, !andb_true_iff, !orb_true_iff, !andb_true_iff.
  rewrite !Z.ltb_lt, !Z.eqb_eq, Z.leb_le. tauto.
Qed.

(** A shift of at most 18 months (and at most 15 days, none with the 18
    months) of a date not after 9998-06-24 stays a week clear of the end of
    the calendar; the empty shift is the identity. *)
Lemma add_relativedelta_in_range (D : datetime) (yrs mons days : Z) :
  valid_datetime D ->
  date_leb D (mkdatetime 9998 6 24) = true ->
  0 <= yrs -> 0 <= mons <= 11 -> 0 <= days <= 15 ->
  12 * yrs + mons <= 15 \/ (12 * yrs + mons <= 18 /\ days = 0) ->
  exists t,
    add_relativedelta D (mkrelativedelta yrs mons days) = Ok t
    /\ valid_datetime t
    /\ toordinal t + 7 <= MAXORDINAL
    /\ (yrs = 0 -> mons = 0 -> days = 0 -> t = D).
Proof.
  intros V Le Hy Hm Hd Tot.
  pose proof V as V'. apply valid_datetime_iff in V'.
  apply date_leb_cases in Le. destruct D as [y m d].
  cbn [dt_year dt_month dt_day] in *. destruct V' as (Vy & Vm & Vd).
  unfold add_relativedelta. cbn [dt_year dt_month dt_day rd_years rd_months rd_days].
  set (ym := if mons =? 0 then (y + yrs, m)
             else if 12 <? m + mons then (y + yrs + 1, m + mons - 12)
             else if m + mons <? 1 then (y + yrs - 1, m + mons + 12)
             else (y + yrs, m + mons)).
  assert (YM : 12 * fst ym + snd ym = 12 * y + m + 12 * yrs + mons
               /\ 1 <= snd ym <= 12 /\ y <= fst ym
               /\ (mons = 0 -> yrs = 0 -> ym = (y, m))).
  { subst ym. destruct (Z.eqb_spec mons 0) as [->|N0].
    - cbn [fst snd]. repeat split; try lia. intros _ ->. f_equal. lia.
    - destruct (Z.ltb_spec 12 (m + mons)).
      + cbn [fst snd]. repeat split; try lia.
      + destruct (Z.ltb_spec (m + mons) 1); [lia|].
        cbn [fst snd]. repeat split; lia. }
  destruct ym as [y' m']. cbn [fst snd] in YM. destruct YM as (E & Hm' & Hy' & Id).
  pose proof (dim_flag_bounds (is_leap y') m' Hm') as B.
  change (dim_flag (is_leap y') m') with (days_in_month y' m') in B.
  set (day := Z.min (days_in_month y' m') d).
  assert (V2 : valid_ymd y' m' day) by (unfold valid_ymd; subst day; lia).
  assert (C : check_date_fields y' m' day = true).
  { apply (valid_datetime_iff (mkdatetime y' m' day)). exact V2. }
  rewrite C. unfold timedelta_days.
  pose proof (ymd2ord_range _ _ _ V2) as R.
  pose proof (ymd2ord_upper _ _ _ V2) as U.
  assert (Hi : ymd2ord y' m' day + days + 7 <= MAXORDINAL).
  { unfold MAXORDINAL in *. subst day. destruct U as [U|[(-> & M11 & U)|(-> & -> & U)]];
      lia. }
  change (ymd2ord y' m' day) with (toordinal (mkdatetime y' m' day)) in *.
  rewrite add_timedelta_ok by lia.
  exists (plus_days (mkdatetime y' m' day) days).
  destruct (plus_days_spec (mkdatetime y' m' day) days ltac:(lia)) as [Vt Ot].
  split; [reflexivity|]. split; [exact Vt|]. split; [lia|].
  intros -> -> ->. specialize (Id eq_refl eq_refl). injection Id as -> ->.
  assert (day = d) by (subst day; lia). subst day.
  replace (Z.min (days_in_month y m) d) with d by lia.
  apply plus_days_0. exact V.
Qed.

(** The shifts of the table: none is past 18 months, the fractional ones
    carry 15 days, and the rows of age 0 shift by nothing. *)
Lemma item_delta_table :
  Forall (fun item =>
            exists yrs mons days,
              item_delta item = Ok (mkrelativedelta yrs mons days)
              /\ 0 <= yrs /\ 0 <= mons <= 11 /\ 0 <= days <= 15
              /\ (12 * yrs + mons <= 15 \/ (12 * yrs + mons <= 18 /\ days = 0))
              /\ (WhoLogic.age_months item = PInt 0 ->
                  yrs = 0 /\ mons = 0 /\ days = 0))
    WhoLogic.immunization_plan.
Proof.
  unfold WhoLogic.immunization_plan.
  repeat (constructor;
    [eexists _, _, _; split; [vm_compute; reflexivity|];
     cbn [WhoLogic.age_months]; repeat split; try lia; try discriminate|]).
  constructor.
Qed.

Lemma immunization_activity_ok (D : datetime) (item : WhoLogic.plan_item) (n : nat) :
  valid_datetime D ->
  date_leb D (mkdatetime 9998 6 24) = true ->
  In item WhoLogic.immunization_plan ->
  exists a,
    WhoLogic.immunization_activity D item n = Ok (a, n)
    /\ activity_description a
       = Some (WhoLogic.vaccine item ++ " - " ++ WhoLogic.dose item)
    /\ (WhoLogic.age_months item = PInt 0 -> activity_start a = Some (isoformat D)).
Proof.
  intros V Le I.
  pose proof (proj1 (List.Forall_forall _ _) item_delta_table item I)
    as (yrs & mons & days & Ed & Hy & Hm & Hd & Tot & Zero).
  destruct (add_relativedelta_in_range D yrs mons days V Le Hy Hm Hd Tot)
    as (t & Et & Vt & Ot & Id).
  pose proof (toordinal_range t Vt) as Rt.
  unfold WhoLogic.immunization_activity.
  rewrite vaccine_date_of_delta, Ed. cbn [rbind]. rewrite Et.
  unfold bind at 1. unfold lift at 1.
  destruct (WhoLogic.vaccine_code (WhoLogic.vaccine item)) as [[cs cv] dtxt].
  unfold timedelta_days. rewrite (add_timedelta_ok t 7) by lia.
  unfold bind, lift, ret.
  eexists. split; [reflexivity|].
  unfold activity_description, activity_start, follow. read_literal.
  split; [reflexivity|].
  intros Z0. destruct (Zero Z0) as (-> & -> & ->).
  rewrite (Id eq_refl eq_refl eq_refl). reflexivity.
Qed.

(** C2, as amended.  For a valid date of birth [D] not after 9998-06-24,
    given as YYYY-MM-DD, the immunization schedule is a care plan with
    exactly 20 activity entries, in the order of the vaccine table (entry by
    entry the description names the row's vaccine and dose), and every entry
    of a row with [age_months = 0] starts on [D] itself. *)
Theorem immunization_schedule_in_range
    (D : datetime) (data : gmap string pyval) (patient_id : pyval) (n : nat) :
  valid_datetime D ->
  date_leb D (mkdatetime 9998 6 24) = true ->
  data !! "dob" = Some (PStr (iso_date D)) ->
  data !! "patient_id" = Some patient_id ->
  exists plan acts,
    WhoLogic.get_immunization_schedule_logic data n = Ok (plan, S n)
    /\ activities_of plan = Some acts
    /\ length acts = 20%nat
    /\ Forall2 (fun item a =>
                  activity_description a
                  = Some (WhoLogic.vaccine item ++ " - " ++ WhoLogic.dose item)
                  /\ (WhoLogic.age_months item = PInt 0 ->
                      activity_start a = Some (isoformat D)))
         WhoLogic.immunization_plan acts
    /\ map activity_start (firstn 3 acts)
       = [Some (isoformat D); Some (isoformat D); Some (isoformat D)].
Proof.
  intros V Le Ld Lp.
  destruct (mapM_Forall2 (WhoLogic.immunization_activity D)
              (fun item a =>
                 activity_description a
                 = Some (WhoLogic.vaccine item ++ " - " ++ WhoLogic.dose item)
                 /\ (WhoLogic.age_months item = PInt 0 ->
                     activity_start a = Some (isoformat D)))
              WhoLogic.immunization_plan (S n)) as (acts & E & F).
  { intros item I. apply immunization_activity_ok; assumption. }
  unfold WhoLogic.get_immunization_schedule_logic.
  rewrite (dict_nonempty _ _ _ Ld), (dict_contains_Some _ _ _ Ld),
    (dict_contains_Some _ _ _ Lp). cbn [negb orb].
  unfold bind at 1. unfold try_except_ValueError. unfold bind at 1 2 3.
  unfold lift at 1 2 3.
  rewrite (dict_item_Some _ _ _ Ld), (strptime_of_iso_date D V),
    (dict_item_Some _ _ _ Lp).
  unfold ret at 1. unfold bind at 1. unfold WhoLogic.create_fhir_id at 1.
  unfold bind at 1. rewrite E. unfold ret.
  eexists. exists acts. split; [reflexivity|].
  split; [unfold activities_of; read_literal; reflexivity|].
  split; [rewrite <- (Forall2_length _ _ _ F); reflexivity|].
  split; [exact F|].
  unfold WhoLogic.immunization_plan in F.
  inversion F as [|i1 a1 l1 r1 [_ S1] F1]; subst.
  inversion F1 as [|i2 a2 l2 r2 [_ S2] F2]; subst.
  inversion F2 as [|i3 a3 l3 r3 [_ S3] F3]; subst.
  cbn [firstn map]. rewrite (S1 eq_refl), (S2 eq_refl), (S3 eq_refl). reflexivity.
Qed.

End ImmunizationRange.

(** ** Blood-pressure readings: integers and doubles *)

Section Readings.
Context `{Runtime}.

Lemma digits2_pos_bounds m :
  2 ^ (Zpos (digits2_pos m) - 1) <= Zpos m < 2 ^ Zpos (digits2_pos m).
Proof.
  induction m as [p IH|p IH|]; cbn [digits2_pos].
  - rewrite Pos2Z.inj_succ.
    replace (Z.succ (Zpos (digits2_pos p)) - 1)
      with (Z.succ (Zpos (digits2_pos p) - 1)) by lia.
    rewrite !Z.pow_succ_r by lia. lia.
  - rewrite Pos2Z.inj_succ.
    replace (Z.succ (Zpos (digits2_pos p)) - 1)
      with (Z.succ (Zpos (digits2_pos p) - 1)) by lia.
    rewrite !Z.pow_succ_r by lia. lia.
  - simpl. lia.
Qed.

(** A canonical mantissa has at most 53 bits, and exactly 53 above the
    smallest exponent. *)
Lemma bounded_facts m e :
  bounded prec emax m e = true ->
  Zpos m < 2 ^ 53 /\ -1074 <= e /\ (-1074 < e -> 2 ^ 52 <= Zpos m).
Proof.
  unfold bounded, canonical_mantissa, fexp, emin, prec, emax.
  rewrite andb_true_iff, Z.eqb_eq, Z.leb_le. intros [C _].
  pose proof (digits2_pos_bounds m) as D.
  set (dg := Zpos (digits2_pos m)) in *.
  assert (P : 0 < dg) by (subst dg; lia).
  assert (dg <= 53) by lia.
  split.
  - apply Z.lt_le_trans with (2 ^ dg); [lia|]. apply Z.pow_le_mono_r; lia.
  - split; [lia|]. intros L. assert (dg = 53) by lia.
    replace 52 with (dg - 1) by lia. lia.
Qed.

Lemma trunc_mag_nonneg m e : 0 <= trunc_mag m e.
Proof.
  unfold trunc_mag. destruct (0 <=? e).
  - apply Z.shiftl_nonneg. lia.
  - apply Z.shiftr_nonneg. lia.
Qed.

(** Comparing a finite double with the integer [K = mk * 2^-p] is comparing
    its integer part with [K]. *)
Lemma finite_ge_threshold (K : Z) (mk : positive) (p : Z) (s : bool)
    (m : positive) (e : Z) :
  0 < p <= 52 -> Zpos mk = K * 2 ^ p -> 2 ^ 52 <= Zpos mk < 2 ^ 53 ->
  bounded prec emax m e = true ->
  SFleb (S754_finite false mk (- p)) (S754_finite s m e)
  = (K <=? (if s then - trunc_mag m e else trunc_mag m e)).
Proof.
  intros Hp Emk Bmk Bd. apply bounded_facts in Bd. destruct Bd as (Mhi & Elo & Mlo).
  pose proof (trunc_mag_nonneg m e) as A0.
  assert (P2 : 0 < 2 ^ p) by (apply Z.pow_pos_nonneg; lia).
  assert (K0 : 0 < K) by nia.
  unfold SFleb, SFcompare. destruct s.
  - symmetry. apply Z.leb_gt. lia.
  - destruct (Z.compare_spec (- p) e) as [E|L|G].
    + subst e. unfold trunc_mag. destruct (Z.leb_spec 0 (- p)); [lia|].
      rewrite Z.opp_involutive, Z.shiftr_div_pow2 by lia.
      rewrite Pos.compare_cont_spec. unfold Pos.switch_Eq.
      destruct (Pos.compare_spec mk m) as [E|L|G]; symmetry.
      * apply Z.leb_le. rewrite <- E, Emk. rewrite Z.div_mul by lia. lia.
      * apply Z.leb_le. apply Z.div_le_lower_bound; lia.
      * apply Z.leb_gt. apply Z.div_lt_upper_bound; lia.
    + symmetry. apply Z.leb_le.
      assert (M52 : 2 ^ 52 <= Zpos m) by (apply Mlo; lia).
      assert (KP : K < 2 ^ (53 - p)).
      { apply Z.mul_lt_mono_pos_r with (2 ^ p); [lia|].
        rewrite <- Z.pow_add_r by lia. replace (53 - p + p) with 53 by lia. lia. }
      unfold trunc_mag. destruct (Z.leb_spec 0 e).
      * rewrite Z.shiftl_mul_pow2 by lia.
        assert (1 <= 2 ^ e) by (apply (Z.pow_le_mono_r 2 0 e); lia).
        assert (2 ^ (53 - p) <= 2 ^ 52) by (apply Z.pow_le_mono_r; lia).
        nia.
      * rewrite Z.shiftr_div_pow2 by lia.
        apply Z.lt_le_incl. apply Z.lt_le_trans with (2 ^ (53 - p)); [lia|].
        apply Z.div_le_lower_bound; [apply Z.pow_pos_nonneg; lia|].
        rewrite <- Z.pow_add_r by lia.
        apply Z.le_trans with (2 ^ 52); [|lia].
        apply Z.pow_le_mono_r; lia.
    + symmetry. apply Z.leb_gt.
      assert (KP : 2 ^ (52 - p) <= K).
      { apply Z.mul_le_mono_pos_r with (2 ^ p); [lia|].
        rewrite <- Z.pow_add_r by lia. replace (52 - p + p) with 52 by lia. lia. }
      unfold trunc_mag. destruct (Z.leb_spec 0 e); [lia|].
      rewrite Z.shiftr_div_pow2 by lia.
      apply Z.lt_le_trans with (2 ^ (52 - p)); [|lia].
      apply Z.div_lt_upper_bound; [apply Z.pow_pos_nonneg; lia|].
      rewrite <- Z.pow_add_r by lia.
      apply Z.lt_le_trans with (2 ^ 53); [lia|].
      apply Z.pow_le_mono_r; lia.
Qed.

Lemma reading_truthy (v : pyval) : is_reading v = true -> truthy v = true.
Proof.
  destruct v as [| |z|f| | | |]; try discriminate.
  - intros R. exact R.
  - cbn [is_reading truthy]. rewrite FloatAxioms.eqb_spec. unfold SFeqb, SFcompare.
    change (Prim2SF 0) with (S754_zero false).
    destruct (Prim2SF f) as [s|s| |s m e]; try discriminate.
    destruct s; reflexivity.
Qed.

(** [int(v) >= k] is [v >= k] for the two thresholds of the check. *)
Lemma reading_int_at_least (v : pyval) (k : Z) :
  k = 140 \/ k = 90 ->
  is_reading v = true ->
  exists z, py_int v = Ok z /\ (k <=? z) = at_least v k.
Proof.
  intros Hk R. destruct v as [| |z|f| | | |]; try discriminate.
  - exists z. split; reflexivity.
  - cbn [is_reading] in R. cbn [py_int at_least]. unfold trunc_float.
    rewrite FloatAxioms.leb_spec. pose proof (Prim2SF_valid f) as V.
    destruct (Prim2SF f) as [s|s| |s m e]; try discriminate.
    eexists. split; [reflexivity|]. cbn [valid_binary] in V.
    destruct Hk as [-> | ->].
    + change (Prim2SF (float_of_small_Z 140))
        with (S754_finite false 4925812092436480 (- 45)).
      symmetry.
      apply (finite_ge_threshold 140 4925812092436480 45);
        [lia|reflexivity|lia|exact V].
    + change (Prim2SF (float_of_small_Z 90))
        with (S754_finite false 6333186975989760 (- 46)).
      symmetry.
      apply (finite_ge_threshold 90 6333186975989760 46);
        [lia|reflexivity|lia|exact V].
Qed.

Lemma reading_ge_int (v : pyval) (k : Z) :
  is_reading v = true -> py_ge_int v k = Ok (at_least v k).
Proof. destruct v; try discriminate; reflexivity. Qed.

(** The check of the tool surface on two readings. *)
Lemma bp_check_logic (sv dv : pyval) (f : WhoLogic.findings) (n : nat) :
  is_reading sv = true -> is_reading dv = true ->
  WhoLogic.bp_check sv dv f n
  = Ok (if at_least sv 140 || at_least dv 90
        then WhoLogic.append_finding f WhoLogic.high_bp_risk
               WhoLogic.high_bp_recommendation
        else f, n).
Proof.
  intros Rs Rd. unfold WhoLogic.bp_check.
  rewrite (reading_truthy sv Rs), (reading_truthy dv Rd). cbn [andb].
  destruct (reading_int_at_least sv 140 (or_introl eq_refl) Rs) as (zs & Es & Gs).
  destruct (reading_int_at_least dv 90 (or_intror eq_refl) Rd) as (zd & Ed & Gd).
  unfold try_except_ValueError, bind, lift. rewrite Es. rewrite Gs.
  destruct (at_least sv 140); [reflexivity|].
  rewrite Ed, Gd. destruct (at_least dv 90); reflexivity.
Qed.

(** The check of the HTTP surface on two readings. *)
Lemma bp_check_http (sv dv : pyval) (f : WhoLogic.findings) (n : nat) :
  is_reading sv = true -> is_reading dv = true ->
  MainPy.bp_check sv dv f n
  = Ok (if at_least sv 140 || at_least dv 90
        then WhoLogic.append_finding f WhoLogic.high_bp_risk
               WhoLogic.high_bp_recommendation
        else f, n).
Proof.
  intros Rs Rd. unfold MainPy.bp_check.
  rewrite (reading_truthy sv Rs), (reading_truthy dv Rd). cbn [andb].
  unfold bind, lift. rewrite (reading_ge_int sv 140 Rs).
  destruct (at_least sv 140); [reflexivity|].
  rewrite (reading_ge_int dv 90 Rd). destruct (at_least dv 90); reflexivity.
Qed.

(** C7, as amended.  When [vitals] holds two readings, each a nonzero
    integer or a nonzero finite double, both surfaces emit exactly one
    [ANC_HIGH_BP] entry (severity high, with its recommendation) if
    [bp_systolic >= 140] or [bp_diastolic >= 90], and none otherwise; the
    bleeding entry, if any, follows it.  [symptoms] is absent or a
    dictionary. *)
Theorem bp_flag_for_nonzero_finite_readings
    (sv dv : pyval) (vitals data : gmap string pyval) (n : nat) :
  is_reading sv = true -> is_reading dv = true ->
  data !! "vitals" = Some (PDict vitals) ->
  vitals !! "bp_systolic" = Some sv ->
  vitals !! "bp_diastolic" = Some dv ->
  (data !! "symptoms" = None
   \/ exists symptoms, data !! "symptoms" = Some (PDict symptoms)) ->
  let high := at_least sv 140 || at_least dv 90 in
  exists bleeding v,
    WhoLogic.analyze_anc_visit_data_logic data n = Ok (v, n)
    /\ MainPy.analyze_anc_visit_data data n = Ok (v, n)
    /\ v = WhoLogic.analysis_result (expected_findings high bleeding)
    /\ count_bp_flags v = Some (if high then 1 else 0)%nat.
Proof.
  intros Rs Rd Lv Ls Ld Sy high.
  assert (S : exists b, method_get (dict_get data "symptoms" (PDict ∅)) "bleeding" = Ok b).
  { destruct Sy as [N|[sym Lsym]].
    - rewrite (dict_get_None _ _ _ N). eexists. reflexivity.
    - rewrite (dict_get_Some _ _ _ _ Lsym). eexists. reflexivity. }
  destruct S as [b Eb]. exists (is_True b).
  unfold WhoLogic.analyze_anc_visit_data_logic, MainPy.analyze_anc_visit_data.
  rewrite (dict_get_Some _ _ _ _ Lv). cbn [method_get].
  rewrite (dict_get_Some _ _ _ _ Ls), (dict_get_Some _ _ _ _ Ld).
  unfold bind at 1 2. unfold bind at 3 4. unfold lift at 1 2. unfold lift at 2 3.
  unfold bind at 1. unfold bind at 2.
  rewrite bp_check_logic, bp_check_http by assumption.
  unfold bind, lift. rewrite Eb. fold high. unfold ret.
  assert (F : (if is_True b
               then WhoLogic.append_finding
                      (if high
                       then WhoLogic.append_finding ([], []) WhoLogic.high_bp_risk
                              WhoLogic.high_bp_recommendation
                       else ([], []))
                      WhoLogic.bleeding_risk WhoLogic.bleeding_recommendation
               else if high
                    then WhoLogic.append_finding ([], []) WhoLogic.high_bp_risk
                           WhoLogic.high_bp_recommendation
                    else ([], []))
              = expected_findings high (is_True b)).
  { destruct high, (is_True b); reflexivity. }
  rewrite F. eexists. split; [reflexivity|]. split; [reflexivity|].
  split; [reflexivity|].
  rewrite count_bp_flags_result.
  destruct high, (is_True b); reflexivity.
Qed.

End Readings.

(** ** Closed instances: the limits of the claims and the theorems at work *)

(** C1 as stated fails at the end of the calendar: 9999-12-31 is a valid
    LMP date, and both operations raise [OverflowError] on it. *)
Lemma edd_overflows_at_calendar_end :
  valid_datetime (mkdatetime 9999 12 31)
  /\ iso_date (mkdatetime 9999 12 31) = "9999-12-31"
  /\ @WhoMcp.calculate_edd demo_runtime (PStr "9999-12-31") 0%nat
     = Raise OverflowError
  /\ @WhoMcp.schedule_anc_visits demo_runtime (PStr "9999-12-31") PNone PNone 0%nat
     = Raise OverflowError.
Proof. repeat split; vm_compute; reflexivity. Qed.

(** The bounds of the amended C1 are the exact ones. *)
Example edd_last_lmp_dates :
  (returned (@WhoMcp.calculate_edd demo_runtime (PStr "9999-03-26") 0%nat)
     ≫= at_key "estimated_delivery_date") = Some (PStr "9999-12-31")
  /\ @WhoMcp.calculate_edd demo_runtime (PStr "9999-03-27") 0%nat = Raise OverflowError
  /\ (returned (@WhoMcp.schedule_anc_visits demo_runtime (PStr "9999-03-25") PNone
                  PNone 0%nat)
        ≫= last_activity_end) = Some "9999-12-31T00:00:00"
  /\ @WhoMcp.schedule_anc_visits demo_runtime (PStr "9999-03-26") PNone PNone 0%nat
     = Raise OverflowError.
Proof. repeat split; vm_compute; reflexivity. Qed.

Lemma edd_and_visit_schedule_witness :
  let D := mkdatetime 2024 1 1 in
  let data : gmap string pyval := {[ "lmp_date" := PStr "2024-01-01" ]} in
  valid_datetime D
  /\ data !! "lmp_date" = Some (PStr (iso_date D))
  /\ toordinal D + 281 <= MAXORDINAL
  /\ (returned (@WhoLogic.calculate_edd_logic demo_runtime data 0%nat)
        ≫= at_key "estimated_delivery_date") = Some (PStr "2024-10-07")
  /\ exists plan acts,
       @WhoLogic.schedule_anc_visits_logic demo_runtime data 0%nat = Ok (plan, 1%nat)
       /\ activities_of plan = Some acts
       /\ map activity_start acts
          = [Some "2024-03-25T00:00:00"; Some "2024-05-20T00:00:00";
             Some "2024-07-01T00:00:00"; Some "2024-07-29T00:00:00";
             Some "2024-08-26T00:00:00"; Some "2024-09-09T00:00:00";
             Some "2024-09-23T00:00:00"; Some "2024-10-07T00:00:00"].
Proof.
  cbv zeta.
  assert (V : valid_datetime (mkdatetime 2024 1 1)) by reflexivity.
  assert (L : ({[ "lmp_date" := PStr "2024-01-01" ]} : gmap string pyval) !! "lmp_date"
              = Some (PStr (iso_date (mkdatetime 2024 1 1)))) by reflexivity.
  assert (R1 : toordinal (mkdatetime 2024 1 1) + 280 <= MAXORDINAL)
    by (vm_compute; discriminate).
  assert (R2 : toordinal (mkdatetime 2024 1 1) + 281 <= MAXORDINAL)
    by (vm_compute; discriminate).
  destruct (@edd_and_visit_schedule_in_range demo_runtime (mkdatetime 2024 1 1)
              {[ "lmp_date" := PStr "2024-01-01" ]} 0%nat V L) as [A B].
  destruct (A R1) as [E _]. destruct (B R2) as (plan & acts & P & Ac & St & _).
  split; [exact V|]. split; [exact L|]. split; [exact R2|]. split; [exact E|].
  exists plan, acts. split; [exact P|]. split; [exact Ac|]. exact St.
Defined.

Lemma schedule_from_edd_witness :
  let E := mkdatetime 2024 10 7 in
  let L := mkdatetime 2024 1 1 in
  let data_e : gmap string pyval :=
    list_to_map [("lmp_date", PNone); ("edd_date", PStr "2024-10-07");
                 ("patient_id", PStr "patient-1")] in
  let data_l : gmap string pyval :=
    list_to_map [("lmp_date", PStr "2024-01-01"); ("edd_date", PNone);
                 ("patient_id", PStr "patient-1")] in
  valid_datetime E /\ valid_datetime L
  /\ toordinal E = toordinal L + 280
  /\ truthy (dict_get data_e "lmp_date" PNone) = false
  /\ data_e !! "edd_date" = Some (PStr (iso_date E))
  /\ data_l !! "lmp_date" = Some (PStr (iso_date L))
  /\ data_e !! "patient_id" = data_l !! "patient_id"
  /\ @WhoMcp.schedule_anc_visits demo_runtime PNone (PStr "2024-10-07")
       (PStr "patient-1") 0%nat
     = @WhoMcp.schedule_anc_visits demo_runtime (PStr "2024-01-01") PNone
         (PStr "patient-1") 0%nat.
Proof.
  cbv zeta. repeat (split; [reflexivity|]).
  apply (@schedule_from_edd_matches_lmp demo_runtime (mkdatetime 2024 10 7)
           (mkdatetime 2024 1 1)); reflexivity.
Defined.

(** For a delivery date in the first 280 days of the year 1 there is no LMP
    date to compare with: the call itself raises. *)
Example schedule_from_edd_before_first_lmp :
  @WhoMcp.schedule_anc_visits demo_runtime PNone (PStr "0001-10-07") PNone 0%nat
  = Raise OverflowError
  /\ (returned (@WhoMcp.schedule_anc_visits demo_runtime PNone (PStr "0001-10-08")
                  PNone 0%nat)
        ≫= at_key "description")
     = Some (PStr "Proposed schedule of 8 ANC contacts based on LMP: 0001-01-01").
Proof. split; vm_compute; reflexivity. Qed.

(** C2 as stated fails at the end of the calendar: for a child born on
    9999-12-31 the week after the birth dose is past the last date, and for
    one born on 9998-12-31 the 18-month doses fall in the year 10000. *)
Lemma immunization_overflows_at_calendar_end :
  valid_datetime (mkdatetime 9999 12 31)
  /\ iso_date (mkdatetime 9999 12 31) = "9999-12-31"
  /\ @WhoMcp.get_immunization_schedule demo_runtime (PStr "9999-12-31")
       (PStr "child-1") 0%nat
     = Raise OverflowError
  /\ exists msg,
       @WhoMcp.get_immunization_schedule demo_runtime (PStr "9998-12-31")
         (PStr "child-1") 0%nat
       = Raise (ValueError msg).
Proof.
  repeat split; try (vm_compute; reflexivity).
  eexists. vm_compute. reflexivity.
Qed.

(** The bound of the amended C2 is the exact one. *)
Example immunization_last_birth_dates :
  (returned (@WhoMcp.get_immunization_schedule demo_runtime (PStr "9998-06-24")
               (PStr "child-1") 0%nat)
     ≫= last_activity_end) = Some "9999-12-31T00:00:00"
  /\ @WhoMcp.get_immunization_schedule demo_runtime (PStr "9998-06-25")
       (PStr "child-1") 0%nat
     = Raise OverflowError.
Proof. split; vm_compute; reflexivity. Qed.

Lemma immunization_schedule_witness :
  let D := mkdatetime 2024 1 31 in
  let data : gmap string pyval :=
    list_to_map [("dob", PStr "2024-01-31"); ("patient_id", PStr "child-1")] in
  valid_datetime D
  /\ date_leb D (mkdatetime 9998 6 24) = true
  /\ data !! "dob" = Some (PStr (iso_date D))
  /\ data !! "patient_id" = Some (PStr "child-1")
  /\ exists plan acts,
       @WhoLogic.get_immunization_schedule_logic demo_runtime data 0%nat
       = Ok (plan, 1%nat)
       /\ activities_of plan = Some acts
       /\ length acts = 20%nat
       /\ map activity_start (firstn 3 acts)
          = [Some "2024-01-31T00:00:00"; Some "2024-01-31T00:00:00";
             Some "2024-01-31T00:00:00"].
Proof.
  cbv zeta. repeat (split; [reflexivity|]).
  destruct (@immunization_schedule_in_range demo_runtime (mkdatetime 2024 1 31)
              (list_to_map [("dob", PStr "2024-01-31"); ("patient_id", PStr "child-1")])
              (PStr "child-1") 0%nat)
    as (plan & acts & P & Ac & Len & _ & St); [reflexivity..|].
  exists plan, acts. split; [exact P|]. split; [exact Ac|]. split; [exact Len|].
  exact St.
Defined.

(** C3 as stated fails on the keys: for the same request the care plan of
    the tool surface has a [description], that of the HTTP surface has none;
    and the subject reference of the HTTP surface has a [display] key, that of
    the tool surface has none. *)
Lemma immunization_care_plan_keys_differ :
  let data : gmap string pyval :=
    list_to_map [("dob", PStr "2024-01-15"); ("patient_id", PStr "child-1")] in
  (returned (@WhoLogic.get_immunization_schedule_logic demo_runtime data 0%nat)
     ≫= at_key "description")
  = Some (PStr "Recommended immunization schedule for child born on 2024-01-15.")
  /\ (returned (@MainPy.get_immunization_schedule demo_runtime data 0%nat)
        ≫= at_key "description") = None
  /\ (returned (@WhoLogic.get_immunization_schedule_logic demo_runtime data 0%nat)
        ≫= follow [Key "subject"; Key "display"]) = None
  /\ (returned (@MainPy.get_immunization_schedule demo_runtime data 0%nat)
        ≫= follow [Key "subject"; Key "display"]) = Some PNone.
Proof. cbv zeta. repeat split; vm_compute; reflexivity. Qed.

(** C7 as stated fails on a reading of zero: a systolic pressure of 150 with
    a diastolic pressure of 0 is not flagged on either surface. *)
Lemma high_systolic_with_zero_diastolic_not_flagged :
  let data : gmap string pyval :=
    {[ "vitals" := mkdict [("bp_systolic", PInt 150); ("bp_diastolic", PInt 0)] ]} in
  at_least (PInt 150) 140 = true
  /\ (returned (@WhoLogic.analyze_anc_visit_data_logic demo_runtime data 0%nat)
        ≫= count_bp_flags) = Some 0%nat
  /\ (returned (MainPy.analyze_anc_visit_data data 0%nat)
        ≫= count_bp_flags) = Some 0%nat.
Proof. cbv zeta. repeat split; vm_compute; reflexivity. Qed.

Lemma bp_flag_witness :
  let vitals : gmap string pyval :=
    list_to_map [("bp_systolic", PInt 150); ("bp_diastolic", PInt 80)] in
  let data : gmap string pyval := {[ "vitals" := PDict vitals ]} in
  is_reading (PInt 150) = true /\ is_reading (PInt 80) = true
  /\ data !! "vitals" = Some (PDict vitals)
  /\ vitals !! "bp_systolic" = Some (PInt 150)
  /\ vitals !! "bp_diastolic" = Some (PInt 80)
  /\ data !! "symptoms" = None
  /\ exists bleeding v,
       @WhoLogic.analyze_anc_visit_data_logic demo_runtime data 0%nat = Ok (v, 0%nat)
       /\ MainPy.analyze_anc_visit_data data 0%nat = Ok (v, 0%nat)
       /\ v = WhoLogic.analysis_result (expected_findings true bleeding)
       /\ count_bp_flags v = Some 1%nat.
Proof.
  cbv zeta. repeat (split; [reflexivity|]).
  apply (@bp_flag_for_nonzero_finite_readings demo_runtime (PInt 150) (PInt 80)
           (list_to_map [("bp_systolic", PInt 150); ("bp_diastolic", PInt 80)])
           {[ "vitals" := PDict (list_to_map [("bp_systolic", PInt 150);
                                              ("bp_diastolic", PInt 80)]) ]}
           0%nat); try reflexivity.
  left. reflexivity.
Defined.

(** A reading given as a double is handled alike. *)
Example bp_flag_on_doubles :
  let data : gmap string pyval :=
    {[ "vitals" := mkdict [("bp_systolic", PFloat 139.5); ("bp_diastolic", PFloat 90)] ]} in
  (returned (@WhoLogic.analyze_anc_visit_data_logic demo_runtime data 0%nat)
     ≫= count_bp_flags) = Some 1%nat
  /\ (returned (MainPy.analyze_anc_visit_data data 0%nat)
        ≫= count_bp_flags) = Some 1%nat.
Proof. cbv zeta. split; vm_compute; reflexivity. Qed.

Lemma gender_default_witness :
  let details : gmap string pyval :=
    list_to_map [("given_name", PStr "Amina"); ("family_name", PStr "Diallo")] in
  let data_p : gmap string pyval := {[ "patient_details" := PDict details ]} in
  let data_c : gmap string pyval := {[ "child_details" := PDict details ]} in
  details !! "gender" = None
  /\ data_p !! "patient_details" = Some (PDict details)
  /\ data_c !! "child_details" = Some (PDict details)
  /\ (exists v, returned (@WhoLogic.register_pregnancy_logic demo_runtime data_p 0%nat)
                = Some v
                /\ response_status v = 201
                /\ registered_gender v = Some (PStr "female"))
  /\ (exists v, returned (@WhoLogic.register_child_logic demo_runtime data_c 0%nat)
                = Some v
                /\ response_status v = 201
                /\ registered_gender v = Some PNone).
Proof.
  cbv zeta. repeat (split; [reflexivity|]).
  apply (@gender_default_only_for_pregnancy demo_runtime
           (list_to_map [("given_name", PStr "Amina"); ("family_name", PStr "Diallo")]));
    reflexivity.
Defined.

(* ===================================================================== *)
(** * Further properties of the operations                                *)
(* ===================================================================== *)

(** ** Dates as they come in *)

Section DateInputs.
Context `{Runtime}.

Lemma strptime_ymd_valid s t : strptime_ymd s = Some t -> valid_datetime t.
Proof.
  unfold strptime_ymd. destruct (parse_year s) as [[y r]|]; [|discriminate].
  destruct (expect_dash r) as [r1|]; [|discriminate].
  destruct (parse_month_dash r1) as [[m r2]|]; [|discriminate].
  destruct (parse_day_end r2) as [d|]; [|discriminate].
  destruct (check_date_fields y m d) eqn:C; [|discriminate].
  intros E. injection E as <-. exact C.
Qed.

Lemma calculate_edd_run (s : string) (data : gmap string pyval) (n : nat) :
  data !! "lmp_date" = Some (PStr s) ->
  WhoLogic.calculate_edd_logic data n
  = match strptime_ymd s with
    | Some t =>
        match add_timedelta t 280 with
        | Ok e => Ok (mkdict [("lmp_date", PStr s);
                              ("estimated_delivery_date", PStr (strftime_ymd e));
                              ("calculation_method",
                                 PStr "Naegele's Rule (LMP + 280 days)")], n)
        | Raise x => Raise x
        end
    | None => Ok (WhoLogic.with_status
                    (WhoLogic.error_body "Invalid LMP date format. Use YYYY-MM-DD.") 400, n)
    end.
Proof.
  intros L. unfold WhoLogic.calculate_edd_logic.
  rewrite (dict_nonempty _ _ _ L), (dict_contains_Some _ _ _ L). cbn [negb orb].
  unfold bind at 1. unfold try_except_ValueError. unfold bind, lift, ret.
  rewrite (dict_item_Some _ _ _ L). cbn [strptime].
  destruct (strptime_ymd s) as [t|]; [|reflexivity].
  unfold timedelta_days. destruct (add_timedelta t 280); reflexivity.
Qed.

(** X1.  [calculate_edd], on both surfaces, takes any text that [strptime]
    accepts for [%Y-%m-%d] (months and days may come without their leading
    zero): it answers with the text as it was given under [lmp_date] and
    with the date 280 days later, formatted anew, under
    [estimated_delivery_date], whenever that date is not past 9999-12-31. *)
Theorem calculate_edd_echoes_any_accepted_text
    (s : string) (t : datetime) (data : gmap string pyval) (n : nat) :
  strptime_ymd s = Some t ->
  toordinal t + 280 <= MAXORDINAL ->
  data !! "lmp_date" = Some (PStr s) ->
  let answer := mkdict [("lmp_date", PStr s);
                        ("estimated_delivery_date",
                           PStr (strftime_ymd (plus_days t 280)));
                        ("calculation_method",
                           PStr "Naegele's Rule (LMP + 280 days)")] in
  WhoLogic.calculate_edd_logic data n = Ok (answer, n)
  /\ MainPy.calculate_edd data n = Ok (answer, n)
  /\ toordinal (plus_days t 280) = toordinal t + 280.
Proof.
  intros P Hi L answer. pose proof (toordinal_range t (strptime_ymd_valid s t P)) as R.
  change (MainPy.calculate_edd data n) with (WhoLogic.calculate_edd_logic data n).
  rewrite (calculate_edd_run s data n L), P.
  rewrite (add_timedelta_ok t 280) by lia.
  split; [reflexivity|]. split; [reflexivity|]. apply plus_days_spec. lia.
Qed.

(** X2.  A date given as text that [strptime] rejects (a date that is not
    on the calendar included) is answered with status 400 and the
    operation's own message by [calculate_edd], by [schedule_anc_visits]
    (for a text that is not empty) and by [get_immunization_schedule]; no
    identifier is drawn. *)
Theorem unparsable_date_text_is_answered_400
    (s : string) (pid : pyval) (data_e data_s data_i : gmap string pyval) (n : nat) :
  strptime_ymd s = None ->
  data_e !! "lmp_date" = Some (PStr s) ->
  data_s !! "lmp_date" = Some (PStr s) ->
  data_i !! "dob" = Some (PStr s) -> data_i !! "patient_id" = Some pid ->
  WhoLogic.calculate_edd_logic data_e n
  = Ok (WhoLogic.with_status
          (WhoLogic.error_body "Invalid LMP date format. Use YYYY-MM-DD.") 400, n)
  /\ (s <> EmptyString ->
      WhoLogic.schedule_anc_visits_logic data_s n
      = Ok (WhoLogic.with_status
              (WhoLogic.error_body "Invalid date format. Use YYYY-MM-DD.") 400, n))
  /\ WhoLogic.get_immunization_schedule_logic data_i n
     = Ok (WhoLogic.with_status
             (WhoLogic.error_body "Invalid DOB format. Use YYYY-MM-DD.") 400, n).
Proof.
  intros P Le Ls Ld Lp. split; [|split].
  - rewrite (calculate_edd_run s data_e n Le), P. reflexivity.
  - intros NE. unfold WhoLogic.schedule_anc_visits_logic.
    rewrite (dict_get_Some _ _ _ _ Ls).
    assert (T : truthy (PStr s) = true) by (destruct s; [contradiction|reflexivity]).
    rewrite T. cbn [negb andb].
    unfold bind at 1. unfold try_except_ValueError, bind, lift. cbn [strptime].
    rewrite P. reflexivity.
  - unfold WhoLogic.get_immunization_schedule_logic.
    rewrite (dict_nonempty _ _ _ Ld), (dict_contains_Some _ _ _ Ld),
      (dict_contains_Some _ _ _ Lp). cbn [negb orb].
    unfold bind at 1. unfold try_except_ValueError, bind, lift.
    rewrite (dict_item_Some _ _ _ Ld). cbn [strptime]. rewrite P. reflexivity.
Qed.

(** X3.  A date that is not text (a number, a list, [None]) is not answered
    with status 400: [strptime] raises [TypeError], which no handler
    catches, in [calculate_edd], in [schedule_anc_visits] (for a value that
    counts as true) and in [get_immunization_schedule], on both surfaces. *)
Theorem date_that_is_not_text_raises_TypeError
    (v pid : pyval) (data_e data_s data_i : gmap string pyval) (n : nat) :
  as_str v = None ->
  data_e !! "lmp_date" = Some v ->
  data_s !! "lmp_date" = Some v ->
  data_i !! "dob" = Some v -> data_i !! "patient_id" = Some pid ->
  WhoLogic.calculate_edd_logic data_e n = Raise TypeError
  /\ MainPy.calculate_edd data_e n = Raise TypeError
  /\ (truthy v = true ->
      WhoLogic.schedule_anc_visits_logic data_s n = Raise TypeError
      /\ MainPy.schedule_anc_visits data_s n = Raise TypeError)
  /\ WhoLogic.get_immunization_schedule_logic data_i n = Raise TypeError
  /\ MainPy.get_immunization_schedule data_i n = Raise TypeError.
Proof.
  intros NS Le Ls Ld Lp.
  assert (P : strptime v = Raise TypeError) by (destruct v; try reflexivity; discriminate).
  split; [|split; [|split; [|split]]].
  - unfold WhoLogic.calculate_edd_logic.
    rewrite (dict_nonempty _ _ _ Le), (dict_contains_Some _ _ _ Le). cbn [negb orb].
    unfold bind at 1. unfold try_except_ValueError, bind, lift.
    rewrite (dict_item_Some _ _ _ Le), P. reflexivity.
  - unfold MainPy.calculate_edd.
    rewrite (dict_nonempty _ _ _ Le), (dict_contains_Some _ _ _ Le). cbn [negb orb].
    unfold bind at 1. unfold try_except_ValueError, bind, lift.
    rewrite (dict_item_Some _ _ _ Le), P. reflexivity.
  - intros T. split.
    + unfold WhoLogic.schedule_anc_visits_logic.
      rewrite (dict_get_Some _ _ _ _ Ls), T. cbn [negb andb].
      unfold bind at 1. unfold try_except_ValueError, bind, lift. rewrite P. reflexivity.
    + unfold MainPy.schedule_anc_visits.
      rewrite (dict_get_Some _ _ _ _ Ls), T. cbn [negb andb].
      unfold bind at 1. unfold try_except_ValueError, bind, lift. rewrite P. reflexivity.
  - unfold WhoLogic.get_immunization_schedule_logic.
    rewrite (dict_nonempty _ _ _ Ld), (dict_contains_Some _ _ _ Ld),
      (dict_contains_Some _ _ _ Lp). cbn [negb orb].
    unfold bind at 1. unfold try_except_ValueError, bind, lift.
    rewrite (dict_item_Some _ _ _ Ld), P. reflexivity.
  - unfold MainPy.get_immunization_schedule.
    rewrite (dict_nonempty _ _ _ Ld), (dict_contains_Some _ _ _ Ld),
      (dict_contains_Some _ _ _ Lp). cbn [negb orb].
    unfold bind at 1. unfold try_except_ValueError, bind, lift.
    rewrite (dict_item_Some _ _ _ Ld), P. reflexivity.
Qed.
End DateInputs.

(** ** More on the visit schedule *)

Section ScheduleMore.
Context `{Runtime}.

(** X4.  When [lmp_date] is given (and counts as true), [schedule_anc_visits]
    does not look at [edd_date]: whatever is put under that key, a text that
    is no date included, the answer is the same, on both surfaces. *)
Theorem schedule_lmp_date_takes_precedence
    (data : gmap string pyval) (e : pyval) (n : nat) :
  truthy (dict_get data "lmp_date" PNone) = true ->
  WhoLogic.schedule_anc_visits_logic (<["edd_date" := e]> data) n
  = WhoLogic.schedule_anc_visits_logic data n
  /\ MainPy.schedule_anc_visits (<["edd_date" := e]> data) n
     = MainPy.schedule_anc_visits data n.
Proof.
  intros T.
  assert (Ll : dict_get (<["edd_date" := e]> data) "lmp_date" PNone
               = dict_get data "lmp_date" PNone)
    by (unfold dict_get; rewrite lookup_insert_ne by discriminate; reflexivity).
  assert (Lp : dict_get (<["edd_date" := e]> data) "patient_id" (PStr "patient-example")
               = dict_get data "patient_id" (PStr "patient-example"))
    by (unfold dict_get; rewrite lookup_insert_ne by discriminate; reflexivity).
  unfold WhoLogic.schedule_anc_visits_logic, MainPy.schedule_anc_visits.
  rewrite Ll, Lp, T. cbn [negb andb]. split; reflexivity.
Qed.

Lemma Forall2_last {A B} (P : A -> B -> Prop) (l : list A) (ys : list B) (x : A) :
  Forall2 P l ys -> last l = Some x -> exists y, last ys = Some y /\ P x y.
Proof.
  induction 1 as [|x0 y0 l ys P0 F IH]; [discriminate|].
  destruct F as [|x1 y1 l ys P1 F].
  - intros E. injection E as <-. exists y0. split; [reflexivity | exact P0].
  - intros E. apply IH in E. exact E.
Qed.

Lemma anc_activities_windows (lmp : datetime) (n : nat) :
  valid_datetime lmp -> toordinal lmp + 281 <= MAXORDINAL ->
  exists acts,
    mapM (WhoLogic.anc_activity lmp) WhoLogic.visit_weeks n = Ok (acts, n)
    /\ Forall2 (fun row a =>
                  exists t,
                    valid_datetime t /\ toordinal t = toordinal lmp + 7 * fst row
                    /\ activity_start a = Some (isoformat t)
                    /\ activity_end a = Some (isoformat (plus_days t 1)))
         WhoLogic.visit_weeks acts.
Proof.
  intros V Hi. pose proof (toordinal_range lmp V) as R.
  apply mapM_Forall2. intros [w d] I.
  assert (W : 12 <= w <= 40).
  { unfold WhoLogic.visit_weeks in I. cbn [In] in I.
    repeat (destruct I as [I|I]; [injection I as <- _; lia|]). destruct I. }
  destruct (anc_activity_ok lmp w d n) as (a & Ea & Sa & En & _); [lia..|].
  destruct (plus_days_spec lmp (7 * w) ltac:(lia)) as [Vt Ot].
  exists a. split; [exact Ea|]. exists (plus_days lmp (7 * w)). cbn [fst].
  split; [exact Vt|]. split; [exact Ot|]. split; [exact Sa|].
  rewrite plus_days_plus_days by lia. exact En.
Qed.

(** X5.  The care plan of [schedule_anc_visits] for a valid LMP date [D]
    (the day after the last visit not past 9999-12-31): its period runs from
    [D] to the date 280 days later, the last visit starts on that very date,
    and every visit has a window of one day, from the day [7 * weeks] days
    after [D] to the day after it. *)
Theorem schedule_period_and_visit_windows
    (D : datetime) (data : gmap string pyval) (n : nat) :
  valid_datetime D -> toordinal D + 281 <= MAXORDINAL ->
  data !! "lmp_date" = Some (PStr (iso_date D)) ->
  exists plan acts,
    WhoLogic.schedule_anc_visits_logic data n = Ok (plan, S n)
    /\ activities_of plan = Some acts
    /\ period_start plan = Some (isoformat D)
    /\ period_end plan = Some (isoformat (plus_days D 280))
    /\ last_activity_start plan = Some (isoformat (plus_days D 280))
    /\ Forall2 (fun row a =>
                  exists t,
                    valid_datetime t /\ toordinal t = toordinal D + 7 * fst row
                    /\ activity_start a = Some (isoformat t)
                    /\ activity_end a = Some (isoformat (plus_days t 1)))
         WhoLogic.visit_weeks acts.
Proof.
  intros V Hi L. pose proof (toordinal_range D V) as R.
  destruct (anc_activities_windows D (S n) V Hi) as (acts & E & F).
  unfold WhoLogic.schedule_anc_visits_logic.
  rewrite (dict_get_Some _ _ _ _ L), truthy_iso_date. cbn [negb andb].
  unfold bind at 1. unfold try_except_ValueError. unfold bind at 1 2.
  unfold lift at 1 2. rewrite (strptime_of_iso_date D V).
  unfold timedelta_days. rewrite (add_timedelta_ok D 280) by lia.
  unfold ret at 1. unfold bind at 1. unfold WhoLogic.create_fhir_id at 1.
  unfold bind at 1. rewrite E. unfold ret.
  eexists. exists acts. split; [reflexivity|].
  assert (A : activities_of
                (mkdict [("resourceType", PStr "CarePlan"); ("id", PStr (uuid4 n));
                         ("status", PStr "active"); ("intent", PStr "plan");
                         ("title", PStr "Antenatal Care Visit Schedule");
                         ("description",
                            PStr ("Proposed schedule of 8 ANC contacts based on LMP: "
                                  ++ strftime_ymd D));
                         ("subject",
                            WhoLogic.create_fhir_reference "Patient"
                              (dict_get data "patient_id" (PStr "patient-example")) PNone);
                         ("period", mkdict [("start", PStr (isoformat D));
                                            ("end", PStr (isoformat (plus_days D 280)))]);
                         ("activity", PList acts);
                         ("instantiatesCanonical",
                            PList [PStr (WhoLogic.WHO_SMART_GUIDELINES_URL_BASE
                                         ++ "anc/schedule")])])
              = Some acts)
    by (unfold activities_of; read_literal; reflexivity).
  split; [exact A|].
  split; [unfold period_start, follow; read_literal; reflexivity|].
  split; [unfold period_end, follow; read_literal; reflexivity|].
  split; [|exact F].
  unfold last_activity_start. rewrite A.
  destruct (Forall2_last _ _ _ (40, "Eighth contact: 40 weeks (or around EDD)") F
              eq_refl) as (a & La & t & Vt & Ot & Sa & _).
  rewrite La, Sa. cbn [fst] in Ot. do 2 f_equal.
  unfold plus_days. replace (toordinal D + 280) with (toordinal t) by lia.
  symmetry. apply fromordinal_toordinal, Vt.
Qed.

(** X6.  On every request body the two surfaces of [schedule_anc_visits]
    agree on what they answer with: the same list of visits, the same error
    response, or the same exception. *)
Theorem schedule_surfaces_agree_on_visits (data : gmap string pyval) (n : nat) :
  schedule_view (WhoLogic.schedule_anc_visits_logic data n)
  = schedule_view (MainPy.schedule_anc_visits data n).
Proof.
  unfold WhoLogic.schedule_anc_visits_logic, MainPy.schedule_anc_visits.
  change MainPy.with_status with WhoLogic.with_status.
  change MainPy.error_body with WhoLogic.error_body.
  change MainPy.create_fhir_id with WhoLogic.create_fhir_id.
  change MainPy.anc_activity with WhoLogic.anc_activity.
  destruct (negb (truthy (dict_get data "lmp_date" PNone))
            && negb (truthy (dict_get data "edd_date" PNone))); [reflexivity|].
  unfold bind. cbv beta.
  destruct (try_except_ValueError _ _ n) as [[[early|[lmp edd]] k]|e];
    [reflexivity| |reflexivity].
  unfold WhoLogic.create_fhir_id.
  destruct (mapM (WhoLogic.anc_activity lmp) WhoLogic.visit_weeks (S k))
    as [[acts j]|e]; [|reflexivity].
  unfold ret, mkdict, schedule_view. rewrite !lookup_list_to_map_assoc. reflexivity.
Qed.

(** X7.  [calculate_edd] and [schedule_anc_visits] fit together: the
    schedule asked for with the delivery date that [calculate_edd] returned
    for the LMP date [D] is the schedule asked for with [D] itself.  The
    text of the year is assumed to be on four digits, as it is from the
    year 1000 on. *)
Theorem schedule_from_the_computed_delivery_date
    (D : datetime) (data_l data_e : gmap string pyval) (n : nat) :
  valid_datetime D -> toordinal D + 280 <= MAXORDINAL ->
  strftime_year (dt_year (plus_days D 280)) = zfill4 (dt_year (plus_days D 280)) ->
  data_l !! "lmp_date" = Some (PStr (iso_date D)) ->
  truthy (dict_get data_e "lmp_date" PNone) = false ->
  data_e !! "edd_date"
  = (returned (WhoLogic.calculate_edd_logic data_l n)
       ≫= at_key "estimated_delivery_date") ->
  data_e !! "patient_id" = data_l !! "patient_id" ->
  WhoLogic.schedule_anc_visits_logic data_e n
  = WhoLogic.schedule_anc_visits_logic data_l n.
Proof.
  intros V Hi Y Ll NoLmp Le Pid. pose proof (toordinal_range D V) as R.
  destruct (plus_days_spec D 280 ltac:(lia)) as [VE OE].
  assert (C : (returned (WhoLogic.calculate_edd_logic data_l n)
                 ≫= at_key "estimated_delivery_date")
              = Some (PStr (iso_date (plus_days D 280)))).
  { unfold WhoLogic.calculate_edd_logic.
    rewrite (dict_nonempty _ _ _ Ll), (dict_contains_Some _ _ _ Ll). cbn [negb orb].
    unfold bind at 1. unfold try_except_ValueError. unfold bind, lift, ret.
    rewrite (dict_item_Some _ _ _ Ll), (strptime_of_iso_date D V).
    unfold timedelta_days. rewrite (add_timedelta_ok D 280) by lia.
    cbn [returned mbind option_bind]. read_literal.
    unfold strftime_ymd, iso_date. rewrite Y. reflexivity. }
  rewrite C in Le.
  unfold WhoLogic.schedule_anc_visits_logic.
  rewrite NoLmp. rewrite (dict_get_Some _ _ _ _ Le), (dict_get_Some _ _ _ _ Ll).
  rewrite !truthy_iso_date. cbn [negb andb].
  unfold dict_get at 1 2. rewrite Pid.
  unfold bind, lift, try_except_ValueError. cbv beta.
  rewrite (strptime_of_iso_date _ VE), (strptime_of_iso_date D V).
  cbv beta iota. unfold timedelta_days.
  rewrite (add_timedelta_ok (plus_days D 280) (Z.opp 280)) by lia.
  rewrite (add_timedelta_ok D 280) by lia.
  rewrite plus_days_plus_days by lia.
  replace (280 + Z.opp 280) with 0 by lia. rewrite (plus_days_0 D V). reflexivity.
Qed.
End ScheduleMore.

(** ** More on registration *)

Section RegistrationMore.
Context `{Runtime}.

Lemma reference_of_logic (resource_type : string) (resource_id display : pyval) :
  at_key "reference" (WhoLogic.create_fhir_reference resource_type resource_id display)
  = Some (PStr (resource_type ++ "/" ++ py_str resource_id)).
Proof.
  unfold WhoLogic.create_fhir_reference. cbn [at_key].
  destruct (truthy display).
  - rewrite lookup_insert_ne by discriminate. apply lookup_singleton_eq.
  - apply lookup_singleton_eq.
Qed.

(** X8.  A pregnancy registration whose [patient_details] is a dictionary
    answers with status 201 on both surfaces, draws three identifiers, and
    the EpisodeOfCare refers to the very Patient it comes with: its patient
    reference is ["Patient/"] followed by the identifier of the Patient
    resource.  The Patient resources of the two surfaces are equal. *)
Theorem pregnancy_episode_refers_to_the_patient
    (details data : gmap string pyval) (n : nat) :
  data !! "patient_details" = Some (PDict details) ->
  exists v w,
    WhoLogic.register_pregnancy_logic data n = Ok (v, S (S (S n)))
    /\ MainPy.register_pregnancy data n = Ok (w, S (S (S n)))
    /\ response_status v = 201 /\ response_status w = 201
    /\ registered_patient_id v = Some (PStr (uuid4 n))
    /\ episode_patient_reference v = Some (PStr ("Patient/" ++ uuid4 n))
    /\ episode_patient_reference w = Some (PStr ("Patient/" ++ uuid4 n))
    /\ follow [Key "patient"] (response_body w) = follow [Key "patient"] (response_body v).
Proof.
  intros P.
  unfold WhoLogic.register_pregnancy_logic, MainPy.register_pregnancy.
  rewrite (dict_nonempty _ _ _ P), (dict_contains_Some _ _ _ P). cbn [negb orb].
  unfold bind, lift, ret, WhoLogic.create_fhir_id, MainPy.create_fhir_id.
  rewrite (dict_item_Some _ _ _ P). cbn [method_get method_get_default].
  eexists. eexists. split; [reflexivity|]. split; [reflexivity|].
  split; [reflexivity|]. split; [reflexivity|].
  unfold registered_patient_id, episode_patient_reference, WhoLogic.with_status,
    MainPy.with_status, response_body.
  split; [unfold follow; read_literal; reflexivity|].
  split.
  - cbn [follow]. read_literal. rewrite reference_of_logic. reflexivity.
  - split; unfold follow; read_literal; [|reflexivity].
    unfold MainPy.create_fhir_reference. read_literal. reflexivity.
Qed.

(** X9.  Registration details that are not a dictionary (a text, a list,
    [None]) are not answered with status 400: both registrations raise
    [AttributeError], on both surfaces. *)
Theorem registration_details_that_are_no_dictionary
    (v : pyval) (data_p data_c : gmap string pyval) (n : nat) :
  is_dict v = false ->
  data_p !! "patient_details" = Some v ->
  data_c !! "child_details" = Some v ->
  WhoLogic.register_pregnancy_logic data_p n = Raise AttributeError
  /\ MainPy.register_pregnancy data_p n = Raise AttributeError
  /\ WhoLogic.register_child_logic data_c n = Raise AttributeError
  /\ MainPy.register_child data_c n = Raise AttributeError.
Proof.
  intros N P C.
  assert (G : forall k, method_get v k = Raise AttributeError)
    by (intros k; destruct v; try reflexivity; discriminate).
  unfold WhoLogic.register_pregnancy_logic, MainPy.register_pregnancy,
    WhoLogic.register_child_logic, MainPy.register_child.
  rewrite (dict_nonempty _ _ _ P), (dict_contains_Some _ _ _ P),
    (dict_nonempty _ _ _ C), (dict_contains_Some _ _ _ C). cbn [negb orb].
  unfold bind, lift, ret, WhoLogic.create_fhir_id, MainPy.create_fhir_id.
  rewrite (dict_item_Some _ _ _ P), (dict_item_Some _ _ _ C), !G.
  repeat split.
Qed.

End RegistrationMore.

(** ** More on the visit analysis *)

Section AnalysisMore.
Context `{Runtime}.

Lemma bp_check_logic_returns (sv dv : pyval) (f f' : WhoLogic.findings) (n n' : nat) :
  WhoLogic.bp_check sv dv f n = Ok (f', n') ->
  n' = n /\ exists bp, f' = flagged bp f.
Proof.
  unfold WhoLogic.bp_check, try_except_ValueError, bind, lift, ret.
  destruct (truthy sv && truthy dv).
  - destruct (py_int sv) as [s|[]]; try discriminate.
    + destruct (140 <=? s).
      * intros E. injection E as <- <-. split; [reflexivity|]. exists true. reflexivity.
      * destruct (py_int dv) as [d|[]]; try discriminate.
        -- destruct (90 <=? d); intros E; injection E as <- <-;
             (split; [reflexivity|]); [exists true|exists false]; reflexivity.
        -- intros E. injection E as <- <-. split; [reflexivity|]. exists false. reflexivity.
    + intros E. injection E as <- <-. split; [reflexivity|]. exists false. reflexivity.
  - intros E. injection E as <- <-. split; [reflexivity|]. exists false. reflexivity.
Qed.

Lemma bp_check_http_returns (sv dv : pyval) (f f' : WhoLogic.findings) (n n' : nat) :
  MainPy.bp_check sv dv f n = Ok (f', n') ->
  n' = n /\ exists bp, f' = flagged bp f.
Proof.
  unfold MainPy.bp_check, bind, lift, ret.
  destruct (truthy sv && truthy dv).
  - destruct (py_ge_int sv 140) as [[|]|]; try discriminate.
    + intros E. injection E as <- <-. split; [reflexivity|]. exists true. reflexivity.
    + destruct (py_ge_int dv 90) as [[|]|]; try discriminate;
        intros E; injection E as <- <-; (split; [reflexivity|]);
        [exists true|exists false]; reflexivity.
  - intros E. injection E as <- <-. split; [reflexivity|]. exists false. reflexivity.
Qed.

Lemma findings_shape (bp bleeding : bool) :
  (if bleeding
   then WhoLogic.append_finding (flagged bp ([], [])) WhoLogic.bleeding_risk
          WhoLogic.bleeding_recommendation
   else flagged bp ([], []))
  = expected_findings bp bleeding.
Proof. destruct bp, bleeding; reflexivity. Qed.

Lemma analysis_result_lists (bp bleeding : bool) :
  exists risks recs,
    risks_of (WhoLogic.analysis_result (expected_findings bp bleeding)) = Some risks
    /\ recommendations_of (WhoLogic.analysis_result (expected_findings bp bleeding))
       = Some recs
    /\ length risks = length recs
    /\ length risks = Nat.max 1 (Nat.b2n bp + Nat.b2n bleeding).
Proof.
  rewrite risks_of_result, recommendations_of_result.
  eexists. eexists. split; [reflexivity|]. split; [reflexivity|].
  destruct bp, bleeding; split; reflexivity.
Qed.

(** X10.  Whatever the request, an analysis that returns, on either
    surface, draws no identifier and returns one of four answers: the
    findings are the blood-pressure entry or not, then the bleeding entry or
    not.  There are as many recommendations as risks, one or two of each:
    the one list is never empty. *)
Theorem analysis_answer_is_one_of_four
    (data : gmap string pyval) (n n' : nat) (v : pyval) :
  WhoLogic.analyze_anc_visit_data_logic data n = Ok (v, n')
  \/ MainPy.analyze_anc_visit_data data n = Ok (v, n') ->
  n' = n
  /\ exists bp bleeding risks recs,
       v = WhoLogic.analysis_result (expected_findings bp bleeding)
       /\ risks_of v = Some risks
       /\ recommendations_of v = Some recs
       /\ length risks = length recs
       /\ length risks = Nat.max 1 (Nat.b2n bp + Nat.b2n bleeding).
Proof.
  assert (K : forall (check : pyval -> pyval -> WhoLogic.findings -> M WhoLogic.findings),
             (forall sv dv f f' k k', check sv dv f k = Ok (f', k') ->
                                      k' = k /\ exists bp, f' = flagged bp f) ->
             (s <- lift (method_get (dict_get data "vitals" (PDict ∅)) "bp_systolic") ;;
              d <- lift (method_get (dict_get data "vitals" (PDict ∅)) "bp_diastolic") ;;
              f <- check s d ([], []) ;;
              b <- lift (method_get (dict_get data "symptoms" (PDict ∅)) "bleeding") ;;
              ret (WhoLogic.analysis_result
                     (if is_True b
                      then WhoLogic.append_finding f WhoLogic.bleeding_risk
                             WhoLogic.bleeding_recommendation
                      else f))) n = Ok (v, n') ->
             n' = n /\ exists bp bleeding,
                         v = WhoLogic.analysis_result (expected_findings bp bleeding)).
  { intros check C. unfold bind, lift, ret.
    destruct (method_get (dict_get data "vitals" (PDict ∅)) "bp_systolic") as [s|];
      [|discriminate].
    destruct (method_get (dict_get data "vitals" (PDict ∅)) "bp_diastolic") as [d|];
      [|discriminate].
    destruct (check s d ([], []) n) as [[f k]|] eqn:E; [|discriminate].
    destruct (C _ _ _ _ _ _ E) as (-> & bp & ->).
    destruct (method_get (dict_get data "symptoms" (PDict ∅)) "bleeding") as [b|];
      [|discriminate].
    intros R. injection R as <- <-. split; [reflexivity|].
    exists bp, (is_True b). rewrite findings_shape. reflexivity. }
  intros [E|E].
  - destruct (K WhoLogic.bp_check bp_check_logic_returns E) as (-> & bp & bl & ->).
    split; [reflexivity|]. exists bp, bl.
    destruct (analysis_result_lists bp bl) as (risks & recs & Hr).
    exists risks, recs. split; [reflexivity | exact Hr].
  - destruct (K MainPy.bp_check bp_check_http_returns E) as (-> & bp & bl & ->).
    split; [reflexivity|]. exists bp, bl.
    destruct (analysis_result_lists bp bl) as (risks & recs & Hr).
    exists risks, recs. split; [reflexivity | exact Hr].
Qed.


(** X11.  The bleeding entry is emitted for the value [True] alone: without
    vitals, the answer has the bleeding entry and its recommendation when
    [symptoms.bleeding] is [True], and the low-severity entry with the
    routine recommendation for any other value, one that counts as true
    (1, ["yes"]) included. *)
Theorem bleeding_is_flagged_only_for_True
    (b : pyval) (symptoms data : gmap string pyval) (n : nat) :
  data !! "vitals" = None ->
  data !! "symptoms" = Some (PDict symptoms) ->
  symptoms !! "bleeding" = Some b ->
  exists v,
    WhoLogic.analyze_anc_visit_data_logic data n = Ok (v, n)
    /\ MainPy.analyze_anc_visit_data data n = Ok (v, n)
    /\ (b = PBool true ->
        risks_of v = Some [WhoLogic.bleeding_risk]
        /\ recommendations_of v = Some [WhoLogic.bleeding_recommendation])
    /\ (b <> PBool true ->
        risks_of v = Some [WhoLogic.no_risk]
        /\ recommendations_of v = Some [WhoLogic.routine_recommendation]).
Proof.
  intros V S B.
  unfold WhoLogic.analyze_anc_visit_data_logic, MainPy.analyze_anc_visit_data.
  rewrite (dict_get_None _ _ _ V), (dict_get_Some _ _ _ _ S).
  cbn [method_get]. rewrite (dict_get_Some _ _ _ _ B).
  eexists. split; [reflexivity|]. split; [reflexivity|].
  rewrite risks_of_result, recommendations_of_result. split.
  - intros ->. split; reflexivity.
  - intros N. assert (F : is_True b = false).
    { destruct b as [|[|]| | | | | |]; try reflexivity. contradiction. }
    rewrite F. split; reflexivity.
Qed.

(** X12.  A systolic reading given as text that [int()] rejects: the tool
    surface drops the whole blood-pressure check, so no flag is raised
    whatever the diastolic reading is; the HTTP surface, which compares the
    value as it came, raises [TypeError]. *)
Theorem unparsable_systolic_text_suppresses_the_check
    (s : string) (dv : pyval) (vitals data : gmap string pyval) (n : nat) :
  s <> EmptyString -> int_of_string s = None -> truthy dv = true ->
  data !! "vitals" = Some (PDict vitals) ->
  vitals !! "bp_systolic" = Some (PStr s) ->
  vitals !! "bp_diastolic" = Some dv ->
  data !! "symptoms" = None ->
  WhoLogic.analyze_anc_visit_data_logic data n
  = Ok (WhoLogic.analysis_result (expected_findings false false), n)
  /\ count_bp_flags (WhoLogic.analysis_result (expected_findings false false)) = Some 0%nat
  /\ MainPy.analyze_anc_visit_data data n = Raise TypeError.
Proof.
  intros NE P T V Ls Ld S.
  assert (Ts : truthy (PStr s) = true) by (destruct s; [contradiction|reflexivity]).
  unfold WhoLogic.analyze_anc_visit_data_logic, MainPy.analyze_anc_visit_data.
  rewrite (dict_get_Some _ _ _ _ V), (dict_get_None _ _ _ S). cbn [method_get].
  rewrite (dict_get_Some _ _ _ _ Ls), (dict_get_Some _ _ _ _ Ld).
  unfold bind at 1 2. unfold bind at 3 4. unfold lift at 1 2. unfold lift at 2 3.
  unfold bind at 1. unfold bind at 2.
  unfold WhoLogic.bp_check, MainPy.bp_check. rewrite Ts, T. cbn [andb].
  unfold try_except_ValueError, bind, lift. cbn [py_int py_ge_int]. rewrite P.
  split; [reflexivity|]. split; reflexivity.
Qed.

(** X13.  With a systolic reading of 140 or more the diastolic reading is
    never converted or compared: it only has to count as true, and the
    blood-pressure flag is raised on both surfaces even when it is not a
    number. *)
Theorem high_systolic_needs_no_readable_diastolic
    (sv dv : pyval) (vitals data : gmap string pyval) (n : nat) :
  is_reading sv = true -> at_least sv 140 = true -> truthy dv = true ->
  data !! "vitals" = Some (PDict vitals) ->
  vitals !! "bp_systolic" = Some sv ->
  vitals !! "bp_diastolic" = Some dv ->
  data !! "symptoms" = None ->
  WhoLogic.analyze_anc_visit_data_logic data n
  = Ok (WhoLogic.analysis_result (expected_findings true false), n)
  /\ MainPy.analyze_anc_visit_data data n
     = Ok (WhoLogic.analysis_result (expected_findings true false), n)
  /\ count_bp_flags (WhoLogic.analysis_result (expected_findings true false)) = Some 1%nat.
Proof.
  intros R A T V Ls Ld S.
  destruct (reading_int_at_least sv 140 (or_introl eq_refl) R) as (z & Ez & Gz).
  rewrite A in Gz.
  unfold WhoLogic.analyze_anc_visit_data_logic, MainPy.analyze_anc_visit_data.
  rewrite (dict_get_Some _ _ _ _ V), (dict_get_None _ _ _ S). cbn [method_get].
  rewrite (dict_get_Some _ _ _ _ Ls), (dict_get_Some _ _ _ _ Ld).
  unfold bind at 1 2. unfold bind at 3 4. unfold lift at 1 2. unfold lift at 2 3.
  unfold bind at 1. unfold bind at 2.
  unfold WhoLogic.bp_check, MainPy.bp_check.
  rewrite (reading_truthy sv R), T. cbn [andb].
  unfold try_except_ValueError, bind, lift.
  rewrite Ez, Gz, (reading_ge_int sv 140 R), A.
  split; [reflexivity|]. split; reflexivity.
Qed.

End AnalysisMore.

(** ** The age of sixty months, in days *)

Section SixtyMonths.

Lemma all_in_spec (depth : nat) (P : Z -> bool) (lo k : Z) :
  all_in depth lo P = true -> lo <= k < lo + 2 ^ Z.of_nat depth -> P k = true.
Proof.
  revert lo. induction depth as [|d IH]; intros lo A R.
  - cbn [all_in] in A. change (2 ^ Z.of_nat 0) with 1 in R.
    replace k with lo by lia. exact A.
  - cbn [all_in] in A. apply andb_true_iff in A. destruct A as [A1 A2].
    rewrite Nat2Z.inj_succ, Z.pow_succ_r in R by lia.
    destruct (Z.lt_ge_cases k (lo + 2 ^ Z.of_nat d)).
    + apply (IH lo); [exact A1 | lia].
    + apply (IH (lo + 2 ^ Z.of_nat d)); [exact A2 | lia].
Qed.

Lemma months_of_days_machine_eq (d : Z) :
  0 <= d < 2 ^ 63 -> months_of_days d = months_of_days_machine d.
Proof.
  intros R. unfold months_of_days, months_of_days_machine, float_of_small_Z.
  f_equal. rewrite <- (SF2Prim_Prim2SF (of_uint63 (Uint63.of_Z d))).
  rewrite FloatAxioms.of_uint63_spec, Uint63.of_Z_spec.
  rewrite Z.mod_small; [reflexivity|]. exact R.
Qed.

Lemma sixty_months_check :
  all_in 22 1827 (fun d => negb (months_of_days_machine d <? 60)%float) = true.
Proof. vm_compute. reflexivity. Qed.

Lemma under_sixty_months_check :
  all_in 11 0 (fun d => (1827 <=? d) || (months_of_days_machine d <? 60)%float) = true.
Proof. vm_compute. reflexivity. Qed.

Lemma months_of_days_sixty (d : Z) :
  0 <= d < MAXORDINAL ->
  (months_of_days d <? 60)%float = (d <? 1827).
Proof.
  intros R. unfold MAXORDINAL in R. rewrite months_of_days_machine_eq by lia.
  destruct (Z.ltb_spec d 1827) as [L|G].
  - pose proof (all_in_spec 11 _ 0 d under_sixty_months_check ltac:(simpl; lia)) as C.
    cbv beta in C. destruct (Z.leb_spec 1827 d); [lia|]. exact C.
  - pose proof (all_in_spec 22 _ 1827 d sixty_months_check ltac:(simpl; lia)) as C.
    cbv beta in C. apply negb_true_iff in C. exact C.
Qed.

End SixtyMonths.

(** ** Growth monitoring on well-formed requests *)

Section GrowthRun.
Context `{Runtime}.

Lemma http_observation_interpretation (patient_id : pyval) (t : datetime)
    (cs c dt : string) (v : float) (u it ics ic : string) (n : nat) :
  exists obs,
    MainPy.create_growth_observation patient_id t cs c dt v u it ics ic it n
    = Ok (obs, S n)
    /\ interpretation_code obs = Some ic
    /\ forall rest,
         MainPy.all_texts_normal (obs :: rest)
         = if String.prefix "Normal" it then MainPy.all_texts_normal rest else Ok false.
Proof.
  eexists. split; [reflexivity|]. split.
  - unfold interpretation_code, follow. read_literal. cbn [at_idx nth_error].
    unfold MainPy.create_codeable_concept. read_literal. cbn [at_idx nth_error].
    read_literal. reflexivity.
  - intros rest. cbn [MainPy.all_texts_normal]. unfold mkdict at 1.
    cbn [subscript_key]. unfold dict_item. rewrite lookup_list_to_map_assoc.
    cbn [assoc String.eqb Ascii.eqb Bool.eqb rbind subscript_idx nth_error].
    unfold MainPy.create_codeable_concept at 1. unfold mkdict at 1.
    cbn [subscript_key]. unfold dict_item. rewrite lookup_list_to_map_assoc.
    cbn [assoc String.eqb Ascii.eqb Bool.eqb rbind].
    destruct it; reflexivity.
Qed.

Lemma http_overall_normal (patient_id : pyval) (t : datetime)
    (w h : float) (t1 c1 t2 c2 t3 c3 : string) (n : nat) :
  exists o1 o2 o3,
    MainPy.create_growth_observation patient_id t "http://loinc.org" "3141-9"
      "Body weight Measured -- Wt/Age" w "kg" t1 WhoLogic.interpretation_system c1 t1 n
    = Ok (o1, S n)
    /\ MainPy.create_growth_observation patient_id t "http://loinc.org" "8308-9"
         "Body height Measured -- Ht/Age" h "cm" t2 WhoLogic.interpretation_system c2 t2
         (S n)
       = Ok (o2, S (S n))
    /\ MainPy.create_growth_observation patient_id t "http://loinc.org" "8340-2"
         "Body weight Measured -- Wt/Len" w "kg" t3 WhoLogic.interpretation_system c3 t3
         (S (S n))
       = Ok (o3, S (S (S n)))
    /\ map interpretation_code [o1; o2; o3] = [Some c1; Some c2; Some c3]
    /\ MainPy.overall_normal [o1; o2; o3] = Ok true.
Proof.
  destruct (http_observation_interpretation patient_id t "http://loinc.org" "3141-9"
              "Body weight Measured -- Wt/Age" w "kg" t1 WhoLogic.interpretation_system
              c1 n) as (o1 & E1 & C1 & T1).
  destruct (http_observation_interpretation patient_id t "http://loinc.org" "8308-9"
              "Body height Measured -- Ht/Age" h "cm" t2 WhoLogic.interpretation_system
              c2 (S n)) as (o2 & E2 & C2 & T2).
  destruct (http_observation_interpretation patient_id t "http://loinc.org" "8340-2"
              "Body weight Measured -- Wt/Len" w "kg" t3 WhoLogic.interpretation_system
              c3 (S (S n))) as (o3 & E3 & C3 & T3).
  exists o1, o2, o3. repeat split; try assumption.
  - cbn [map]. rewrite C1, C2, C3. reflexivity.
  - apply (overall_normal_always _
             (String.prefix "Normal" t1 && String.prefix "Normal" t2
              && String.prefix "Normal" t3)).
    rewrite T1, T2, T3. cbn [MainPy.all_texts_normal].
    destruct (String.prefix "Normal" t1), (String.prefix "Normal" t2),
      (String.prefix "Normal" t3); reflexivity.
Qed.


Section ValidInput.
Variables (data : gmap string pyval) (dob measured : datetime) (wv hv pid : pyval)
  (w h : float) (g : string) (n : nat).
Hypotheses (Vd : valid_datetime dob) (Vm : valid_datetime measured)
  (Ld : data !! "dob" = Some (PStr (iso_date dob)))
  (Lm : data !! "measurement_date" = Some (PStr (iso_date measured)))
  (Lw : data !! "weight_kg" = Some wv) (Pw : py_float wv = Ok w)
  (Lh : data !! "height_cm" = Some hv) (Ph : py_float hv = Ok h)
  (Lg : data !! "gender" = Some (PStr g))
  (Gok : String.eqb (str_lower g) "male" || String.eqb (str_lower g) "female" = true)
  (Lp : data !! "patient_id" = Some pid).

Lemma growth_logic_run :
  0 <= sub_days measured dob ->
  match WhoLogic.wfh_interpretation (months_of_days (sub_days measured dob)) w h with
  | Ok (_, c3) =>
      exists v,
        WhoLogic.growth_monitoring_logic data n = Ok (v, S (S (S n)))
        /\ growth_codes v
           = Some [Some (snd (WhoLogic.wfa_interpretation
                                (months_of_days (sub_days measured dob)) w));
                   Some (snd (WhoLogic.hfa_interpretation
                                (months_of_days (sub_days measured dob)) h));
                   Some c3]
        /\ growth_note v = Some WhoLogic.growth_normal_note
        /\ at_key "age_in_days" v = Some (PInt (sub_days measured dob))
  | Raise e => WhoLogic.growth_monitoring_logic data n = Raise e
  end.
Proof.
  intros A.
  remember (WhoLogic.growth_monitoring_logic data n) as r eqn:R.
  unfold WhoLogic.growth_monitoring_logic, WhoLogic.required_fields in R.
  cbn [forallb] in R.
  rewrite (dict_contains_Some _ _ _ Ld), (dict_contains_Some _ _ _ Lm),
    (dict_contains_Some _ _ _ Lw), (dict_contains_Some _ _ _ Lh),
    (dict_contains_Some _ _ _ Lg), (dict_contains_Some _ _ _ Lp) in R.
  cbn [andb negb] in R.
  unfold bind at 1 in R. unfold try_except_ValueError in R.
  unfold bind at 1 2 3 4 5 6 in R. unfold lift at 1 2 3 4 5 6 in R.
  rewrite (dict_item_Some _ _ _ Ld), (dict_item_Some _ _ _ Lm),
    (dict_item_Some _ _ _ Lw), (dict_item_Some _ _ _ Lh),
    (dict_item_Some _ _ _ Lg), (dict_item_Some _ _ _ Lp) in R.
  cbn [rbind] in R. rewrite !strptime_of_iso_date in R by assumption.
  rewrite Pw, Ph in R. cbn [method_lower] in R. rewrite Gok in R.
  cbn [negb] in R. unfold ret at 1 in R.
  destruct (Z.ltb_spec (sub_days measured dob) 0) as [?|_]; [lia|].
  fold (months_of_days (sub_days measured dob)) in R.
  destruct (WhoLogic.wfa_interpretation (months_of_days (sub_days measured dob)) w)
    as [t1 c1].
  destruct (WhoLogic.hfa_interpretation (months_of_days (sub_days measured dob)) h)
    as [t2 c2].
  destruct (WhoLogic.wfh_interpretation (months_of_days (sub_days measured dob)) w h)
    as [[t3 c3]|e].
  - destruct (all_codes_normal_of_observations pid measured w h t1 c1 t2 c2 t3 c3 n)
      as (o1 & o2 & o3 & E1 & E2 & E3 & C & N).
    unfold bind at 1 in R. rewrite E1 in R.
    unfold bind at 1 in R. rewrite E2 in R.
    unfold bind at 1 in R. unfold lift at 1 in R.
    unfold bind at 1 in R. rewrite E3 in R.
    unfold bind, lift in R. rewrite N in R. unfold ret in R.
    eexists. split; [exact R|]. cbn [snd].
    unfold growth_codes, growth_note. read_literal. cbn [mbind option_bind as_list].
    rewrite C. repeat split; reflexivity.
  - unfold bind at 1 in R.
    destruct (growth_observation_interpretation pid measured "http://loinc.org" "3141-9"
                "Body weight Measured -- Wt/Age" w "kg" t1 WhoLogic.interpretation_system
                c1 t1 n) as (o1 & E1 & _).
    destruct (growth_observation_interpretation pid measured "http://loinc.org" "8308-9"
                "Body height Measured -- Ht/Age" h "cm" t2 WhoLogic.interpretation_system
                c2 t2 (S n)) as (o2 & E2 & _).
    rewrite E1 in R. unfold bind at 1 in R. rewrite E2 in R.
    unfold bind at 1 in R. unfold lift at 1 in R. exact R.
Qed.

Lemma growth_http_run :
  match MainPy.wfh_interpretation (months_of_days (sub_days measured dob)) w h with
  | Ok (_, c3) =>
      exists v,
        MainPy.growth_monitoring data n = Ok (v, S (S (S n)))
        /\ growth_codes v
           = Some [Some (snd (WhoLogic.wfa_interpretation
                                (months_of_days (sub_days measured dob)) w));
                   Some (snd (WhoLogic.hfa_interpretation
                                (months_of_days (sub_days measured dob)) h));
                   Some c3]
        /\ growth_note v = Some WhoLogic.growth_normal_note
        /\ at_key "age_in_days" v = Some (PInt (sub_days measured dob))
  | Raise e => MainPy.growth_monitoring data n = Raise e
  end.
Proof.
  remember (MainPy.growth_monitoring data n) as r eqn:R.
  unfold MainPy.growth_monitoring, WhoLogic.required_fields in R.
  cbn [forallb] in R.
  rewrite (dict_contains_Some _ _ _ Ld), (dict_contains_Some _ _ _ Lm),
    (dict_contains_Some _ _ _ Lw), (dict_contains_Some _ _ _ Lh),
    (dict_contains_Some _ _ _ Lg), (dict_contains_Some _ _ _ Lp) in R.
  cbn [andb negb] in R.
  unfold bind at 1 in R. unfold try_except_ValueError in R.
  unfold bind at 1 2 3 4 5 6 in R. unfold lift at 1 2 3 4 5 6 in R.
  rewrite (dict_item_Some _ _ _ Ld), (dict_item_Some _ _ _ Lm),
    (dict_item_Some _ _ _ Lw), (dict_item_Some _ _ _ Lh),
    (dict_item_Some _ _ _ Lg), (dict_item_Some _ _ _ Lp) in R.
  cbn [rbind] in R. rewrite !strptime_of_iso_date in R by assumption.
  rewrite Pw, Ph in R. cbn [method_lower] in R. rewrite Gok in R.
  cbn [negb] in R. unfold ret at 1 in R.
  fold (months_of_days (sub_days measured dob)) in R.
  destruct (WhoLogic.wfa_interpretation (months_of_days (sub_days measured dob)) w)
    as [t1 c1].
  destruct (WhoLogic.hfa_interpretation (months_of_days (sub_days measured dob)) h)
    as [t2 c2].
  destruct (MainPy.wfh_interpretation (months_of_days (sub_days measured dob)) w h)
    as [[t3 c3]|e].
  - destruct (http_overall_normal pid measured w h t1 c1 t2 c2 t3 c3 n)
      as (o1 & o2 & o3 & E1 & E2 & E3 & C & N).
    unfold bind at 1 in R. rewrite E1 in R.
    unfold bind at 1 in R. rewrite E2 in R.
    unfold bind at 1 in R. unfold lift at 1 in R.
    unfold bind at 1 in R. rewrite E3 in R.
    unfold bind, lift in R. rewrite N in R. unfold ret in R.
    eexists. split; [exact R|]. cbn [snd].
    unfold growth_codes, growth_note. read_literal. cbn [mbind option_bind as_list].
    rewrite C. repeat split; reflexivity.
  - unfold bind at 1 in R.
    destruct (http_observation_interpretation pid measured "http://loinc.org" "3141-9"
                "Body weight Measured -- Wt/Age" w "kg" t1 WhoLogic.interpretation_system
                c1 n) as (o1 & E1 & _).
    destruct (http_observation_interpretation pid measured "http://loinc.org" "8308-9"
                "Body height Measured -- Ht/Age" h "cm" t2 WhoLogic.interpretation_system
                c2 (S n)) as (o2 & E2 & _).
    rewrite E1 in R. unfold bind at 1 in R. rewrite E2 in R.
    unfold bind at 1 in R. unfold lift at 1 in R. exact R.
Qed.
End ValidInput.

Lemma wfh_same_for_positive_height (a w h : float) :
  (0 <? h)%float = true ->
  MainPy.wfh_interpretation a w h = WhoLogic.wfh_interpretation a w h.
Proof.
  intros P. unfold MainPy.wfh_interpretation, WhoLogic.wfh_interpretation.
  rewrite P. destruct (float_sqr (h / 100)) as [sq|e]; [|reflexivity]. cbn [rbind].
  destruct (float_div w sq) as [bmi|e]; [|reflexivity]. cbn [rbind].
  destruct ((bmi <? 15)%float && (6 <? a)%float); [reflexivity|].
  destruct ((25 <? bmi)%float && (24 <? a)%float); reflexivity.
Qed.
End GrowthRun.

(** ** More on growth monitoring *)

Section GrowthMore.
Context `{Runtime}.

Section ValidInputCodes.
Variables (data : gmap string pyval) (dob measured : datetime) (wv hv pid : pyval)
  (w h : float) (g : string) (n : nat).
Hypotheses (Vd : valid_datetime dob) (Vm : valid_datetime measured)
  (Ld : data !! "dob" = Some (PStr (iso_date dob)))
  (Lm : data !! "measurement_date" = Some (PStr (iso_date measured)))
  (Lw : data !! "weight_kg" = Some wv) (Pw : py_float wv = Ok w)
  (Lh : data !! "height_cm" = Some hv) (Ph : py_float hv = Ok h)
  (Lg : data !! "gender" = Some (PStr g))
  (Gok : String.eqb (str_lower g) "male" || String.eqb (str_lower g) "female" = true)
  (Lp : data !! "patient_id" = Some pid).

(** X14.  For a child measured 1827 days or more after birth (60 months at
    30.4375 days a month) weight-for-age and height-for-age are coded ["N"]
    on both surfaces whatever the weight and the height; the call returns
    exactly when the weight-for-height computation does. *)
Theorem growth_from_sixty_months_on :
  1827 <= sub_days measured dob ->
  growth_view (WhoLogic.growth_monitoring_logic data n)
  = match WhoLogic.wfh_interpretation (months_of_days (sub_days measured dob)) w h with
    | Ok (_, c3) => Ok (Some [Some "N"; Some "N"; Some c3])
    | Raise e => Raise e
    end
  /\ growth_view (MainPy.growth_monitoring data n)
     = match MainPy.wfh_interpretation (months_of_days (sub_days measured dob)) w h with
       | Ok (_, c3) => Ok (Some [Some "N"; Some "N"; Some c3])
       | Raise e => Raise e
       end.
Proof.
  intros A.
  pose proof (toordinal_range dob Vd) as Rd.
  pose proof (toordinal_range measured Vm) as Rm.
  assert (S60 : (months_of_days (sub_days measured dob) <? 60)%float = false).
  { rewrite months_of_days_sixty by (unfold sub_days in *; lia).
    apply Z.ltb_ge. exact A. }
  pose proof (growth_logic_run data dob measured wv hv pid w h g n
                Vd Vm Ld Lm Lw Pw Lh Ph Lg Gok Lp ltac:(lia)) as L.
  pose proof (growth_http_run data dob measured wv hv pid w h g n
                Vd Vm Ld Lm Lw Pw Lh Ph Lg Gok Lp) as P.
  unfold WhoLogic.wfa_interpretation, WhoLogic.hfa_interpretation in L, P.
  rewrite S60 in L, P. cbn [snd] in L, P.
  split.
  - destruct (WhoLogic.wfh_interpretation _ w h) as [[t3 c3]|e].
    + destruct L as (v & E & C & _). rewrite E. cbn [growth_view]. rewrite C. reflexivity.
    + rewrite L. reflexivity.
  - destruct (MainPy.wfh_interpretation _ w h) as [[t3 c3]|e].
    + destruct P as (v & E & C & _). rewrite E. cbn [growth_view]. rewrite C. reflexivity.
    + rewrite P. reflexivity.
Qed.

(** X15.  For a measurement not dated before the birth and a height above
    zero the two surfaces of [growth_monitoring] report the same three
    interpretation codes, or raise the same exception: they differ only
    where the HTTP surface lacks a check. *)
Theorem growth_surfaces_agree_on_codes :
  0 <= sub_days measured dob -> (0 <? h)%float = true ->
  growth_view (MainPy.growth_monitoring data n)
  = growth_view (WhoLogic.growth_monitoring_logic data n)
  /\ growth_view (WhoLogic.growth_monitoring_logic data n)
     = match WhoLogic.wfh_interpretation (months_of_days (sub_days measured dob)) w h with
       | Ok (_, c3) =>
           Ok (Some [Some (snd (WhoLogic.wfa_interpretation
                                  (months_of_days (sub_days measured dob)) w));
                     Some (snd (WhoLogic.hfa_interpretation
                                  (months_of_days (sub_days measured dob)) h));
                     Some c3])
       | Raise e => Raise e
       end.
Proof.
  intros A Hp.
  pose proof (growth_logic_run data dob measured wv hv pid w h g n
                Vd Vm Ld Lm Lw Pw Lh Ph Lg Gok Lp A) as L.
  pose proof (growth_http_run data dob measured wv hv pid w h g n
                Vd Vm Ld Lm Lw Pw Lh Ph Lg Gok Lp) as P.
  rewrite (wfh_same_for_positive_height _ w h Hp) in P.
  destruct (WhoLogic.wfh_interpretation _ w h) as [[t3 c3]|e].
  - destruct L as (v & E & C & _). destruct P as (v' & E' & C' & _).
    rewrite E, E'. cbn [growth_view]. rewrite C, C'. split; reflexivity.
  - rewrite L, P. split; reflexivity.
Qed.

End ValidInputCodes.

Lemma note_of_error_answer (msg : string) :
  growth_note (WhoLogic.with_status (WhoLogic.error_body msg) 400) = None
  /\ response_status (WhoLogic.with_status (WhoLogic.error_body msg) 400) = 400.
Proof. split; reflexivity. Qed.

Lemma notes_differ : WhoLogic.growth_normal_note <> WhoLogic.growth_assess_note.
Proof. discriminate. Qed.

Ltac error_answer T :=
  first [ discriminate T
        | injection T as <- <-; left; apply note_of_error_answer ].

Lemma growth_logic_note (data : gmap string pyval) (n n' : nat) (v : pyval) :
  WhoLogic.growth_monitoring_logic data n = Ok (v, n') -> note_ok v.
Proof.
  intros E. unfold WhoLogic.growth_monitoring_logic in E.
  destruct (negb (forallb (dict_contains data) WhoLogic.required_fields)).
  { unfold ret in E. error_answer E. }
  unfold bind at 1 in E.
  destruct (try_except_ValueError _ _ n)
    as [[[early|[[[[[dob m] w] h] g] pid]] k]|e] eqn:T; [| |discriminate E].
  - unfold ret in E. injection E as <- <-.
    unfold try_except_ValueError, bind, lift, ret in T.
    destruct (rbind (dict_item data "dob") strptime) as [?|[]]; try error_answer T.
    destruct (rbind (dict_item data "measurement_date") strptime) as [?|[]];
      try error_answer T.
    destruct (rbind (dict_item data "weight_kg") py_float) as [?|[]]; try error_answer T.
    destruct (rbind (dict_item data "height_cm") py_float) as [?|[]]; try error_answer T.
    destruct (rbind (dict_item data "gender") method_lower) as [?|[]]; try error_answer T.
    destruct (dict_item data "patient_id") as [?|[]]; try error_answer T.
    destruct (negb _); error_answer T.
  - clear T. destruct (sub_days m dob <? 0).
    { unfold ret in E. error_answer E. }
    destruct (WhoLogic.wfa_interpretation _ w) as [t1 c1].
    destruct (WhoLogic.hfa_interpretation _ h) as [t2 c2].
    destruct (WhoLogic.wfh_interpretation _ w h) as [[t3 c3]|e].
    + destruct (all_codes_normal_of_observations pid m w h t1 c1 t2 c2 t3 c3 k)
        as (o1 & o2 & o3 & E1 & E2 & E3 & _ & N).
      unfold bind at 1 in E. rewrite E1 in E.
      unfold bind at 1 in E. rewrite E2 in E.
      unfold bind at 1 in E. unfold lift at 1 in E.
      unfold bind at 1 in E. rewrite E3 in E.
      unfold bind, lift in E. rewrite N in E. unfold ret in E.
      injection E as <- <-. right. split; [|reflexivity].
      unfold growth_note. read_literal. reflexivity.
    + destruct (growth_observation_interpretation pid m "http://loinc.org" "3141-9"
                  "Body weight Measured -- Wt/Age" w "kg" t1
                  WhoLogic.interpretation_system c1 t1 k) as (o1 & E1 & _).
      destruct (growth_observation_interpretation pid m "http://loinc.org" "8308-9"
                  "Body height Measured -- Ht/Age" h "cm" t2
                  WhoLogic.interpretation_system c2 t2 (S k)) as (o2 & E2 & _).
      unfold bind at 1 in E. rewrite E1 in E.
      unfold bind at 1 in E. rewrite E2 in E.
      unfold bind at 1 in E. unfold lift at 1 in E. discriminate E.
Qed.

Lemma growth_http_note (data : gmap string pyval) (n n' : nat) (v : pyval) :
  MainPy.growth_monitoring data n = Ok (v, n') -> note_ok v.
Proof.
  intros E. unfold MainPy.growth_monitoring in E.
  destruct (negb (forallb (dict_contains data) WhoLogic.required_fields)).
  { unfold ret in E. error_answer E. }
  unfold bind at 1 in E.
  destruct (try_except_ValueError _ _ n)
    as [[[early|[[[[[dob m] w] h] g] pid]] k]|e] eqn:T; [| |discriminate E].
  - unfold ret in E. injection E as <- <-.
    unfold try_except_ValueError, bind, lift, ret in T.
    destruct (rbind (dict_item data "dob") strptime) as [?|[]]; try error_answer T.
    destruct (rbind (dict_item data "measurement_date") strptime) as [?|[]];
      try error_answer T.
    destruct (rbind (dict_item data "weight_kg") py_float) as [?|[]]; try error_answer T.
    destruct (rbind (dict_item data "height_cm") py_float) as [?|[]]; try error_answer T.
    destruct (rbind (dict_item data "gender") method_lower) as [?|[]]; try error_answer T.
    destruct (dict_item data "patient_id") as [?|[]]; try error_answer T.
    destruct (negb _); error_answer T.
  - clear T.
    destruct (WhoLogic.wfa_interpretation _ w) as [t1 c1].
    destruct (WhoLogic.hfa_interpretation _ h) as [t2 c2].
    destruct (MainPy.wfh_interpretation _ w h) as [[t3 c3]|e].
    + destruct (http_overall_normal pid m w h t1 c1 t2 c2 t3 c3 k)
        as (o1 & o2 & o3 & E1 & E2 & E3 & _ & N).
      unfold bind at 1 in E. rewrite E1 in E.
      unfold bind at 1 in E. rewrite E2 in E.
      unfold bind at 1 in E. unfold lift at 1 in E.
      unfold bind at 1 in E. rewrite E3 in E.
      unfold bind, lift in E. rewrite N in E. unfold ret in E.
      injection E as <- <-. right. split; [|reflexivity].
      unfold growth_note. read_literal. reflexivity.
    + destruct (http_observation_interpretation pid m "http://loinc.org" "3141-9"
                  "Body weight Measured -- Wt/Age" w "kg" t1
                  WhoLogic.interpretation_system c1 k) as (o1 & E1 & _).
      destruct (http_observation_interpretation pid m "http://loinc.org" "8308-9"
                  "Body height Measured -- Ht/Age" h "cm" t2
                  WhoLogic.interpretation_system c2 (S k)) as (o2 & E2 & _).
      unfold bind at 1 in E. rewrite E1 in E.
      unfold bind at 1 in E. rewrite E2 in E.
      unfold bind at 1 in E. unfold lift at 1 in E. discriminate E.
Qed.

(** X16.  No request makes [growth_monitoring] say that further assessment
    is needed: on either surface a returned answer is an error answer with
    status 400 or carries the note for normal growth. *)
Theorem growth_note_is_never_the_assessment_text
    (data : gmap string pyval) (n n' : nat) (v : pyval) :
  WhoLogic.growth_monitoring_logic data n = Ok (v, n')
  \/ MainPy.growth_monitoring data n = Ok (v, n') ->
  growth_note v <> Some WhoLogic.growth_assess_note
  /\ (response_status v = 200 -> growth_note v = Some WhoLogic.growth_normal_note).
Proof.
  intros E.
  assert (N : note_ok v)
    by (destruct E as [E|E]; [eapply growth_logic_note | eapply growth_http_note];
        exact E).
  destruct N as [[N S]|[N S]]; rewrite N.
  - split; [discriminate|]. intros S'. rewrite S in S'. discriminate S'.
  - split; [|reflexivity]. intros C. apply notes_differ. apply (inj Some) in C. exact C.
Qed.

End GrowthMore.

(** ** Calendar months and the immunization dates *)

(** The number of days before the month of index [i]. *)
Section CalendarMonths.

Lemma month_start_step (i : Z) :
  month_start (i + 1) = month_start i + days_in_month (i / 12) (i mod 12 + 1).
Proof.
  unfold month_start.
  assert (M : 1 <= i mod 12 + 1 <= 12) by (Z.div_mod_to_equations; lia).
  destruct (Z.eq_dec (i mod 12) 11) as [E|N].
  - replace ((i + 1) / 12) with (i / 12 + 1) by (Z.div_mod_to_equations; lia).
    replace ((i + 1) mod 12) with 0 by (Z.div_mod_to_equations; lia).
    rewrite E, days_before_year_succ. unfold days_before_month, days_in_month.
    destruct (is_leap (i / 12)), (is_leap (i / 12 + 1)); simpl; lia.
  - replace ((i + 1) / 12) with (i / 12) by (Z.div_mod_to_equations; lia).
    replace ((i + 1) mod 12) with (i mod 12 + 1) by (Z.div_mod_to_equations; lia).
    unfold days_before_month, days_in_month.
    destruct (month_cases _ M)
      as [->|[->|[->|[->|[->|[->|[->|[->|[->|[->|[->| E]]]]]]]]]]]; [..|lia];
      destruct (is_leap (i / 12)); simpl; lia.
Qed.

Lemma days_in_month_bounds (i : Z) : 28 <= days_in_month (i / 12) (i mod 12 + 1) <= 31.
Proof.
  apply (dim_flag_bounds (is_leap (i / 12)) (i mod 12 + 1)).
  Z.div_mod_to_equations; lia.
Qed.

Lemma month_start_mono (i j : Z) :
  0 <= j -> month_start i + 28 * j <= month_start (i + j).
Proof.
  intros Hj. revert j Hj. apply natlike_ind.
  - replace (i + 0) with i by lia. lia.
  - intros j Hj IH. replace (i + Z.succ j) with (i + j + 1) by lia.
    rewrite month_start_step. pose proof (days_in_month_bounds (i + j)). lia.
Qed.

Lemma month_index_fields (t : datetime) :
  1 <= dt_month t <= 12 ->
  month_index t / 12 = dt_year t /\ month_index t mod 12 + 1 = dt_month t.
Proof. intros M. unfold month_index. Z.div_mod_to_equations. lia. Qed.

Lemma toordinal_month_start (t : datetime) :
  valid_datetime t -> toordinal t = month_start (month_index t) + dt_day t.
Proof.
  intros V. apply valid_datetime_iff in V. destruct V as (_ & M & _).
  destruct (month_index_fields t M) as [Ey Em].
  unfold month_start. rewrite Ey, Em. reflexivity.
Qed.

Lemma plus_months_spec (t : datetime) (k : Z) :
  valid_datetime t -> 0 <= k -> dt_year (plus_months t k) <= 9999 ->
  valid_datetime (plus_months t k)
  /\ month_index (plus_months t k) = month_index t + k
  /\ toordinal (plus_months t k)
     = month_start (month_index t + k) + dt_day (plus_months t k)
  /\ 1 <= dt_day (plus_months t k) <= dt_day t
  /\ dt_day (plus_months t k)
     <= days_in_month ((month_index t + k) / 12) ((month_index t + k) mod 12 + 1).
Proof.
  intros V Hk Hy. pose proof V as V'. apply valid_datetime_iff in V'.
  destruct V' as (Y & M & Dd).
  pose proof (days_in_month_bounds (month_index t + k)) as B.
  assert (Y' : 1 <= (month_index t + k) / 12).
  { unfold month_index. Z.div_mod_to_equations. lia. }
  assert (M' : 1 <= (month_index t + k) mod 12 + 1 <= 12)
    by (Z.div_mod_to_equations; lia).
  assert (Vp : valid_datetime (plus_months t k)).
  { apply valid_datetime_iff. unfold plus_months in *.
    cbn [dt_year dt_month dt_day] in *. unfold valid_ymd. lia. }
  assert (I : month_index (plus_months t k) = month_index t + k).
  { unfold month_index at 1. unfold plus_months. cbn [dt_year dt_month].
    Z.div_mod_to_equations. lia. }
  split; [exact Vp|]. split; [exact I|]. split.
  - rewrite (toordinal_month_start _ Vp), I. reflexivity.
  - unfold plus_months. cbn [dt_day]. split; lia.
Qed.

Lemma relativedelta_of_nonneg (k days : Z) :
  0 <= k -> relativedelta_of k days = mkrelativedelta (k / 12) (k mod 12) days.
Proof.
  intros Hk. unfold relativedelta_of, sign.
  destruct (Z.ltb_spec 11 (Z.abs k)).
  - destruct (Z.ltb_spec k 0); [lia|]. rewrite !Z.mul_1_r. reflexivity.
  - f_equal; Z.div_mod_to_equations; lia.
Qed.

Lemma add_relativedelta_plus_months (t : datetime) (k days : Z) :
  valid_datetime t -> 0 <= k -> dt_year (plus_months t k) <= 9999 ->
  add_relativedelta t (relativedelta_of k days) = add_timedelta (plus_months t k) days.
Proof.
  intros V Hk Hy. destruct (plus_months_spec t k V Hk Hy) as (Vp & _).
  pose proof V as V'. apply valid_datetime_iff in V'. destruct V' as (Y & M & Dd).
  rewrite relativedelta_of_nonneg by exact Hk.
  unfold add_relativedelta. cbn [rd_years rd_months rd_days].
  assert (E : (if k mod 12 =? 0 then (dt_year t + k / 12, dt_month t)
               else if 12 <? dt_month t + k mod 12
                    then (dt_year t + k / 12 + 1, dt_month t + k mod 12 - 12)
                    else if dt_month t + k mod 12 <? 1
                         then (dt_year t + k / 12 - 1, dt_month t + k mod 12 + 12)
                         else (dt_year t + k / 12, dt_month t + k mod 12))
              = ((month_index t + k) / 12, (month_index t + k) mod 12 + 1)).
  { unfold month_index.
    destruct (Z.eqb_spec (k mod 12) 0);
      [|destruct (Z.ltb_spec 12 (dt_month t + k mod 12));
        [|destruct (Z.ltb_spec (dt_month t + k mod 12) 1)]];
      f_equal; Z.div_mod_to_equations; lia. }
  rewrite E. fold (plus_months t k) in *.
  change (check_date_fields ((month_index t + k) / 12) ((month_index t + k) mod 12 + 1)
            (Z.min (days_in_month ((month_index t + k) / 12)
                      ((month_index t + k) mod 12 + 1)) (dt_day t)))
    with (check_date_fields (dt_year (plus_months t k)) (dt_month (plus_months t k))
            (dt_day (plus_months t k))).
  unfold valid_datetime in Vp. rewrite Vp. reflexivity.
Qed.

Lemma plus_months_0 (t : datetime) : valid_datetime t -> plus_months t 0 = t.
Proof.
  intros V. pose proof V as V'. apply valid_datetime_iff in V'.
  destruct V' as (Y & M & Dd). destruct (month_index_fields t M) as [Ey Em].
  unfold plus_months. rewrite Z.add_0_r, Ey, Em.
  replace (Z.min (days_in_month (dt_year t) (dt_month t)) (dt_day t)) with (dt_day t)
    by lia.
  destruct t; reflexivity.
Qed.

End CalendarMonths.

Section Doses.
Context `{Runtime}.

Lemma mapM_Forall2_along {A B C} (f : A -> M B) (Q : A -> C -> Prop)
    (P : C -> B -> Prop) (l : list A) (ss : list C) (n : nat) :
  Forall2 Q l ss ->
  (forall x s, Q x s -> exists y, f x n = Ok (y, n) /\ P s y) ->
  exists ys, mapM f l n = Ok (ys, n) /\ Forall2 P ss ys.
Proof.
  intros F I. induction F as [|x s l ss Qxs F IH].
  - exists []. split; [reflexivity | constructor].
  - destruct (I x s Qxs) as (y & Ey & Py). destruct IH as (ys & Eys & Pys).
    exists (y :: ys). split; [|constructor; assumption].
    cbn [mapM]. unfold bind at 1. rewrite Ey. unfold bind at 1. rewrite Eys.
    reflexivity.
Qed.

Lemma item_delta_shifts :
  Forall2 (fun item s =>
             item_delta item = Ok (relativedelta_of (fst s) (snd s)) /\ shift_ok s)
    WhoLogic.immunization_plan table_shifts.
Proof.
  unfold WhoLogic.immunization_plan, table_shifts, shift_ok.
  repeat (constructor;
    [split; [vm_compute; reflexivity | cbn [fst snd]; lia]|]).
  constructor.
Qed.

Lemma add_timedelta_inv (t r : datetime) (k : Z) :
  add_timedelta t k = Ok r ->
  1 <= toordinal t + k <= MAXORDINAL /\ r = plus_days t k.
Proof.
  unfold add_timedelta, plus_days. cbv zeta.
  destruct (Z.leb_spec 1 (toordinal t + k));
    destruct (Z.leb_spec (toordinal t + k) MAXORDINAL);
    cbn [andb]; intros E; try discriminate E.
  injection E as <-. split; [lia | reflexivity].
Qed.

Lemma dose_date_eq (D : datetime) (s : Z * Z) :
  dose_date D s = plus_days (plus_months D (fst s)) (snd s).
Proof. reflexivity. Qed.

Lemma dose_date_ok (D : datetime) (s : Z * Z) :
  valid_datetime D -> date_leb D (mkdatetime 9998 6 24) = true -> shift_ok s ->
  add_relativedelta D (relativedelta_of (fst s) (snd s)) = Ok (dose_date D s)
  /\ valid_datetime (dose_date D s)
  /\ toordinal (dose_date D s) = toordinal (plus_months D (fst s)) + snd s
  /\ toordinal (dose_date D s) + 7 <= MAXORDINAL
  /\ dt_year (plus_months D (fst s)) <= 9999.
Proof.
  intros V Le (K0 & Dy & Tot).
  pose proof V as V'. apply valid_datetime_iff in V'. destruct V' as (Y & M & Dd).
  assert (Hy : dt_year (plus_months D (fst s)) <= 9999).
  { apply date_leb_cases in Le. cbn [dt_year dt_month dt_day] in Le.
    unfold plus_months, month_index. cbn [dt_year].
    Z.div_mod_to_equations. lia. }
  destruct (add_relativedelta_in_range D (fst s / 12) (fst s mod 12) (snd s) V Le)
    as (t & Et & Vt & Ot & _); try (Z.div_mod_to_equations; lia).
  rewrite <- relativedelta_of_nonneg in Et by exact K0.
  rewrite Et. rewrite add_relativedelta_plus_months in Et by assumption.
  apply add_timedelta_inv in Et. destruct Et as [R ->].
  destruct (plus_days_spec (plus_months D (fst s)) (snd s) R) as [_ Od].
  rewrite dose_date_eq.
  split; [reflexivity|]. split; [exact Vt|]. split; [exact Od|].
  split; [exact Ot | exact Hy].
Qed.

Lemma immunization_activity_window (D : datetime) (item : WhoLogic.plan_item)
    (s : Z * Z) (n : nat) :
  valid_datetime D -> date_leb D (mkdatetime 9998 6 24) = true ->
  item_delta item = Ok (relativedelta_of (fst s) (snd s)) -> shift_ok s ->
  exists a,
    WhoLogic.immunization_activity D item n = Ok (a, n)
    /\ activity_start a = Some (isoformat (dose_date D s))
    /\ activity_end a = Some (isoformat (plus_days (dose_date D s) 7)).
Proof.
  intros V Le Ed Sok.
  destruct (dose_date_ok D s V Le Sok) as (Et & Vt & _ & Ot & _).
  pose proof (toordinal_range _ Vt) as Rt.
  unfold WhoLogic.immunization_activity.
  rewrite vaccine_date_of_delta, Ed. cbn [rbind]. rewrite Et.
  unfold bind at 1. unfold lift at 1.
  destruct (WhoLogic.vaccine_code (WhoLogic.vaccine item)) as [[cs cv] dtxt].
  unfold timedelta_days. rewrite (add_timedelta_ok (dose_date D s) 7) by lia.
  unfold bind, lift, ret.
  eexists. split; [reflexivity|].
  unfold activity_end, activity_start, follow. read_literal.
  split; reflexivity.
Qed.

Lemma immunization_dates (D : datetime) (data : gmap string pyval) (patient_id : pyval)
    (n : nat) :
  valid_datetime D ->
  date_leb D (mkdatetime 9998 6 24) = true ->
  data !! "dob" = Some (PStr (iso_date D)) ->
  data !! "patient_id" = Some patient_id ->
  exists plan acts,
    WhoLogic.get_immunization_schedule_logic data n = Ok (plan, S n)
    /\ activities_of plan = Some acts
    /\ Forall2 (fun s a =>
                  activity_start a = Some (isoformat (dose_date D s))
                  /\ activity_end a = Some (isoformat (plus_days (dose_date D s) 7)))
         table_shifts acts.
Proof.
  intros V Le Ld Lp.
  destruct (mapM_Forall2_along (WhoLogic.immunization_activity D)
              (fun item s =>
                 item_delta item = Ok (relativedelta_of (fst s) (snd s)) /\ shift_ok s)
              (fun s a =>
                 activity_start a = Some (isoformat (dose_date D s))
                 /\ activity_end a = Some (isoformat (plus_days (dose_date D s) 7)))
              WhoLogic.immunization_plan table_shifts (S n) item_delta_shifts)
    as (acts & E & F).
  { intros item s [Ed Sok]. apply immunization_activity_window; assumption. }
  unfold WhoLogic.get_immunization_schedule_logic.
  rewrite (dict_nonempty _ _ _ Ld), (dict_contains_Some _ _ _ Ld),
    (dict_contains_Some _ _ _ Lp). cbn [negb orb].
  unfold bind at 1. unfold try_except_ValueError. unfold bind at 1 2 3.
  unfold lift at 1 2 3.
  rewrite (dict_item_Some _ _ _ Ld), (strptime_of_iso_date D V),
    (dict_item_Some _ _ _ Lp).
  unfold ret at 1. unfold bind at 1. unfold WhoLogic.create_fhir_id at 1.
  unfold bind at 1. rewrite E. unfold ret.
  eexists. exists acts. split; [reflexivity|].
  split; [unfold activities_of; read_literal; reflexivity|]. exact F.
Qed.


Lemma dose_order (D : datetime) (s s' : Z * Z) :
  valid_datetime D -> date_leb D (mkdatetime 9998 6 24) = true ->
  shift_ok s -> shift_ok s' ->
  fst s < fst s' -> snd s <= snd s' + 28 * (fst s' - fst s - 1) ->
  toordinal (dose_date D s) <= toordinal (dose_date D s').
Proof.
  intros V Le Sok Sok' Lt Dy.
  destruct (dose_date_ok D s V Le Sok) as (_ & _ & O & _ & Hy).
  destruct (dose_date_ok D s' V Le Sok') as (_ & _ & O' & _ & Hy').
  destruct Sok as (K0 & _). destruct Sok' as (K0' & D0' & _).
  destruct (plus_months_spec D (fst s) V K0 Hy) as (_ & _ & P & _ & B).
  destruct (plus_months_spec D (fst s') V K0' Hy') as (_ & _ & P' & B' & _).
  pose proof (month_start_step (month_index D + fst s)) as St.
  pose proof (month_start_mono (month_index D + fst s + 1) (fst s' - fst s - 1)
                ltac:(lia)) as Mo.
  replace (month_index D + fst s + 1 + (fst s' - fst s - 1))
    with (month_index D + fst s') in Mo by lia.
  lia.
Qed.

Lemma dose_not_before_birth (D : datetime) (s : Z * Z) :
  valid_datetime D -> date_leb D (mkdatetime 9998 6 24) = true -> shift_ok s ->
  toordinal D <= toordinal (dose_date D s).
Proof.
  intros V Le Sok.
  destruct (dose_date_ok D s V Le Sok) as (_ & _ & O & _ & Hy).
  destruct Sok as (K0 & D0 & _).
  destruct (plus_months_spec D (fst s) V K0 Hy) as (_ & _ & P & B & _).
  pose proof V as V'. apply valid_datetime_iff in V'. destruct V' as (_ & M & Dd).
  destruct (month_index_fields D M) as [Ey Em].
  rewrite O, P, (toordinal_month_start D V).
  destruct (Z.eq_dec (fst s) 0) as [E0|N0].
  - rewrite E0 in *. rewrite (plus_months_0 D V) in *. rewrite Z.add_0_r. lia.
  - pose proof (month_start_step (month_index D)) as St. rewrite Ey, Em in St.
    pose proof (month_start_mono (month_index D + 1) (fst s - 1) ltac:(lia)) as Mo.
    replace (month_index D + 1 + (fst s - 1)) with (month_index D + fst s) in Mo by lia.
    lia.
Qed.

Lemma table_shifts_ok : Forall shift_ok table_shifts.
Proof.
  unfold table_shifts, shift_ok.
  repeat (constructor; [cbn [fst snd]; lia|]). constructor.
Qed.

Lemma table_shifts_in_order (D : datetime) :
  valid_datetime D -> date_leb D (mkdatetime 9998 6 24) = true ->
  nondecreasing (map (fun s => toordinal (dose_date D s)) table_shifts).
Proof.
  intros V Le. unfold table_shifts. cbn [map nondecreasing].
  repeat split;
    first [ apply Z.le_refl
          | apply dose_order; [exact V | exact Le | | | |];
            unfold shift_ok; cbn [fst snd]; lia ].
Qed.

(** X17.  The dates of the immunization schedule for a valid date of birth
    [D] not after 9998-06-24: row by row the dose is due whole calendar
    months after [D] (the day of the month kept, or clipped to the length of
    the month), 15 days later still for the rows of 1.5, 2.5 and 3.5 months,
    and every window ends 7 days after it starts. *)
Theorem immunization_dates_by_calendar_months
    (D : datetime) (data : gmap string pyval) (patient_id : pyval) (n : nat) :
  valid_datetime D ->
  date_leb D (mkdatetime 9998 6 24) = true ->
  data !! "dob" = Some (PStr (iso_date D)) ->
  data !! "patient_id" = Some patient_id ->
  exists plan acts,
    WhoLogic.get_immunization_schedule_logic data n = Ok (plan, S n)
    /\ activities_of plan = Some acts
    /\ map activity_start acts
       = map (fun s => Some (isoformat (dose_date D s))) table_shifts
    /\ map activity_end acts
       = map (fun s => Some (isoformat (plus_days (dose_date D s) 7))) table_shifts
    /\ Forall (fun s =>
                 valid_datetime (plus_months D (fst s))
                 /\ valid_datetime (dose_date D s)
                 /\ toordinal (dose_date D s)
                    = toordinal (plus_months D (fst s)) + snd s)
         table_shifts.
Proof.
  intros V Le Ld Lp.
  destruct (immunization_dates D data patient_id n V Le Ld Lp)
    as (plan & acts & E & A & F).
  exists plan, acts. split; [exact E|]. split; [exact A|].
  split; [eapply Forall2_map_eq; [|exact F]; intros s a [S _]; exact S|].
  split; [eapply Forall2_map_eq; [|exact F]; intros s a [_ En]; exact En|].
  eapply Forall_impl; [exact table_shifts_ok|].
  intros s Sok. destruct (dose_date_ok D s V Le Sok) as (_ & Vd & O & _ & Hy).
  destruct Sok as (K0 & _).
  destruct (plus_months_spec D (fst s) V K0 Hy) as (Vp & _).
  split; [exact Vp|]. split; [exact Vd | exact O].
Qed.

(** X18.  The immunization schedule lists its doses in date order, and none
    before the date of birth. *)
Theorem immunization_doses_are_in_date_order
    (D : datetime) (data : gmap string pyval) (patient_id : pyval) (n : nat) :
  valid_datetime D ->
  date_leb D (mkdatetime 9998 6 24) = true ->
  data !! "dob" = Some (PStr (iso_date D)) ->
  data !! "patient_id" = Some patient_id ->
  exists plan acts ts,
    WhoLogic.get_immunization_schedule_logic data n = Ok (plan, S n)
    /\ activities_of plan = Some acts
    /\ map activity_start acts = map (fun t => Some (isoformat t)) ts
    /\ Forall (fun t => valid_datetime t /\ toordinal D <= toordinal t) ts
    /\ nondecreasing (map toordinal ts).
Proof.
  intros V Le Ld Lp.
  destruct (immunization_dates D data patient_id n V Le Ld Lp)
    as (plan & acts & E & A & F).
  exists plan, acts, (map (dose_date D) table_shifts).
  split; [exact E|]. split; [exact A|]. split.
  - rewrite map_map. eapply Forall2_map_eq; [|exact F]. intros s a [S _]. exact S.
  - split.
    + apply Forall_map. eapply Forall_impl; [exact table_shifts_ok|].
      intros s Sok. destruct (dose_date_ok D s V Le Sok) as (_ & Vd & _).
      split; [exact Vd | apply dose_not_before_birth; assumption].
    + rewrite map_map. apply table_shifts_in_order; assumption.
Qed.

End Doses.

(** ** Closed instances of the further properties *)

(** A date written without its leading zeros is taken, and echoed as it
    came. *)
Lemma calculate_edd_echoes_witness :
  let data : gmap string pyval := {[ "lmp_date" := PStr "2024-2-9" ]} in
  strptime_ymd "2024-2-9" = Some (mkdatetime 2024 2 9)
  /\ toordinal (mkdatetime 2024 2 9) + 280 <= MAXORDINAL
  /\ data !! "lmp_date" = Some (PStr "2024-2-9")
  /\ @WhoLogic.calculate_edd_logic demo_runtime data 0%nat
     = Ok (mkdict [("lmp_date", PStr "2024-2-9");
                   ("estimated_delivery_date", PStr "2024-11-15");
                   ("calculation_method", PStr "Naegele's Rule (LMP + 280 days)")],
           0%nat).
Proof.
  cbv zeta.
  assert (R : toordinal (mkdatetime 2024 2 9) + 280 <= MAXORDINAL)
    by (vm_compute; discriminate).
  split; [reflexivity|]. split; [exact R|]. split; [reflexivity|].
  destruct (@calculate_edd_echoes_any_accepted_text demo_runtime "2024-2-9"
              (mkdatetime 2024 2 9) {[ "lmp_date" := PStr "2024-2-9" ]} 0%nat)
    as (A & _); [reflexivity | exact R | reflexivity |].
  exact A.
Defined.

(** The 30th of February is answered with status 400 by the three
    operations. *)
Lemma unparsable_date_text_witness :
  let data_l : gmap string pyval := {[ "lmp_date" := PStr "2023-02-30" ]} in
  let data_i : gmap string pyval :=
    list_to_map [("dob", PStr "2023-02-30"); ("patient_id", PStr "child-1")] in
  strptime_ymd "2023-02-30" = None
  /\ data_l !! "lmp_date" = Some (PStr "2023-02-30")
  /\ data_i !! "dob" = Some (PStr "2023-02-30")
  /\ data_i !! "patient_id" = Some (PStr "child-1")
  /\ (response_status <$> returned (@WhoLogic.calculate_edd_logic demo_runtime data_l 0%nat))
     = Some 400
  /\ (response_status <$>
        returned (@WhoLogic.schedule_anc_visits_logic demo_runtime data_l 0%nat))
     = Some 400
  /\ (response_status <$>
        returned (@WhoLogic.get_immunization_schedule_logic demo_runtime data_i 0%nat))
     = Some 400.
Proof.
  cbv zeta. do 4 (split; [reflexivity|]).
  destruct (@unparsable_date_text_is_answered_400 demo_runtime "2023-02-30"
              (PStr "child-1") {[ "lmp_date" := PStr "2023-02-30" ]}
              {[ "lmp_date" := PStr "2023-02-30" ]}
              (list_to_map [("dob", PStr "2023-02-30"); ("patient_id", PStr "child-1")])
              0%nat) as (A & B & C); [reflexivity..|].
  rewrite A, (B ltac:(discriminate)), C. repeat split.
Defined.

(** A date given as the number 20240101. *)
Lemma date_that_is_not_text_witness :
  let data_l : gmap string pyval := {[ "lmp_date" := PInt 20240101 ]} in
  let data_i : gmap string pyval :=
    list_to_map [("dob", PInt 20240101); ("patient_id", PStr "child-1")] in
  as_str (PInt 20240101) = None /\ truthy (PInt 20240101) = true
  /\ data_l !! "lmp_date" = Some (PInt 20240101)
  /\ data_i !! "dob" = Some (PInt 20240101)
  /\ data_i !! "patient_id" = Some (PStr "child-1")
  /\ @WhoLogic.calculate_edd_logic demo_runtime data_l 0%nat = Raise TypeError
  /\ @WhoLogic.schedule_anc_visits_logic demo_runtime data_l 0%nat = Raise TypeError
  /\ @WhoLogic.get_immunization_schedule_logic demo_runtime data_i 0%nat
     = Raise TypeError.
Proof.
  cbv zeta. do 5 (split; [reflexivity|]).
  destruct (@date_that_is_not_text_raises_TypeError demo_runtime (PInt 20240101)
              (PStr "child-1") {[ "lmp_date" := PInt 20240101 ]}
              {[ "lmp_date" := PInt 20240101 ]}
              (list_to_map [("dob", PInt 20240101); ("patient_id", PStr "child-1")])
              0%nat) as (A & _ & B & C & _); [reflexivity..|].
  destruct (B eq_refl) as [B1 _].
  split; [exact A|]. split; [exact B1 | exact C].
Defined.

(** An [edd_date] that is no date does no harm beside an [lmp_date]. *)
Lemma schedule_lmp_date_precedence_witness :
  let data : gmap string pyval := {[ "lmp_date" := PStr "2024-01-01" ]} in
  truthy (dict_get data "lmp_date" PNone) = true
  /\ @WhoLogic.schedule_anc_visits_logic demo_runtime
       (<["edd_date" := PStr "soon"]> data) 0%nat
     = @WhoLogic.schedule_anc_visits_logic demo_runtime data 0%nat.
Proof.
  cbv zeta. split; [reflexivity|].
  destruct (@schedule_lmp_date_takes_precedence demo_runtime
              {[ "lmp_date" := PStr "2024-01-01" ]} (PStr "soon") 0%nat) as [A _];
    [reflexivity|].
  exact A.
Defined.

Lemma schedule_period_witness :
  let D := mkdatetime 2024 1 1 in
  let data : gmap string pyval := {[ "lmp_date" := PStr "2024-01-01" ]} in
  valid_datetime D
  /\ toordinal D + 281 <= MAXORDINAL
  /\ data !! "lmp_date" = Some (PStr (iso_date D))
  /\ exists plan,
       @WhoLogic.schedule_anc_visits_logic demo_runtime data 0%nat = Ok (plan, 1%nat)
       /\ period_start plan = Some "2024-01-01T00:00:00"
       /\ period_end plan = Some "2024-10-07T00:00:00"
       /\ last_activity_start plan = Some "2024-10-07T00:00:00".
Proof.
  cbv zeta.
  assert (R : toordinal (mkdatetime 2024 1 1) + 281 <= MAXORDINAL)
    by (vm_compute; discriminate).
  split; [reflexivity|]. split; [exact R|]. split; [reflexivity|].
  destruct (@schedule_period_and_visit_windows demo_runtime (mkdatetime 2024 1 1)
              {[ "lmp_date" := PStr "2024-01-01" ]} 0%nat)
    as (plan & acts & E & _ & Ps & Pe & La & _); [reflexivity | exact R | reflexivity |].
  exists plan. split; [exact E|]. split; [exact Ps|]. split; [exact Pe | exact La].
Defined.

Lemma schedule_from_the_computed_delivery_date_witness :
  let D := mkdatetime 2024 1 1 in
  let data_l : gmap string pyval := {[ "lmp_date" := PStr "2024-01-01" ]} in
  let data_e : gmap string pyval := {[ "edd_date" := PStr "2024-10-07" ]} in
  valid_datetime D
  /\ toordinal D + 280 <= MAXORDINAL
  /\ @strftime_year demo_runtime (dt_year (plus_days D 280))
     = zfill4 (dt_year (plus_days D 280))
  /\ data_l !! "lmp_date" = Some (PStr (iso_date D))
  /\ truthy (dict_get data_e "lmp_date" PNone) = false
  /\ data_e !! "edd_date"
     = (returned (@WhoLogic.calculate_edd_logic demo_runtime data_l 0%nat)
          ≫= at_key "estimated_delivery_date")
  /\ data_e !! "patient_id" = data_l !! "patient_id"
  /\ @WhoLogic.schedule_anc_visits_logic demo_runtime data_e 0%nat
     = @WhoLogic.schedule_anc_visits_logic demo_runtime data_l 0%nat.
Proof.
  cbv zeta.
  assert (R : toordinal (mkdatetime 2024 1 1) + 280 <= MAXORDINAL)
    by (vm_compute; discriminate).
  assert (C : ({[ "edd_date" := PStr "2024-10-07" ]} : gmap string pyval) !! "edd_date"
              = (returned (@WhoLogic.calculate_edd_logic demo_runtime
                             {[ "lmp_date" := PStr "2024-01-01" ]} 0%nat)
                   ≫= at_key "estimated_delivery_date"))
    by (vm_compute; reflexivity).
  split; [reflexivity|]. split; [exact R|]. split; [reflexivity|].
  split; [reflexivity|]. split; [reflexivity|]. split; [exact C|].
  split; [reflexivity|].
  apply (@schedule_from_the_computed_delivery_date demo_runtime (mkdatetime 2024 1 1)
           {[ "lmp_date" := PStr "2024-01-01" ]} {[ "edd_date" := PStr "2024-10-07" ]}
           0%nat);
    [reflexivity | exact R | reflexivity | reflexivity | reflexivity | exact C
    | reflexivity].
Defined.

Lemma pregnancy_episode_witness :
  let details : gmap string pyval :=
    list_to_map [("given_name", PStr "Amina"); ("family_name", PStr "Diallo")] in
  let data : gmap string pyval := {[ "patient_details" := PDict details ]} in
  data !! "patient_details" = Some (PDict details)
  /\ exists v,
       @WhoLogic.register_pregnancy_logic demo_runtime data 0%nat = Ok (v, 3%nat)
       /\ response_status v = 201
       /\ registered_patient_id v = Some (PStr "id-0")
       /\ episode_patient_reference v = Some (PStr "Patient/id-0").
Proof.
  cbv zeta. split; [reflexivity|].
  destruct (@pregnancy_episode_refers_to_the_patient demo_runtime
              (list_to_map [("given_name", PStr "Amina"); ("family_name", PStr "Diallo")])
              {[ "patient_details" :=
                   PDict (list_to_map [("given_name", PStr "Amina");
                                       ("family_name", PStr "Diallo")]) ]} 0%nat)
    as (v & w & E & _ & S & _ & I & R & _); [reflexivity|].
  exists v. split; [exact E|]. split; [exact S|]. split; [exact I | exact R].
Defined.

(** Details given as one text. *)
Lemma registration_details_witness :
  let data_p : gmap string pyval := {[ "patient_details" := PStr "Amina Diallo" ]} in
  let data_c : gmap string pyval := {[ "child_details" := PStr "Amina Diallo" ]} in
  is_dict (PStr "Amina Diallo") = false
  /\ data_p !! "patient_details" = Some (PStr "Amina Diallo")
  /\ data_c !! "child_details" = Some (PStr "Amina Diallo")
  /\ @WhoLogic.register_pregnancy_logic demo_runtime data_p 0%nat = Raise AttributeError
  /\ @WhoLogic.register_child_logic demo_runtime data_c 0%nat = Raise AttributeError.
Proof.
  cbv zeta. do 3 (split; [reflexivity|]).
  destruct (@registration_details_that_are_no_dictionary demo_runtime
              (PStr "Amina Diallo") {[ "patient_details" := PStr "Amina Diallo" ]}
              {[ "child_details" := PStr "Amina Diallo" ]} 0%nat)
    as (A & _ & B & _); [reflexivity..|].
  split; [exact A | exact B].
Defined.

(** The analysis of an empty request is the first of the four answers. *)
Lemma analysis_answer_witness :
  @WhoLogic.analyze_anc_visit_data_logic demo_runtime ∅ 0%nat
  = Ok (WhoLogic.analysis_result ([], []), 0%nat)
  /\ exists bp bleeding,
       WhoLogic.analysis_result ([], [])
       = WhoLogic.analysis_result (expected_findings bp bleeding).
Proof.
  split; [reflexivity|].
  destruct (@analysis_answer_is_one_of_four demo_runtime ∅ 0%nat 0%nat
              (WhoLogic.analysis_result ([], [])))
    as (_ & bp & bleeding & _ & _ & E & _); [left; reflexivity|].
  exists bp, bleeding. exact E.
Defined.

(** [bleeding] given as the number 1 is not flagged. *)
Lemma bleeding_flag_witness :
  let symptoms : gmap string pyval := {[ "bleeding" := PInt 1 ]} in
  let data : gmap string pyval := {[ "symptoms" := PDict symptoms ]} in
  data !! "vitals" = None
  /\ data !! "symptoms" = Some (PDict symptoms)
  /\ symptoms !! "bleeding" = Some (PInt 1)
  /\ truthy (PInt 1) = true
  /\ exists v,
       @WhoLogic.analyze_anc_visit_data_logic demo_runtime data 0%nat = Ok (v, 0%nat)
       /\ MainPy.analyze_anc_visit_data data 0%nat = Ok (v, 0%nat)
       /\ risks_of v = Some [WhoLogic.no_risk].
Proof.
  cbv zeta. do 4 (split; [reflexivity|]).
  destruct (@bleeding_is_flagged_only_for_True demo_runtime (PInt 1)
              {[ "bleeding" := PInt 1 ]}
              {[ "symptoms" := PDict {[ "bleeding" := PInt 1 ]} ]} 0%nat)
    as (v & E & E' & _ & N); [reflexivity..|].
  exists v. split; [exact E|]. split; [exact E'|].
  apply N. discriminate.
Defined.

(** A systolic reading given as a word, beside a diastolic reading of 200. *)
Lemma unparsable_systolic_witness :
  let vitals : gmap string pyval :=
    list_to_map [("bp_systolic", PStr "high"); ("bp_diastolic", PInt 200)] in
  let data : gmap string pyval := {[ "vitals" := PDict vitals ]} in
  @int_of_string demo_runtime "high" = None
  /\ truthy (PInt 200) = true /\ at_least (PInt 200) 90 = true
  /\ data !! "vitals" = Some (PDict vitals)
  /\ vitals !! "bp_systolic" = Some (PStr "high")
  /\ vitals !! "bp_diastolic" = Some (PInt 200)
  /\ data !! "symptoms" = None
  /\ (returned (@WhoLogic.analyze_anc_visit_data_logic demo_runtime data 0%nat)
        ≫= count_bp_flags) = Some 0%nat
  /\ MainPy.analyze_anc_visit_data data 0%nat = Raise TypeError.
Proof.
  cbv zeta. do 7 (split; [reflexivity|]).
  destruct (@unparsable_systolic_text_suppresses_the_check demo_runtime "high"
              (PInt 200)
              (list_to_map [("bp_systolic", PStr "high"); ("bp_diastolic", PInt 200)])
              {[ "vitals" :=
                   PDict (list_to_map [("bp_systolic", PStr "high");
                                       ("bp_diastolic", PInt 200)]) ]} 0%nat)
    as (A & C & B); [discriminate | reflexivity..|].
  rewrite A. split; [exact C | exact B].
Defined.

(** A systolic reading of 150 beside a diastolic reading that is no number. *)
Lemma high_systolic_witness :
  let vitals : gmap string pyval :=
    list_to_map [("bp_systolic", PInt 150); ("bp_diastolic", PStr "n/a")] in
  let data : gmap string pyval := {[ "vitals" := PDict vitals ]} in
  is_reading (PInt 150) = true /\ at_least (PInt 150) 140 = true
  /\ truthy (PStr "n/a") = true
  /\ data !! "vitals" = Some (PDict vitals)
  /\ vitals !! "bp_systolic" = Some (PInt 150)
  /\ vitals !! "bp_diastolic" = Some (PStr "n/a")
  /\ data !! "symptoms" = None
  /\ (returned (@WhoLogic.analyze_anc_visit_data_logic demo_runtime data 0%nat)
        ≫= count_bp_flags) = Some 1%nat
  /\ (returned (MainPy.analyze_anc_visit_data data 0%nat) ≫= count_bp_flags)
     = Some 1%nat.
Proof.
  cbv zeta. do 7 (split; [reflexivity|]).
  destruct (@high_systolic_needs_no_readable_diastolic demo_runtime (PInt 150)
              (PStr "n/a")
              (list_to_map [("bp_systolic", PInt 150); ("bp_diastolic", PStr "n/a")])
              {[ "vitals" :=
                   PDict (list_to_map [("bp_systolic", PInt 150);
                                       ("bp_diastolic", PStr "n/a")]) ]} 0%nat)
    as (A & B & C); [reflexivity..|].
  rewrite A, B. split; exact C.
Defined.

(** A child of six years, five kilograms and sixty centimetres: normal for
    the age on both counts, on both surfaces. *)
Lemma growth_from_sixty_months_witness :
  let dob := mkdatetime 2018 1 1 in
  let measured := mkdatetime 2024 1 1 in
  let data := growth_request (PStr "2018-01-01") (PStr "2024-01-01") (PFloat 5)
                (PFloat 60) (PStr "Male") (PStr "child-1") in
  valid_datetime dob /\ valid_datetime measured
  /\ data !! "dob" = Some (PStr (iso_date dob))
  /\ data !! "measurement_date" = Some (PStr (iso_date measured))
  /\ data !! "weight_kg" = Some (PFloat 5)
  /\ data !! "height_cm" = Some (PFloat 60)
  /\ data !! "gender" = Some (PStr "Male")
  /\ data !! "patient_id" = Some (PStr "child-1")
  /\ sub_days measured dob = 2191
  /\ growth_view (@WhoLogic.growth_monitoring_logic demo_runtime data 0%nat)
     = Ok (Some [Some "N"; Some "N"; Some "L"])
  /\ growth_view (@MainPy.growth_monitoring demo_runtime data 0%nat)
     = Ok (Some [Some "N"; Some "N"; Some "L"]).
Proof.
  cbv zeta. do 9 (split; [reflexivity|]).
  destruct (@growth_from_sixty_months_on demo_runtime
              (growth_request (PStr "2018-01-01") (PStr "2024-01-01") (PFloat 5)
                 (PFloat 60) (PStr "Male") (PStr "child-1"))
              (mkdatetime 2018 1 1) (mkdatetime 2024 1 1) (PFloat 5) (PFloat 60)
              (PStr "child-1") 5%float 60%float "Male" 0%nat)
    as [A B]; [reflexivity.. | vm_compute; discriminate |].
  rewrite A, B. split; vm_compute; reflexivity.
Defined.

Lemma growth_surfaces_agree_witness :
  let dob := mkdatetime 2024 1 1 in
  let measured := mkdatetime 2024 3 1 in
  let data := growth_request (PStr "2024-01-01") (PStr "2024-03-01") (PFloat 3)
                (PFloat 55) (PStr "female") (PStr "child-1") in
  valid_datetime dob /\ valid_datetime measured
  /\ data !! "dob" = Some (PStr (iso_date dob))
  /\ data !! "measurement_date" = Some (PStr (iso_date measured))
  /\ data !! "weight_kg" = Some (PFloat 3)
  /\ data !! "height_cm" = Some (PFloat 55)
  /\ data !! "gender" = Some (PStr "female")
  /\ data !! "patient_id" = Some (PStr "child-1")
  /\ sub_days measured dob = 60
  /\ (0 <? 55)%float = true
  /\ growth_view (@MainPy.growth_monitoring demo_runtime data 0%nat)
     = growth_view (@WhoLogic.growth_monitoring_logic demo_runtime data 0%nat)
  /\ growth_view (@WhoLogic.growth_monitoring_logic demo_runtime data 0%nat)
     = Ok (Some [Some "N"; Some "N"; Some "N"]).
Proof.
  cbv zeta. do 10 (split; [reflexivity|]).
  destruct (@growth_surfaces_agree_on_codes demo_runtime
              (growth_request (PStr "2024-01-01") (PStr "2024-03-01") (PFloat 3)
                 (PFloat 55) (PStr "female") (PStr "child-1"))
              (mkdatetime 2024 1 1) (mkdatetime 2024 3 1) (PFloat 3) (PFloat 55)
              (PStr "child-1") 3%float 55%float "female" 0%nat)
    as [A B]; [reflexivity.. | vm_compute; discriminate | reflexivity |].
  split; [exact A|]. rewrite B. vm_compute. reflexivity.
Defined.

(** A newborn of one kilogram, whose weight-for-age is coded ["L"]: the call
    returns, and its note is the one for normal growth. *)
Lemma growth_note_witness :
  let data := growth_request (PStr "2020-01-01") (PStr "2020-01-01") (PFloat 1)
                (PFloat 50) (PStr "male") (PStr "child-1") in
  match @WhoLogic.growth_monitoring_logic demo_runtime data 0%nat with
  | Ok (v, _) =>
      response_status v = 200
      /\ growth_codes v = Some [Some "L"; Some "N"; Some "N"]
      /\ growth_note v = Some WhoLogic.growth_normal_note
      /\ growth_note v <> Some WhoLogic.growth_assess_note
  | Raise _ => False
  end.
Proof.
  cbv zeta.
  destruct (@WhoLogic.growth_monitoring_logic demo_runtime
              (growth_request (PStr "2020-01-01") (PStr "2020-01-01") (PFloat 1)
                 (PFloat 50) (PStr "male") (PStr "child-1")) 0%nat)
    as [[v k]|e] eqn:E; [|vm_compute in E; discriminate E].
  destruct (@growth_note_is_never_the_assessment_text demo_runtime _ _ _ _
              (or_introl E)) as [N S].
  assert (C : response_status v = 200 /\ growth_codes v = Some [Some "L"; Some "N"; Some "N"]).
  { vm_compute in E. injection E as <- <-. split; vm_compute; reflexivity. }
  destruct C as [St C]. split; [exact St|]. split; [exact C|].
  split; [exact (S St) | exact N].
Defined.

(** A child born on the last day of January of a leap year. *)
Lemma immunization_dates_witness :
  let D := mkdatetime 2024 1 31 in
  let data : gmap string pyval :=
    list_to_map [("dob", PStr "2024-01-31"); ("patient_id", PStr "child-1")] in
  valid_datetime D
  /\ date_leb D (mkdatetime 9998 6 24) = true
  /\ data !! "dob" = Some (PStr (iso_date D))
  /\ data !! "patient_id" = Some (PStr "child-1")
  /\ exists plan acts,
       @WhoLogic.get_immunization_schedule_logic demo_runtime data 0%nat
       = Ok (plan, 1%nat)
       /\ activities_of plan = Some acts
       /\ map activity_start acts
          = map (fun t => Some (t ++ "T00:00:00"))
              ["2024-01-31"; "2024-01-31"; "2024-01-31";
               "2024-03-15"; "2024-03-15"; "2024-03-15"; "2024-03-15";
               "2024-04-15"; "2024-04-15"; "2024-04-15"; "2024-04-15";
               "2024-05-15"; "2024-05-15"; "2024-05-15"; "2024-05-15";
               "2024-10-31"; "2024-10-31"; "2025-04-30"; "2025-07-31"; "2025-07-31"]
       /\ map activity_end (firstn 4 acts)
          = [Some "2024-02-07T00:00:00"; Some "2024-02-07T00:00:00";
             Some "2024-02-07T00:00:00"; Some "2024-03-22T00:00:00"].
Proof.
  cbv zeta. do 4 (split; [reflexivity|]).
  destruct (@immunization_dates_by_calendar_months demo_runtime (mkdatetime 2024 1 31)
              (list_to_map [("dob", PStr "2024-01-31"); ("patient_id", PStr "child-1")])
              (PStr "child-1") 0%nat)
    as (plan & acts & P & Ac & St & En & _); [reflexivity..|].
  exists plan, acts. split; [exact P|]. split; [exact Ac|]. split.
  - rewrite St. vm_compute. reflexivity.
  - rewrite <- firstn_map, En. vm_compute. reflexivity.
Defined.

Lemma immunization_order_witness :
  let D := mkdatetime 2024 1 31 in
  let data : gmap string pyval :=
    list_to_map [("dob", PStr "2024-01-31"); ("patient_id", PStr "child-1")] in
  valid_datetime D
  /\ date_leb D (mkdatetime 9998 6 24) = true
  /\ data !! "dob" = Some (PStr (iso_date D))
  /\ data !! "patient_id" = Some (PStr "child-1")
  /\ exists plan acts ts,
       @WhoLogic.get_immunization_schedule_logic demo_runtime data 0%nat
       = Ok (plan, 1%nat)
       /\ activities_of plan = Some acts
       /\ map activity_start acts = map (fun t => Some (isoformat t)) ts
       /\ Forall (fun t => valid_datetime t /\ toordinal D <= toordinal t) ts
       /\ nondecreasing (map toordinal ts).
Proof.
  cbv zeta. do 4 (split; [reflexivity|]).
  apply (@immunization_doses_are_in_date_order demo_runtime (mkdatetime 2024 1 31)
           (list_to_map [("dob", PStr "2024-01-31"); ("patient_id", PStr "child-1")])
           (PStr "child-1") 0%nat); reflexivity.
Defined.
